(** * Synmax data agent: planner, filter engine, aggregation and executor

    A shallow embedding of [src/planner.py], [src/analysis.py], the
    dispatcher [execute_plan] and the session loop of [src/agent.py], the
    schema of [src/preprocess.py] and the pure helpers of
    [src/dataset.py].

    Conventions of the embedding.
    - Python [str] is [string]; the text primitives ([lower], [strip], [in],
      the [re] classes) are the ASCII ones.
    - Python [int] is [Z]; Python [float] and numpy [float64] are the
      kernel's binary64 [float], whose operations compute.
    - A raised exception is the [Raise] outcome of [result]; nothing in the
      modelled functions catches one.
    - Library routines whose algorithm is not part of the repository
      (difflib's similarity score, pandas' reduction kernels, ...) are the
      fields of the classes [SequenceMatcher] and [Pandas]; every statement
      below holds for all their instances. *)

From Stdlib Require Import String Ascii List ZArith Bool Lia.
From Stdlib Require Import PrimFloat SpecFloat FloatOps FloatAxioms.
From Stdlib Require Import Permutation.
Import ListNotations.

Open Scope string_scope.
Open Scope list_scope.

(** ** Outcomes *)

Inductive exn := KeyError | IndexError | TypeError | ValueError.

Inductive result (A : Type) :=
| Ok (a : A)
| Raise (e : exn).
Arguments Ok {A} a.
Arguments Raise {A} e.

Definition bind {A B} (r : result A) (k : A -> result B) : result B :=
  match r with
  | Ok a => k a
  | Raise e => Raise e
  end.

Notation "x <- r ;; k" := (bind r (fun x => k))
  (at level 61, r at next level, right associativity).

Fixpoint mapM {A B} (f : A -> result B) (l : list A) : result (list B) :=
  match l with
  | [] => Ok []
  | a :: l' => b <- f a ;; bs <- mapM f l' ;; Ok (b :: bs)
  end.

(** ** Python text primitives (ASCII) *)

Module Py.

Definition code (c : ascii) : N := N_of_ascii c.

Definition in_range (lo hi : N) (c : ascii) : bool :=
  (N.leb lo (code c) && N.leb (code c) hi)%bool.

Definition is_digit (c : ascii) : bool := in_range 48 57 c.
Definition is_lower (c : ascii) : bool := in_range 97 122 c.
Definition is_upper (c : ascii) : bool := in_range 65 90 c.

(** [\w] *)
Definition is_word (c : ascii) : bool :=
  (is_digit c || is_lower c || is_upper c || Ascii.eqb c "_")%bool.

(** [str.isspace] and [\s] on ASCII: TAB..CR, FS..US and the space. *)
Definition is_space (c : ascii) : bool :=
  (in_range 9 13 c || in_range 28 32 c)%bool.

Definition to_lower (c : ascii) : ascii :=
  if is_upper c then ascii_of_N (code c + 32) else c.

Definition to_upper (c : ascii) : ascii :=
  if is_lower c then ascii_of_N (code c - 32) else c.

Fixpoint smap (f : ascii -> ascii) (s : string) : string :=
  match s with
  | EmptyString => EmptyString
  | String c r => String (f c) (smap f r)
  end.

(** [str.lower] and [str.upper] on ASCII text: the letters A-Z and a-z
    change, every other character stays.  The letters past ASCII, which
    Python changes too, are outside the model. *)
Definition lower : string -> string := smap to_lower.
Definition upper : string -> string := smap to_upper.

Fixpoint srev_onto (s acc : string) : string :=
  match s with
  | EmptyString => acc
  | String c r => srev_onto r (String c acc)
  end.

Definition srev (s : string) : string := srev_onto s EmptyString.

Fixpoint lstrip (s : string) : string :=
  match s with
  | String c r => if is_space c then lstrip r else s
  | EmptyString => EmptyString
  end.

Definition rstrip (s : string) : string := srev (lstrip (srev s)).
Definition strip (s : string) : string := lstrip (rstrip s).

Definition len (s : string) : nat := String.length s.

Definition startswith (s p : string) : bool := String.prefix p s.
Definition endswith (s p : string) : bool := String.prefix (srev p) (srev s).

(** [needle in hay] *)
Fixpoint str_in (needle hay : string) : bool :=
  (String.prefix needle hay ||
   match hay with
   | EmptyString => false
   | String _ r => str_in needle r
   end)%bool.

(** [any(p in q for p in ps)] *)
Definition any_in (q : string) (ps : list string) : bool :=
  existsb (fun p => str_in p q) ps.

(** [x in xs] for a list of strings *)
Definition mem (x : string) (xs : list string) : bool :=
  existsb (String.eqb x) xs.

Definition digit_val (c : ascii) : Z := Z.of_N (code c) - 48.

(** State of the scan of [digit (["_"] digit)*]. *)
Inductive dstate := DStart | DDigit | DUnder.

(** The whole of [s] read as a digit part with single underscores between
    digits; [acc] is the value and [cnt] the number of digits read so far. *)
Fixpoint digitpart (s : string) (st : dstate) (acc : Z) (cnt : nat)
  : option (Z * nat) :=
  match s with
  | EmptyString =>
      match st with
      | DDigit => Some (acc, cnt)
      | _ => None
      end
  | String c r =>
      if is_digit c then digitpart r DDigit (acc * 10 + digit_val c) (S cnt)
      else if Ascii.eqb c "_" then
        match st with
        | DDigit => digitpart r DUnder acc cnt
        | _ => None
        end
      else None
  end.

Definition split_sign (s : string) : bool * string :=
  match s with
  | String "-" r => (true, r)
  | String "+" r => (false, r)
  | _ => (false, s)
  end.

(** The most digits [int] converts: [sys.int_max_str_digits], 4300 by
    default (CPython 3.11, and the later releases of 3.7 to 3.10). *)
Definition int_max_str_digits : nat := 4300.

(** [int(s)]: [None] stands for the [ValueError], raised also on a text
    of more than [int_max_str_digits] digits. *)
Definition int (s : string) : option Z :=
  let (neg, body) := split_sign (strip s) in
  match digitpart body DStart 0 0 with
  | Some (v, cnt) =>
      if (int_max_str_digits <? cnt)%nat then None
      else Some (if neg then (- v)%Z else v)
  | None => None
  end.

(** [str(z)] for an [int]. *)
Definition digit_char (d : Z) : ascii := ascii_of_N (Z.to_N (d + 48)).

Fixpoint pos_digits (fuel : nat) (z : Z) (acc : string) : string :=
  match fuel with
  | O => acc
  | S f =>
      let acc' := String (digit_char (z mod 10)) acc in
      if (z <? 10)%Z then acc' else pos_digits f (z / 10) acc'
  end.

Definition str_of_int (z : Z) : string :=
  if (z <? 0)%Z
  then String "-" (pos_digits (S (Z.to_nat (Z.log2 (- z)))) (- z) EmptyString)
  else pos_digits (S (Z.to_nat (Z.log2 z))) z EmptyString.

(** Correct rounding of [(-1)^neg * p / q] to binary64 ([0 <= p], [0 < q]):
    a quotient of at least 64 bits and the position of the remainder. *)
Definition float_of_ratio (neg : bool) (p q : Z) : float :=
  if (p =? 0)%Z then SF2Prim (S754_zero neg)
  else
    let k := Z.max 0 (64 + Z.log2 q - Z.log2 p) in
    let num := (p * 2 ^ k)%Z in
    let r := (num mod q)%Z in
    let loc := if (r =? 0)%Z then loc_Exact
               else loc_Inexact (Z.compare (2 * r) q) in
    SF2Prim (binary_round_aux prec emax neg (num / q) (- k) loc).

(** [float(z)] for an [int]. *)
Definition float_of_int (z : Z) : float :=
  float_of_ratio (z <? 0)%Z (Z.abs z) 1.

(** [s] cut at its first character satisfying [p]. *)
Fixpoint split_at (p : ascii -> bool) (s : string) : string * option string :=
  match s with
  | EmptyString => (EmptyString, None)
  | String c r =>
      if p c then (EmptyString, Some r)
      else let (a, b) := split_at p r in (String c a, b)
  end.

(** [digitpart] where the empty text is allowed and counts no digit. *)
Definition opt_digitpart (s : string) : option (Z * nat) :=
  match s with
  | EmptyString => Some (0%Z, O)
  | _ => digitpart s DStart 0 0
  end.

(** The mantissa [[digitpart] "." digitpart | digitpart ["."]] as the
    integer of its digits and the number of digits after the point. *)
Definition mantissa (s : string) : option (Z * nat) :=
  match split_at (Ascii.eqb ".") s with
  | (ip, None) =>
      match digitpart ip DStart 0 0 with
      | Some (v, _) => Some (v, O)
      | None => None
      end
  | (ip, Some fp) =>
      match opt_digitpart ip, opt_digitpart fp with
      | Some (vi, ci), Some (vf, cf) =>
          match ci, cf with
          | O, O => None
          | _, _ => Some ((vi * 10 ^ Z.of_nat cf + vf)%Z, cf)
          end
      | _, _ => None
      end
  end.

Definition exponent (s : option string) : option Z :=
  match s with
  | None => Some 0%Z
  | Some e =>
      let (neg, body) := split_sign e in
      match digitpart body DStart 0 0 with
      | Some (v, _) => Some (if neg then (- v)%Z else v)
      | None => None
      end
  end.

(** [float(s)] for a [str]: [None] stands for the [ValueError]. *)
Definition float (s : string) : option PrimFloat.float :=
  let (neg, body) := split_sign (strip s) in
  let lb := lower body in
  if (String.eqb lb "inf" || String.eqb lb "infinity")%bool
  then Some (if neg then neg_infinity else infinity)
  else if String.eqb lb "nan" then Some nan
  else
    let (m, e) := split_at (fun c => Ascii.eqb (to_lower c) "e") body in
    match mantissa m, exponent e with
    | Some (v, frac), Some ex =>
        let e10 := (ex - Z.of_nat frac)%Z in
        Some (if (0 <=? e10)%Z
              then float_of_ratio neg (v * 10 ^ e10) 1
              else float_of_ratio neg v (10 ^ (- e10)))
    | _, _ => None
    end.

End Py.

(** ** The fragment of [re] the planner's patterns use

    Backtracking search with Python's priorities: the leftmost start, greedy
    quantifiers, alternatives in order.  Quantifiers apply to character
    classes only, which is all the patterns need. *)

Module Re.

Inductive regex :=
| Lit (s : string)                                   (* literal text *)
| Class (c : ascii -> bool) (lo : nat) (hi : option nat)
                                                     (* [c]{lo,hi}, greedy *)
| Alt (a b : regex)                                  (* a|b *)
| Seq (a b : regex)
| Group (r : regex)                                  (* ( r ) *)
| WordB                                              (* \b *)
| Eos.                                               (* $ *)

Definition one c := Class c 1 (Some 1%nat).          (* [c] *)
Definition plus c := Class c 1 None.                 (* [c]+ *)
Definition star c := Class c 0 None.                 (* [c]* *)
Definition opt c := Class c 0 (Some 1%nat).          (* [c]? *)

Fixpoint seq (rs : list regex) : regex :=
  match rs with
  | [] => Lit ""
  | [r] => r
  | r :: rs' => Seq r (seq rs')
  end.

(** [s] without its prefix [l], and the last character passed. *)
Fixpoint eat (l s : string) (prev : option ascii)
  : option (option ascii * string) :=
  match l with
  | EmptyString => Some (prev, s)
  | String c l' =>
      match s with
      | String d s' => if Ascii.eqb c d then eat l' s' (Some d) else None
      | EmptyString => None
      end
  end.

Definition word_at (c : option ascii) : bool :=
  match c with
  | Some x => Py.is_word x
  | None => false
  end.

Definition next_char (s : string) : option ascii :=
  match s with
  | String c _ => Some c
  | EmptyString => None
  end.

Definition room (hi : option nat) : bool :=
  match hi with
  | Some O => false
  | _ => true
  end.

Section Match.
Context {A : Type}.

(** Greedy repetition: one more character first, the shorter run on
    failure of the rest. *)
Fixpoint rep (c : ascii -> bool) (lo : nat) (hi : option nat)
    (prev : option ascii) (s : string)
    (k : option ascii -> string -> option A) {struct s} : option A :=
  let stop := match lo with
              | O => k prev s
              | S _ => None
              end in
  match s with
  | String x s' =>
      if (c x && room hi)%bool then
        match rep c (Nat.pred lo) (option_map Nat.pred hi) (Some x) s' k with
        | Some r => Some r
        | None => stop
        end
      else stop
  | EmptyString => stop
  end.

(** [run r prev s caps k]: match [r] at the head of [s] ([prev] is the
    character before it), then the rest of the pattern [k] on what is
    left; [caps] are the groups closed so far. *)
Fixpoint run (r : regex) (prev : option ascii) (s : string)
    (caps : list string)
    (k : option ascii -> string -> list string -> option A) : option A :=
  match r with
  | Lit l =>
      match eat l s prev with
      | Some (p, s') => k p s' caps
      | None => None
      end
  | Class c lo hi => rep c lo hi prev s (fun p s' => k p s' caps)
  | Alt a b =>
      match run a prev s caps k with
      | Some x => Some x
      | None => run b prev s caps k
      end
  | Seq a b => run a prev s caps (fun p s' caps' => run b p s' caps' k)
  | Group a =>
      run a prev s caps
        (fun p s' caps' =>
           k p s' (caps' ++
                   [String.substring 0 (String.length s - String.length s') s]))
  | WordB =>
      if xorb (word_at prev) (word_at (next_char s)) then k prev s caps
      else None
  | Eos =>
      match s with
      | EmptyString => k prev s caps
      | String c EmptyString =>
          if Ascii.eqb c (ascii_of_N 10) then k prev s caps else None
      | _ => None
      end
  end.
End Match.

Fixpoint search_from (r : regex) (prev : option ascii) (s : string)
  : option (list string) :=
  match run r prev s [] (fun _ _ caps => Some caps) with
  | Some caps => Some caps
  | None =>
      match s with
      | String c s' => search_from r (Some c) s'
      | EmptyString => None
      end
  end.

(** [re.search(r, s)]: the groups of the first match. *)
Definition search (r : regex) (s : string) : option (list string) :=
  search_from r None s.

(** [m.group(i)], [i >= 1]. *)
Definition group (caps : list string) (i : nat) : string :=
  nth (Nat.pred i) caps "".

End Re.

(** ** difflib.get_close_matches *)

(** [SequenceMatcher(None, a, b).ratio()], the Ratcliff/Obershelp similarity
    of difflib: a routine of the Python library, not of the repository. *)
Class SequenceMatcher := { seq_ratio : string -> string -> float }.

Definition cutoff_07 : float := 0x1.6666666666666p-1%float.   (* 0.7 *)
Definition cutoff_08 : float := 0x1.999999999999ap-1%float.   (* 0.8 *)

Module Difflib.

(** [_calculate_ratio(matches, length)] *)
Definition calculate_ratio (matches length : Z) : float :=
  if (length =? 0)%Z then 1%float
  else (2 * Py.float_of_int matches / Py.float_of_int length)%float.

Definition real_quick_ratio (a b : string) : float :=
  let la := Z.of_nat (Py.len a) in
  let lb := Z.of_nat (Py.len b) in
  calculate_ratio (Z.min la lb) (la + lb).

Fixpoint count_char (c : ascii) (s : string) : Z :=
  match s with
  | EmptyString => 0
  | String d r => ((if Ascii.eqb c d then 1 else 0) + count_char c r)%Z
  end.

Fixpoint avail_get (c : ascii) (avail : list (ascii * Z)) : option Z :=
  match avail with
  | [] => None
  | (d, n) :: r => if Ascii.eqb c d then Some n else avail_get c r
  end.

(** The loop of [quick_ratio]: [avail] maps a character of [a] to how many
    of its occurrences in [b] are not paired yet. *)
Fixpoint quick_matches (a b : string) (avail : list (ascii * Z)) : Z :=
  match a with
  | EmptyString => 0
  | String elt r =>
      let numb := match avail_get elt avail with
                  | Some n => n
                  | None => count_char elt b
                  end in
      ((if 0 <? numb then 1 else 0)
       + quick_matches r b ((elt, numb - 1) :: avail))%Z
  end.

Definition quick_ratio (a b : string) : float :=
  calculate_ratio (quick_matches a b [])
                  (Z.of_nat (Py.len a) + Z.of_nat (Py.len b)).

(** Order of the [(score, x)] tuples. *)
Definition scored_lt (p q : float * string) : bool :=
  if (fst p =? fst q)%float then String.ltb (snd p) (snd q)
  else (fst p <? fst q)%float.

(** [sorted(result, reverse=True)]: stable, largest first. *)
Fixpoint insert_desc (x : float * string) (l : list (float * string))
  : list (float * string) :=
  match l with
  | [] => [x]
  | y :: l' => if scored_lt y x then x :: l else y :: insert_desc x l'
  end.

Definition nlargest (n : nat) (l : list (float * string))
  : list (float * string) :=
  firstn n (fold_left (fun acc x => insert_desc x acc) l []).

Section WithRatio.
Context `{SequenceMatcher}.

(** [get_close_matches(word, possibilities, n, cutoff)] for [n > 0] and
    [0 <= cutoff <= 1] (the planner passes 1 and 0.7 or 0.8). *)
Definition get_close_matches (word : string) (possibilities : list string)
    (n : nat) (cutoff : float) : list string :=
  let result :=
    flat_map
      (fun x =>
         if ((cutoff <=? real_quick_ratio x word)%float
             && (cutoff <=? quick_ratio x word)%float
             && (cutoff <=? seq_ratio x word)%float)%bool
         then [(seq_ratio x word, x)] else [])
      possibilities in
  map snd (nlargest n result).
End WithRatio.

End Difflib.

(** ** Plans *)

(** A value of a filter or a bound: [int], [float] or [str]. *)
Inductive literal :=
| LInt (z : Z)
| LFloat (f : float)
| LStr (s : string).

(** A dict-valued filter: the predicate keys [apply_filters] looks for,
    each present ([Some]) or absent. *)
Record preds := {
  f_between : option (literal * literal);
  f_in : option (list literal);             (* 'in' *)
  f_contains : option literal;
  f_startswith : option literal;
  f_endswith : option literal;
  f_gt : option literal;
  f_gte : option literal;
  f_lt : option literal;
  f_lte : option literal
}.

Definition no_preds : preds :=
  {| f_between := None; f_in := None; f_contains := None;
     f_startswith := None; f_endswith := None; f_gt := None; f_gte := None;
     f_lt := None; f_lte := None |}.

(** [{'contains': val}] *)
Definition preds_contains (val : literal) : preds :=
  {| f_between := None; f_in := None; f_contains := Some val;
     f_startswith := None; f_endswith := None; f_gt := None; f_gte := None;
     f_lt := None; f_lte := None |}.

(** [{'startswith': val}] and [{'endswith': val}] *)
Definition preds_startswith (val : literal) : preds :=
  {| f_between := None; f_in := None; f_contains := None;
     f_startswith := Some val; f_endswith := None; f_gt := None;
     f_gte := None; f_lt := None; f_lte := None |}.

Definition preds_endswith (val : literal) : preds :=
  {| f_between := None; f_in := None; f_contains := None;
     f_startswith := None; f_endswith := Some val; f_gt := None;
     f_gte := None; f_lt := None; f_lte := None |}.

(** The value of a FilterSpec entry: a literal (equality) or a dict of
    predicates. *)
Inductive fvalue :=
| FLit (l : literal)
| FDict (d : preds).

Definition FilterSpec := list (string * fvalue).

(** [d[k] = v] on an insertion-ordered dict. *)
Fixpoint dict_set {V} (k : string) (v : V) (d : list (string * V))
  : list (string * V) :=
  match d with
  | [] => [(k, v)]
  | (k', v') :: r =>
      if String.eqb k k' then (k, v) :: r else (k', v') :: dict_set k v r
  end.

(** [d.get(k)] *)
Fixpoint dict_get {V} (k : string) (d : list (string * V)) : option V :=
  match d with
  | [] => None
  | (k', v) :: r => if String.eqb k k' then Some v else dict_get k r
  end.

(** The plan dict: its ['type'] and the optional keys the planner writes
    and the executor reads; [None] is an absent key (or a [None] value). *)
Record Plan := {
  p_type : string;
  p_n : option Z;
  p_col : option string;
  p_cols : option (list string);
  p_group_by : option (list string);
  p_ops : option (list (string * string));
  p_filters : option FilterSpec;
  p_by : option (list string);
  p_ascending : option bool;
  p_top_n : option Z;
  p_threshold : option float;
  p_contamination : option float
}.

Definition plan_of_type (t : string) : Plan :=
  {| p_type := t; p_n := None; p_col := None; p_cols := None;
     p_group_by := None; p_ops := None; p_filters := None; p_by := None;
     p_ascending := None; p_top_n := None; p_threshold := None;
     p_contamination := None |}.

(** [{'type': t, 'n': n}] *)
Definition plan_n (t : string) (n : Z) : Plan :=
  {| p_type := t; p_n := Some n; p_col := None; p_cols := None;
     p_group_by := None; p_ops := None; p_filters := None; p_by := None;
     p_ascending := None; p_top_n := None; p_threshold := None;
     p_contamination := None |}.

(** [{'type': 'unique_count', 'col': col}] *)
Definition plan_unique_count (col : string) : Plan :=
  {| p_type := "unique_count"; p_n := None; p_col := Some col;
     p_cols := None; p_group_by := None; p_ops := None; p_filters := None;
     p_by := None; p_ascending := None; p_top_n := None;
     p_threshold := None; p_contamination := None |}.

(** [{'type': 'value_counts', 'col': col, 'n': n}] *)
Definition plan_value_counts (col : string) (n : Z) : Plan :=
  {| p_type := "value_counts"; p_n := Some n; p_col := Some col;
     p_cols := None; p_group_by := None; p_ops := None; p_filters := None;
     p_by := None; p_ascending := None; p_top_n := None;
     p_threshold := None; p_contamination := None |}.

(** [{'type': 'group_count', 'group_by': gb}] *)
Definition plan_group_count (gb : list string) : Plan :=
  {| p_type := "group_count"; p_n := None; p_col := None; p_cols := None;
     p_group_by := Some gb; p_ops := None; p_filters := None; p_by := None;
     p_ascending := None; p_top_n := None; p_threshold := None;
     p_contamination := None |}.

(** [{'type': 'aggregate', 'group_by': gb, 'ops': ops, 'filters': f}] *)
Definition plan_aggregate (gb : list string) (ops : list (string * string))
    (f : FilterSpec) : Plan :=
  {| p_type := "aggregate"; p_n := None; p_col := None; p_cols := None;
     p_group_by := Some gb; p_ops := Some ops; p_filters := Some f;
     p_by := None; p_ascending := None; p_top_n := None;
     p_threshold := None; p_contamination := None |}.

(** [{'type': 'sort_top', 'by': by, 'ascending': asc, 'top_n': n,
      'filters': f}] *)
Definition plan_sort_top (by_ : list string) (asc : bool) (n : Z)
    (f : FilterSpec) : Plan :=
  {| p_type := "sort_top"; p_n := None; p_col := None; p_cols := None;
     p_group_by := None; p_ops := None; p_filters := Some f;
     p_by := Some by_; p_ascending := Some asc; p_top_n := Some n;
     p_threshold := None; p_contamination := None |}.

(** [{'type': 'correlation', 'cols': cols}] *)
Definition plan_correlation (cols : list string) : Plan :=
  {| p_type := "correlation"; p_n := None; p_col := None;
     p_cols := Some cols; p_group_by := None; p_ops := None;
     p_filters := None; p_by := None; p_ascending := None; p_top_n := None;
     p_threshold := None; p_contamination := None |}.

(** [{'type': 'anomaly:zscore', 'col': col, 'threshold': thr}] *)
Definition plan_zscore (col : option string) (thr : float) : Plan :=
  {| p_type := "anomaly:zscore"; p_n := None; p_col := col; p_cols := None;
     p_group_by := None; p_ops := None; p_filters := None; p_by := None;
     p_ascending := None; p_top_n := None; p_threshold := Some thr;
     p_contamination := None |}.

(** ** planner.py *)

(** Truth value of an [Optional[str]] and of an [Optional[int]]. *)
Definition truthy_str (o : option string) : bool :=
  match o with
  | Some s => negb (String.eqb s "")
  | None => false
  end.

Definition truthy_int (o : option Z) : bool :=
  match o with
  | Some z => negb (z =? 0)%Z
  | None => false
  end.

(** [a or b] *)
Definition or_str (a b : option string) : option string :=
  if truthy_str a then a else b.

Definition or_int (a : option Z) (b : Z) : Z :=
  match a with
  | Some z => if (z =? 0)%Z then b else z
  | None => b
  end.

(** [int(m.group(i))] on a group that is a run of digits, where [int]
    returns.  On a longer run [int] raises; [_extract_int] and
    [_extract_year] read at most 4 digits, and for the top-N block see
    [plan_outcome] below. *)
Definition int_of_group (g : string) : Z :=
  match Py.int g with
  | Some z => z
  | None => 0%Z
  end.

Definition is_char (c : ascii) : ascii -> bool := Ascii.eqb c.

(** [[a-z0-9_ ]] *)
Definition cls_name (c : ascii) : bool :=
  (Py.is_lower c || Py.is_digit c || is_char "_" c || is_char " " c)%bool.

(** [[a-z0-9_/\-]] *)
Definition cls_value (c : ascii) : bool :=
  (Py.is_lower c || Py.is_digit c || is_char "_" c || is_char "/" c
   || is_char "-" c)%bool.

(** [\b(20\d{2})\b] *)
Definition re_year : Re.regex :=
  Re.seq [Re.WordB;
          Re.Group (Re.Seq (Re.Lit "20") (Re.Class Py.is_digit 2 (Some 2%nat)));
          Re.WordB].

(** [\b(\d{1,4})\b] *)
Definition re_int : Re.regex :=
  Re.seq [Re.WordB; Re.Group (Re.Class Py.is_digit 1 (Some 4%nat)); Re.WordB].

(** [(?: by | per )([a-z0-9_ ]+)$] *)
Definition re_by_or_per_end : Re.regex :=
  Re.seq [Re.Alt (Re.Lit " by ") (Re.Lit " per ");
          Re.Group (Re.plus cls_name); Re.Eos].

(** [by ([a-z0-9_ ]+)] *)
Definition re_by : Re.regex :=
  Re.seq [Re.Lit "by "; Re.Group (Re.plus cls_name)].

(** [where\s+([a-z0-9_ ]+)\s*=\s*([a-z0-9_/\-]+)] *)
Definition re_where_eq : Re.regex :=
  Re.seq [Re.Lit "where"; Re.plus Py.is_space; Re.Group (Re.plus cls_name);
          Re.star Py.is_space; Re.Lit "="; Re.star Py.is_space;
          Re.Group (Re.plus cls_value)].

(** [where\s+([a-z0-9_ ]+)\s+contains\s+([a-z0-9_/\-]+)] *)
Definition re_where_contains : Re.regex :=
  Re.seq [Re.Lit "where"; Re.plus Py.is_space; Re.Group (Re.plus cls_name);
          Re.plus Py.is_space; Re.Lit "contains"; Re.plus Py.is_space;
          Re.Group (Re.plus cls_value)].

(** [(?:top|largest)\s+(\d+)\s+rows?\s+by\s+([a-z0-9_ ]+)] *)
Definition re_top_rows : Re.regex :=
  Re.seq [Re.Alt (Re.Lit "top") (Re.Lit "largest"); Re.plus Py.is_space;
          Re.Group (Re.plus Py.is_digit); Re.plus Py.is_space;
          Re.Lit "row"; Re.opt (is_char "s"); Re.plus Py.is_space;
          Re.Lit "by"; Re.plus Py.is_space; Re.Group (Re.plus cls_name)].

Definition _extract_year (text : string) : option Z :=
  match Re.search re_year text with
  | Some m => Some (int_of_group (Re.group m 1))
  | None => None
  end.

Definition _extract_int (text : string) : option Z :=
  match Re.search re_int text with
  | Some m => Some (int_of_group (Re.group m 1))
  | None => None
  end.

Definition _coerce_literal (s : string) : literal :=
  match Py.int s with
  | Some z => LInt z
  | None =>
      match Py.float s with
      | Some f => LFloat f
      | None => if (Py.len s <=? 5)%nat then LStr (Py.upper s) else LStr s
      end
  end.

(** The preference lists of the sum block and of the average block. *)
Definition sum_targets : list string :=
  ["scheduled_quantity"; "shipments"; "volume"; "amount"; "value"].

Definition average_targets : list string :=
  ["scheduled_quantity"; "shipments"; "volume"; "delay_hours"; "amount";
   "value"].

Section Planner.
Context `{SequenceMatcher}.

Definition _first_present (cols candidates : list string) : option string :=
  match find (fun c => Py.mem c cols) candidates with
  | Some c => Some c
  | None =>
      match candidates with
      | c0 :: _ =>
          match Difflib.get_close_matches c0 cols 1 cutoff_07 with
          | m0 :: _ => Some m0
          | [] => None
          end
      | [] => None
      end
  end.

Definition _resolve_col_from_text (qpiece : string) (cols : list string)
  : option string :=
  let text := Py.lower qpiece in
  match find (fun c => Py.str_in (Py.lower c) text) cols with
  | Some c => Some c
  | None =>
      match Difflib.get_close_matches (Py.strip text) cols 1 cutoff_08 with
      | m0 :: _ => Some m0
      | [] => None
      end
  end.

Definition _resolve_col_after_by_or_per (q : string) (cols : list string)
  : option string :=
  let m := match Re.search re_by_or_per_end q with
           | Some m => Some m
           | None => Re.search re_by q
           end in
  match m with
  | None => None
  | Some m => _resolve_col_from_text (Re.group m 1) cols
  end.

Definition _extract_filters (q : string) (cols : list string) : FilterSpec :=
  let f := [] in
  let f :=
    match Re.search re_where_eq q with
    | Some m =>
        let col := _resolve_col_from_text (Re.group m 1) cols in
        let val := Py.strip (Re.group m 2) in
        match col with
        | Some c =>
            if truthy_str col then dict_set c (FLit (_coerce_literal val)) f
            else f
        | None => f
        end
    | None => f
    end in
  match Re.search re_where_contains q with
  | Some m =>
      let col := _resolve_col_from_text (Re.group m 1) cols in
      let val := Py.strip (Re.group m 2) in
      match col with
      | Some c =>
          if truthy_str col
          then dict_set c (FDict (preds_contains (LStr val))) f
          else f
      | None => f
      end
  | None => f
  end.

(** [filters['year'] = year] under [if year and 'year' in available_cols] *)
Definition fold_year (year : option Z) (cols : list string) (f : FilterSpec)
  : FilterSpec :=
  match year with
  | Some y =>
      if (truthy_int year && Py.mem "year" cols)%bool
      then dict_set "year" (FLit (LInt y)) f else f
  | None => f
  end.

(** [[gb] if gb else (['year'] if 'year' in available_cols and
     ('by year' in q or year) else [])] *)
Definition group_by_list (q : string) (year : option Z) (cols : list string)
    (gb : option string) : list string :=
  match gb with
  | Some g =>
      if truthy_str gb then [g]
      else if (Py.mem "year" cols
               && (Py.str_in "by year" q || truthy_int year))%bool
           then ["year"] else []
  | None =>
      if (Py.mem "year" cols
          && (Py.str_in "by year" q || truthy_int year))%bool
      then ["year"] else []
  end.

(** [{target: op} if target else {}] *)
Definition ops_of_target (target : option string) (op : string)
  : list (string * string) :=
  match target with
  | Some t => if truthy_str target then [(t, op)] else []
  | None => []
  end.

(** Each rule is a block of [plan_from_nl] ending in [return]: [Some p]
    when the block returns [p], [None] when control falls through to the
    next block. *)

(** planner.py, lines 12-27 *)
Definition rule_meta (q : string) (n : option Z) : option Plan :=
  if Py.any_in q ["how many columns"; "number of columns"; "columns count";
                  "col count"; "dataset shape"; "shape"; "dimensions"]
  then Some (plan_of_type "meta:shape")
  else if Py.any_in q ["list columns"; "what are the columns";
                       "show columns"; "column names"; "headers";
                       "features"; "schema"]
  then Some (plan_of_type "meta:columns")
  else if Py.any_in q ["dtypes"; "data types"; "types of columns";
                       "show dtypes"]
  then Some (plan_of_type "meta:dtypes")
  else if Py.any_in q ["describe"; "summary stats"; "summary statistics";
                       "stats"]
  then Some (plan_of_type "meta:describe")
  else if (Py.str_in "head" q || Py.str_in "first rows" q
           || Py.str_in "show first" q)%bool
  then Some (plan_n "meta:head" (or_int n 5))
  else if (Py.str_in "tail" q || Py.str_in "last rows" q
           || Py.str_in "show last" q)%bool
  then Some (plan_n "meta:tail" (or_int n 5))
  else if Py.any_in q ["missing values"; "nulls"; "nans"; "na values";
                       "na summary"]
  then Some (plan_of_type "meta:missing")
  else if Py.any_in q ["duplicate rows"; "duplicates"]
  then Some (plan_of_type "meta:duplicates")
  else None.

(** lines 30-33 *)
Definition rule_unique (q : string) (cols : list string) : option Plan :=
  if (Py.str_in "unique" q || Py.str_in "distinct" q)%bool then
    let col := _resolve_col_from_text q cols in
    match col with
    | Some c => if truthy_str col then Some (plan_unique_count c) else None
    | None => None
    end
  else None.

(** lines 34-37 *)
Definition rule_value_counts (q : string) (n : option Z)
    (cols : list string) : option Plan :=
  if Py.any_in q ["value counts"; "frequency"; "distribution"; "breakdown"]
  then
    let col := _resolve_col_from_text q cols in
    match col with
    | Some c =>
        if truthy_str col then Some (plan_value_counts c (or_int n 10))
        else None
    | None => None
    end
  else None.

(** lines 40-49 *)
Definition rule_count_rows (q : string) (year : option Z)
    (filters : FilterSpec) (cols : list string) : option Plan :=
  if Py.any_in q ["how many rows"; "count rows"; "row count";
                  "number of rows"; "rows"]
  then
    let grp := _resolve_col_after_by_or_per q cols in
    match grp with
    | Some g =>
        if truthy_str grp then Some (plan_group_count [g])
        else Some (plan_aggregate [] [("*", "count")]
                     (fold_year year cols filters))
    | None =>
        Some (plan_aggregate [] [("*", "count")]
                (fold_year year cols filters))
    end
  else None.

(** lines 53-58 *)
Definition rule_top_rows (q : string) (filters : FilterSpec)
    (cols : list string) : option Plan :=
  match Re.search re_top_rows q with
  | Some m =>
      let top_n := int_of_group (Re.group m 1) in
      let by_col := _resolve_col_from_text (Re.group m 2) cols in
      match by_col with
      | Some c =>
          if truthy_str by_col
          then Some (plan_sort_top [c] false top_n filters) else None
      | None => None
      end
  | None => None
  end.

(** lines 61-67 *)
Definition rule_sum (q : string) (year : option Z) (filters : FilterSpec)
    (cols : list string) : option Plan :=
  if Py.any_in q ["sum"; "total"] then
    let target :=
      _first_present cols sum_targets in
    let gb := _resolve_col_after_by_or_per q cols in
    Some (plan_aggregate (group_by_list q year cols gb)
            (ops_of_target target "sum") (fold_year year cols filters))
  else None.

(** lines 69-75 *)
Definition rule_average (q : string) (year : option Z)
    (filters : FilterSpec) (cols : list string) : option Plan :=
  if Py.any_in q ["average"; "mean"; "avg"] then
    let target :=
      or_str (_resolve_col_from_text q cols)
        (_first_present cols average_targets) in
    let gb := _resolve_col_after_by_or_per q cols in
    Some (plan_aggregate (group_by_list q year cols gb)
            (ops_of_target target "mean") (fold_year year cols filters))
  else None.

(** lines 78-80 *)
Definition rule_correlation (q : string) (cols : list string)
  : option Plan :=
  if (Py.str_in "correlation" q || Py.str_in "correlate" q
      || Py.str_in "relationship" q || Py.str_in "corr" q)%bool
  then Some (plan_correlation
               (filter (fun c => Py.mem c cols)
                  ["scheduled_quantity"; "shipments"; "volume";
                   "delay_hours"; "rec_del_sign"]))
  else None.

(** lines 81-83 *)
Definition rule_outlier (q : string) (cols : list string) : option Plan :=
  if (Py.str_in "outlier" q || Py.str_in "anomaly" q
      || Py.str_in "weird" q)%bool
  then
    let col :=
      or_str (_resolve_col_from_text q cols)
        (_first_present cols
           ["scheduled_quantity"; "delay_hours"; "volume"; "shipments"]) in
    Some (plan_zscore (or_str col (hd_error cols)) 3%float)
  else None.

(** lines 86-89 *)
Definition rule_trend (q : string) (cols : list string) : option Plan :=
  if (Py.str_in "trend" q || Py.str_in "over time" q
      || Py.str_in "by year" q)%bool
  then
    let target :=
      or_str (_resolve_col_from_text q cols)
        (_first_present cols
           ["scheduled_quantity"; "shipments"; "volume"; "delay_hours"]) in
    Some (plan_aggregate (if Py.mem "year" cols then ["year"] else [])
            (ops_of_target target "mean") [])
  else None.

(** The first block that returns, in the order of the source. *)
Fixpoint first_return (rules : list (option Plan)) (default : Plan) : Plan :=
  match rules with
  | [] => default
  | Some p :: _ => p
  | None :: rest => first_return rest default
  end.

(** planner.py, lines 4-92: the plan the call returns.  Line 55 can raise
    instead of going on: see [plan_outcome]. *)
Definition plan_from_nl (question : string) (available_cols : list string)
  : Plan :=
  let q := Py.lower (Py.strip question) in
  let n := _extract_int q in
  let year := _extract_year q in
  let filters := _extract_filters q available_cols in
  first_return
    [ rule_meta q n;
      rule_unique q available_cols;
      rule_value_counts q n available_cols;
      rule_count_rows q year filters available_cols;
      rule_top_rows q filters available_cols;
      rule_sum q year filters available_cols;
      rule_average q year filters available_cols;
      rule_correlation q available_cols;
      rule_outlier q available_cols;
      rule_trend q available_cols ]
    (plan_aggregate [] [("*", "count")] []).

(** planner.py, line 55: [top_n = int(m.group(1))] raises ValueError on a
    run of more digits than [int] converts. *)
Definition top_n_overflows (q : string) : bool :=
  match Re.search re_top_rows q with
  | Some m =>
      match Py.int (Re.group m 1) with
      | Some _ => false
      | None => true
      end
  | None => false
  end.

(** Does the call raise?  Line 55 is reached when none of the blocks
    above it has returned. *)
Definition plan_from_nl_raises (question : string)
    (available_cols : list string) : bool :=
  let q := Py.lower (Py.strip question) in
  let n := _extract_int q in
  let year := _extract_year q in
  let filters := _extract_filters q available_cols in
  match rule_meta q n, rule_unique q available_cols,
        rule_value_counts q n available_cols,
        rule_count_rows q year filters available_cols with
  | None, None, None, None => top_n_overflows q
  | _, _, _, _ => false
  end.

(** What a call of [plan_from_nl] does: it returns the plan, or raises
    the ValueError of line 55. *)
Definition plan_outcome (question : string) (available_cols : list string)
  : result Plan :=
  if plan_from_nl_raises question available_cols then Raise ValueError
  else Ok (plan_from_nl question available_cols).

End Planner.

(** ** Tables *)

(** A cell: missing (NaN, None), an integer, a float or a text. *)
Inductive value :=
| VNull
| VInt (z : Z)
| VFloat (f : float)
| VStr (s : string).

(** The dtype of a column: int64, float64 or object.  Columns of other
    dtypes (datetime64, bool, category) are outside the model: a table of
    the model is one whose columns have these three. *)
Inductive dtype := DInt | DFloat | DObj.

Definition row := list value.

(** A DataFrame under its default row index: named, typed columns and the
    rows, each with one cell per column. *)
Record DataFrame := {
  columns : list (string * dtype);
  rows : list row
}.

Definition col_names (df : DataFrame) : list string := map fst (columns df).

Fixpoint index_of (k : string) (names : list string) : option nat :=
  match names with
  | [] => None
  | n :: r =>
      if String.eqb k n then Some O
      else match index_of k r with
           | Some i => Some (S i)
           | None => None
           end
  end.

(** Position of column [k]; [None] when [k not in df.columns]. *)
Definition col_index (df : DataFrame) (k : string) : option nat :=
  index_of k (col_names df).

Definition cell (r : row) (i : nat) : value := nth i r VNull.

Definition col_dtype (df : DataFrame) (i : nat) : dtype :=
  nth i (map snd (columns df)) DObj.

(** [df[k]] at position [i]: the cells of the column. *)
Definition series (df : DataFrame) (i : nat) : list value :=
  map (fun r => cell r i) (rows df).

Definition is_number (dt : dtype) : bool :=
  match dt with
  | DInt | DFloat => true
  | DObj => false
  end.

Definition dtype_name (dt : dtype) : string :=
  match dt with
  | DInt => "int64"
  | DFloat => "float64"
  | DObj => "object"
  end.

(** [l[mask]]: the elements at the positions where the mask holds. *)
Fixpoint select {A} (mask : list bool) (l : list A) : list A :=
  match mask, l with
  | b :: mask', x :: l' => if b then x :: select mask' l' else select mask' l'
  | _, _ => []
  end.

Fixpoint and_mask (a b : list bool) : list bool :=
  match a, b with
  | x :: a', y :: b' => (x && y)%bool :: and_mask a' b'
  | _, _ => []
  end.

(** [data[mask]] *)
Definition narrow (data : DataFrame) (mask : list bool) : DataFrame :=
  {| columns := columns data; rows := select mask (rows data) |}.

(** [df[names]] for positions [idxs] *)
Definition project (df : DataFrame) (idxs : list nat) : DataFrame :=
  {| columns := map (fun i => nth i (columns df) ("", DObj)) idxs;
     rows := map (fun r => map (cell r) idxs) (rows df) |}.

(** Positions of the numeric columns: [select_dtypes(include=['number'])]. *)
Fixpoint number_positions (cs : list (string * dtype)) (i : nat) : list nat :=
  match cs with
  | [] => []
  | (_, dt) :: r =>
      if is_number dt then i :: number_positions r (S i)
      else number_positions r (S i)
  end.

Definition select_dtypes_number (df : DataFrame) : DataFrame :=
  project df (number_positions (columns df) O).

(** [df.empty]: no row or no column. *)
Definition empty (df : DataFrame) : bool :=
  match rows df, columns df with
  | [], _ => true
  | _, [] => true
  | _, _ => false
  end.

(** [df.head(n)] and [df.tail(n)] *)
Definition head (df : DataFrame) (n : Z) : DataFrame :=
  let len := Z.of_nat (length (rows df)) in
  let k := if (n <? 0)%Z then Z.max 0 (len + n) else n in
  {| columns := columns df; rows := firstn (Z.to_nat k) (rows df) |}.

Definition tail (df : DataFrame) (n : Z) : DataFrame :=
  let len := Z.of_nat (length (rows df)) in
  let drop := if (n <? 0)%Z then (- n)%Z else Z.max 0 (len - n) in
  {| columns := columns df; rows := skipn (Z.to_nat drop) (rows df) |}.

(** *** Numbers *)

Inductive num := NInt (z : Z) | NFloat (f : float).

Definition num_of_value (v : value) : option num :=
  match v with
  | VInt z => Some (NInt z)
  | VFloat f => Some (NFloat f)
  | _ => None
  end.

Definition num_of_literal (l : literal) : option num :=
  match l with
  | LInt z => Some (NInt z)
  | LFloat f => Some (NFloat f)
  | LStr _ => None
  end.

Definition to_float (n : num) : float :=
  match n with
  | NInt z => Py.float_of_int z
  | NFloat f => f
  end.

Definition num_eqb (a b : num) : bool :=
  match a, b with
  | NInt x, NInt y => (x =? y)%Z
  | _, _ => (to_float a =? to_float b)%float
  end.

Definition num_ltb (a b : num) : bool :=
  match a, b with
  | NInt x, NInt y => (x <? y)%Z
  | _, _ => (to_float a <? to_float b)%float
  end.

Definition num_leb (a b : num) : bool :=
  match a, b with
  | NInt x, NInt y => (x <=? y)%Z
  | _, _ => (to_float a <=? to_float b)%float
  end.

(** The ordering operators [>], [>=], [<], [<=]. *)
Inductive cmp := CGt | CGe | CLt | CLe.

Definition num_cmp (op : cmp) (a b : num) : bool :=
  match op with
  | CGt => num_ltb b a
  | CGe => num_leb b a
  | CLt => num_ltb a b
  | CLe => num_leb a b
  end.

Definition str_cmp (op : cmp) (s t : string) : bool :=
  match op with
  | CGt => String.ltb t s
  | CGe => String.leb t s
  | CLt => String.ltb s t
  | CLe => String.leb s t
  end.

Definition lit_is_nan (l : literal) : bool :=
  match l with
  | LFloat f => is_nan f
  | _ => false
  end.

(** *** Comparing a column with a scalar *)

(** One cell of an object column against [l]: Python's own comparison, a
    missing cell or a NaN bound giving [False]. *)
Definition obj_cmp (op : cmp) (l : literal) (v : value) : result bool :=
  if lit_is_nan l then Ok false
  else
    match v with
    | VNull => Ok false
    | VStr s =>
        match l with
        | LStr t => Ok (str_cmp op s t)
        | _ => Raise TypeError
        end
    | _ =>
        match num_of_value v, num_of_literal l with
        | Some x, Some y => Ok (num_cmp op x y)
        | _, _ => Raise TypeError
        end
    end.

(** [s > l], [s >= l], [s < l], [s <= l]: a numeric column refuses a text
    bound whatever its cells; an object column compares cell by cell. *)
Definition series_cmp (op : cmp) (dt : dtype) (s : list value) (l : literal)
  : result (list bool) :=
  if is_number dt then
    match num_of_literal l with
    | None => Raise TypeError
    | Some y =>
        Ok (map (fun v => match num_of_value v with
                          | Some x => num_cmp op x y
                          | None => false
                          end) s)
    end
  else mapM (obj_cmp op l) s.

(** One cell of [s == l]: never an error, [False] across kinds and for a
    missing cell. *)
Definition value_eq_lit (l : literal) (v : value) : bool :=
  match v, l with
  | VStr s, LStr t => String.eqb s t
  | _, _ =>
      match num_of_value v, num_of_literal l with
      | Some x, Some y => num_eqb x y
      | _, _ => false
      end
  end.

Definition series_eq (s : list value) (l : literal) : list bool :=
  map (value_eq_lit l) s.

(** [s.isin(ls)]: a missing cell is in [ls] when [ls] holds a NaN. *)
Definition series_isin (s : list value) (ls : list literal) : list bool :=
  map (fun v => match v with
                | VNull => existsb lit_is_nan ls
                | _ => existsb (fun l => value_eq_lit l v) ls
                end) s.

(** *** Keys of groups *)

(** Equality of two cells as group keys: missing equals missing. *)
Definition value_eqb (a b : value) : bool :=
  match a, b with
  | VNull, VNull => true
  | VStr s, VStr t => String.eqb s t
  | VFloat x, VFloat y => ((x =? y)%float || (is_nan x && is_nan y))%bool
  | _, _ =>
      match num_of_value a, num_of_value b with
      | Some x, Some y => num_eqb x y
      | _, _ => false
      end
  end.

Fixpoint key_eqb (a b : list value) : bool :=
  match a, b with
  | [], [] => true
  | x :: a', y :: b' => (value_eqb x y && key_eqb a' b')%bool
  | _, _ => false
  end.

(** Sorted order of keys: numbers, then texts, then missing. *)
Definition rank (v : value) : nat :=
  match v with
  | VInt _ | VFloat _ => 0
  | VStr _ => 1
  | VNull => 2
  end.

Definition value_ltb (a b : value) : bool :=
  if (rank a <? rank b)%nat then true
  else if (rank b <? rank a)%nat then false
  else
    match a, b with
    | VStr s, VStr t => String.ltb s t
    | _, _ =>
        match num_of_value a, num_of_value b with
        | Some x, Some y => num_ltb x y
        | _, _ => false
        end
    end.

Fixpoint key_ltb (a b : list value) : bool :=
  match a, b with
  | x :: a', y :: b' =>
      if value_ltb x y then true
      else if value_ltb y x then false
      else key_ltb a' b'
  | _, _ => false
  end.

Fixpoint insert_key (k : list value) (l : list (list value))
  : list (list value) :=
  match l with
  | [] => [k]
  | k' :: l' => if key_ltb k k' then k :: l else k' :: insert_key k l'
  end.

Definition sort_keys (l : list (list value)) : list (list value) :=
  fold_right insert_key [] l.

(** The keys of [ks] in order of first appearance, one per group. *)
Fixpoint distinct (seen ks : list (list value)) : list (list value) :=
  match ks with
  | [] => []
  | k :: r =>
      if existsb (key_eqb k) seen then distinct seen r
      else k :: distinct (k :: seen) r
  end.

Definition key_of (idxs : list nat) (r : row) : list value :=
  map (cell r) idxs.

(** The groups of [groupby(group_by, dropna=False)], sorted by key. *)
Definition group_keys (idxs : list nat) (rs : list row) : list (list value) :=
  sort_keys (distinct [] (map (key_of idxs) rs)).

(** The rows of the group of key [k]. *)
Definition group_rows (idxs : list nat) (rs : list row) (k : list value)
  : list row :=
  filter (fun r => key_eqb (key_of idxs r) k) rs.

(** Does a name occur twice? *)
Fixpoint has_dup (l : list string) : bool :=
  match l with
  | [] => false
  | x :: r => (Py.mem x r || has_dup r)%bool
  end.

(** Positions of the columns [names]; [KeyError] on a name that is no
    column. *)
Definition positions (df : DataFrame) (names : list string)
  : result (list nat) :=
  mapM (fun n => match col_index df n with
                 | Some i => Ok i
                 | None => Raise KeyError
                 end) names.

(** [data.groupby(group_by, dropna=False).size()
        .reset_index(name='row_count')]: [reset_index] refuses, with a
    ValueError, to insert a name twice, be it row_count or a name that
    is twice in [group_by]. *)
Definition group_sizes (data : DataFrame) (group_by : list string)
  : result DataFrame :=
  idxs <- positions data group_by ;;
  if (Py.mem "row_count" group_by || has_dup group_by)%bool
  then Raise ValueError
  else
    Ok {| columns := map (fun i => nth i (columns data) ("", DObj)) idxs
                     ++ [("row_count", DInt)];
          rows := map (fun k =>
                         k ++ [VInt (Z.of_nat
                                       (length (group_rows idxs
                                                  (rows data) k)))])
                      (group_keys idxs (rows data)) |}.

(** ** Library routines of pandas, numpy and scikit-learn

    What the repository calls and does not define. *)
Class Pandas := {
  (** [str(f)] of a float: its shortest decimal text *)
  float_repr : float -> string;
  (** [texts.str.contains(pat, case=False)] for a pattern [pat] that uses
      regular-expression syntax *)
  regex_contains_nocase : string -> list string -> result (list bool);
  (** the reduction named [op] ('count', 'sum', 'mean', 'min', 'max',
      'median', 'std') over the cells of a column *)
  reduce : string -> dtype -> list value -> result value;
  (** [num.describe().T.reset_index().rename(columns={'index':'column'})] *)
  pd_describe : DataFrame -> DataFrame;
  (** [num.corr(method='pearson')] *)
  pd_corr : DataFrame -> DataFrame;
  (** [df.sort_values(by, ascending)] *)
  pd_sort_values : DataFrame -> list string -> bool -> result DataFrame;
  (** [s.value_counts(dropna=False)]: values and counts, most frequent
      first *)
  pd_value_counts : list value -> list (value * Z);
  (** [IsolationForest(contamination, random_state).fit_predict(X) == -1] *)
  isolation_forest : DataFrame -> float -> Z -> result (list bool)
}.

(** The epsilon of [zscore_outliers]: 1e-9. *)
Definition epsilon : float := 0x1.12e0be826d695p-30%float.

(** numpy float64 reductions.  [sum] is numpy's pairwise summation of a
    contiguous array ([DOUBLE_pairwise_sum]), which pandas' [nanops] call
    (without the optional bottleneck): fewer than 8 values are added from
    left to right; up to 128 values are added in 8 lanes, the lanes then
    in pairs, and what is left over from left to right; a longer array is
    cut in two at a multiple of 8.  The reduction starts from 0. *)
Module Np.

(** The lanes [r0 .. r7] over the chunks of 8 of [xs], then the tree of
    the lanes and the values left over. *)
Fixpoint lanes (r0 r1 r2 r3 r4 r5 r6 r7 : float) (xs : list float) : float :=
  match xs with
  | a0 :: a1 :: a2 :: a3 :: a4 :: a5 :: a6 :: a7 :: rest =>
      lanes (r0 + a0) (r1 + a1) (r2 + a2) (r3 + a3)
            (r4 + a4) (r5 + a5) (r6 + a6) (r7 + a7) rest
  | _ =>
      fold_left PrimFloat.add xs
        (((r0 + r1) + (r2 + r3)) + ((r4 + r5) + (r6 + r7)))
  end%float.

(** The sum of at most 128 values. *)
Definition block (xs : list float) : float :=
  match xs with
  | a0 :: a1 :: a2 :: a3 :: a4 :: a5 :: a6 :: a7 :: rest =>
      lanes a0 a1 a2 a3 a4 a5 a6 a7 rest
  | _ => fold_left PrimFloat.add xs 0%float
  end.

(** [pairwise_sum(a, n)]; [fuel] bounds the depth of the halving, and the
    length of [xs] is enough. *)
Fixpoint pairwise (fuel : nat) (xs : list float) : float :=
  let n := length xs in
  if (n <=? 128)%nat then block xs
  else
    match fuel with
    | O => block xs
    | S fuel' =>
        let n2 := (n / 2 - (n / 2) mod 8)%nat in
        (pairwise fuel' (firstn n2 xs) + pairwise fuel' (skipn n2 xs))%float
    end.

Definition sum (xs : list float) : float :=
  (0 + pairwise (length xs) xs)%float.

(** The values that are not NaN, and the values with NaN replaced by 0. *)
Definition count (xs : list float) : Z :=
  Z.of_nat (length (filter (fun x => negb (is_nan x)) xs)).

Definition fill0 (xs : list float) : list float :=
  map (fun x => if is_nan x then 0%float else x) xs.

(** [s.mean()] (skipna) *)
Definition mean (xs : list float) : float :=
  if (0 <? count xs)%Z then (sum (fill0 xs) / Py.float_of_int (count xs))%float
  else nan.

(** [s.var(ddof)] (skipna): squared deviations from the mean, summed over
    the values present and divided by [count - ddof]. *)
Definition var (ddof : Z) (xs : list float) : float :=
  let c := count xs in
  if (c - ddof <=? 0)%Z then nan
  else
    let avg := (sum (fill0 xs) / Py.float_of_int c)%float in
    let sqr := map (fun x => if is_nan x then 0%float
                             else ((avg - x) * (avg - x))%float) xs in
    (sum sqr / Py.float_of_int (c - ddof))%float.

(** [s.std(ddof)] *)
Definition std (ddof : Z) (xs : list float) : float := sqrt (var ddof xs).

End Np.

(** ** analysis.py *)

(** Characters with a meaning in a regular expression. *)
Definition is_meta (c : ascii) : bool :=
  existsb (Ascii.eqb c)
    (list_ascii_of_string ".^$*+?{}[]\|()").

Fixpoint all_chars (p : ascii -> bool) (s : string) : bool :=
  match s with
  | EmptyString => true
  | String c r => (p c && all_chars p r)%bool
  end.

Definition agg_names : list string :=
  ["count"; "sum"; "mean"; "min"; "max"; "median"; "std"].

Section Analysis.
Context `{Pandas}.

(** [str(l)] *)
Definition str_of_literal (l : literal) : string :=
  match l with
  | LStr s => s
  | LInt z => Py.str_of_int z
  | LFloat f => float_repr f
  end.

(** One cell of [s.astype(str)].  The missing value is NaN, which
    becomes the text ['nan']; a [None] in an object column, which would
    read ['None'], is not told apart from NaN by [value], and what is
    stated on the text of a cell is stated on cells that are not
    missing. *)
Definition astype_str (v : value) : string :=
  match v with
  | VStr s => s
  | VInt z => Py.str_of_int z
  | VFloat f => float_repr f
  | VNull => "nan"
  end.

(** [texts.str.contains(pat, case=False, na=False)]: [pat] is a regular
    expression; one without special characters matches as a substring,
    letter case ignored. *)
Definition str_contains_nocase (pat : string) (texts : list string)
  : result (list bool) :=
  if all_chars (fun c => negb (is_meta c)) pat
  then Ok (map (fun t => Py.str_in (Py.lower pat) (Py.lower t)) texts)
  else regex_contains_nocase pat texts.

(** [texts.str.startswith(pat, na=False)], [texts.str.endswith(...)] *)
Definition str_startswith (pat : string) (texts : list string) : list bool :=
  map (fun t => Py.startswith t pat) texts.

Definition str_endswith (pat : string) (texts : list string) : list bool :=
  map (fun t => Py.endswith t pat) texts.

(** One [if key in v: data = data[mask]] of the dict branch: [alive]
    flags the rows of [s] still in [data]; the mask is computed on the
    whole of [s] and pandas aligns it with [data] by row label. *)
Definition step {X} (o : option X) (mk : X -> result (list bool))
    (alive : list bool) : result (list bool) :=
  match o with
  | Some x => m <- mk x ;; Ok (and_mask alive m)
  | None => Ok alive
  end.

(** The rows of [s = data[k]] that the entry [k: v] keeps. *)
Definition entry_mask (dt : dtype) (s : list value) (v : fvalue)
  : result (list bool) :=
  match v with
  | FDict d =>
      let texts := map astype_str s in
      a <- step (f_between d)
             (fun b => lo <- series_cmp CGe dt s (fst b) ;;
                       hi <- series_cmp CLe dt s (snd b) ;;
                       Ok (and_mask lo hi))
             (map (fun _ => true) s) ;;
      a <- step (f_in d) (fun ls => Ok (series_isin s ls)) a ;;
      a <- step (f_contains d)
             (fun l => str_contains_nocase (str_of_literal l) texts) a ;;
      a <- step (f_startswith d)
             (fun l => Ok (str_startswith (str_of_literal l) texts)) a ;;
      a <- step (f_endswith d)
             (fun l => Ok (str_endswith (str_of_literal l) texts)) a ;;
      a <- step (f_gt d) (series_cmp CGt dt s) a ;;
      a <- step (f_gte d) (series_cmp CGe dt s) a ;;
      a <- step (f_lt d) (series_cmp CLt dt s) a ;;
      step (f_lte d) (series_cmp CLe dt s) a
  | FLit l => Ok (series_eq s l)
  end.

(** The body of the loop of [apply_filters] for one entry. *)
Definition apply_entry (data : DataFrame) (kv : string * fvalue)
  : result DataFrame :=
  match col_index data (fst kv) with
  | None => Ok data                                     (* continue *)
  | Some i =>
      m <- entry_mask (col_dtype data i) (series data i) (snd kv) ;;
      Ok (narrow data m)
  end.

Fixpoint apply_entries (data : DataFrame) (f : FilterSpec)
  : result DataFrame :=
  match f with
  | [] => Ok data
  | kv :: f' => d <- apply_entry data kv ;; apply_entries d f'
  end.

(** The content of the frame [apply_filters] returns ([df.copy()] has the
    content of [df]; see [Store] below for the identity of objects). *)
Definition apply_filters (df : DataFrame) (filters : option FilterSpec)
  : result DataFrame :=
  let data := df in
  match filters with
  | None => Ok data
  | Some [] => Ok data
  | Some f => apply_entries data f
  end.

(** The dtype of the column an aggregation produces. *)
Definition agg_dtype (op : string) (dt : dtype) : dtype :=
  if String.eqb op "count" then DInt
  else if (String.eqb op "sum" || String.eqb op "min"
           || String.eqb op "max")%bool then dt
  else DFloat.

(** One aggregate of one group: [KeyError] when the column is missing. *)
Definition agg_cell (data : DataFrame) (rs : list row)
    (co : string * string) : result value :=
  match col_index data (fst co) with
  | None => Raise KeyError
  | Some i => reduce (snd co) (col_dtype data i) (map (fun r => cell r i) rs)
  end.

Definition agg_column (data : DataFrame) (co : string * string)
  : string * dtype :=
  match col_index data (fst co) with
  | None => (fst co, DObj)
  | Some i => (fst co, agg_dtype (snd co) (col_dtype data i))
  end.

(** [data.groupby(group_by, dropna=False).agg(agg_map).reset_index()]:
    one row per group, its key then its aggregates.  An empty [agg_map]
    and an aggregated column that is also a key are refused, and after
    the aggregation [reset_index] refuses a name that is twice in
    [group_by]. *)
Definition groupby_agg (data : DataFrame) (group_by : list string)
    (agg_map : list (string * string)) : result DataFrame :=
  idxs <- positions data group_by ;;
  match agg_map with
  | [] => Raise ValueError
  | _ =>
      if existsb (fun co => Py.mem (fst co) group_by) agg_map
      then Raise ValueError
      else
        rs <- mapM (fun k =>
                      vals <- mapM (agg_cell data
                                      (group_rows idxs (rows data) k))
                                   agg_map ;;
                      Ok (k ++ vals))
                   (group_keys idxs (rows data)) ;;
        if has_dup group_by then Raise ValueError
        else
          Ok {| columns := map (fun i => nth i (columns data) ("", DObj)) idxs
                           ++ map (agg_column data) agg_map;
                rows := rs |}
  end.

(** [left.merge(right, on=keys, how='left')] for [nkeys] leading key
    columns: every row of [left], once per row of [right] with the same
    key, or once with missing values when there is none.  A column name
    on both sides takes the suffixes [_x] and [_y]. *)
Definition merge_left (left right : DataFrame) (nkeys : nat) : DataFrame :=
  let lnames := map fst (skipn nkeys (columns left)) in
  let rnames := map fst (skipn nkeys (columns right)) in
  let width := length (skipn nkeys (columns right)) in
  {| columns :=
       firstn nkeys (columns left)
       ++ map (fun c => if Py.mem (fst c) rnames
                        then (String.append (fst c) "_x", snd c) else c)
              (skipn nkeys (columns left))
       ++ map (fun c => if Py.mem (fst c) lnames
                        then (String.append (fst c) "_y", snd c) else c)
              (skipn nkeys (columns right));
     rows :=
       flat_map
         (fun l =>
            match filter (fun r => key_eqb (firstn nkeys l) (firstn nkeys r))
                         (rows right) with
            | [] => [l ++ repeat VNull width]
            | ms => map (fun r => l ++ skipn nkeys r) ms
            end)
         (rows left) |}.

(** [{c: o for c, o in ops.items() if c != '*' and o in [...]}] *)
Definition agg_map_of (ops : list (string * string))
  : list (string * string) :=
  filter (fun co => (negb (String.eqb (fst co) "*")
                     && Py.mem (snd co) agg_names)%bool) ops.

Definition aggregate (df : DataFrame) (group_by : option (list string))
    (ops : option (list (string * string))) (filters : option FilterSpec)
  : result DataFrame :=
  data <- apply_filters df filters ;;
  match ops with
  | None => Ok data
  | Some [] => Ok data
  | Some ops =>
      let agg_map := agg_map_of ops in
      let star_count :=
        match dict_get "*" ops with
        | Some o => String.eqb o "count"
        | None => false
        end in
      match group_by with
      | Some (g :: gs) =>
          out <- groupby_agg data (g :: gs) agg_map ;;
          if star_count then
            counts <- group_sizes data (g :: gs) ;;
            Ok (merge_left counts out (length (g :: gs)))
          else Ok out
      | _ =>
          match agg_map with
          | [] => Raise ValueError
          | _ =>
              vals <- mapM (agg_cell data (rows data)) agg_map ;;
              let out := {| columns := map (agg_column data) agg_map;
                            rows := [vals] |} in
              if star_count then
                if Py.mem "row_count" (col_names out) then Raise ValueError
                else
                  Ok {| columns := ("row_count", DInt) :: columns out;
                        rows := [VInt (Z.of_nat (length (rows data)))
                                 :: vals] |}
              else Ok out
          end
      end
  end.

(** [correlations(df, cols)] *)
Definition correlations (df : DataFrame) (cols : list string) : DataFrame :=
  let num := select_dtypes_number df in
  let cols' := filter (fun c => Py.mem c (col_names num)) cols in
  match cols' with
  | [] => pd_corr num
  | _ =>
      pd_corr (project num
                 (flat_map (fun c => match col_index num c with
                                     | Some i => [i]
                                     | None => []
                                     end) cols'))
  end.

(** One cell of [df[col].astype(float)] *)
Definition cell_float (v : value) : result float :=
  match v with
  | VNull => Ok nan
  | VInt z => Ok (Py.float_of_int z)
  | VFloat f => Ok f
  | VStr s =>
      match Py.float s with
      | Some f => Ok f
      | None => Raise ValueError
      end
  end.

(** [(s - s.mean()) / (s.std(ddof=0) + 1e-9)] *)
Definition zscores (xs : list float) : list float :=
  map (fun x => ((x - Np.mean xs) / (Np.std 0 xs + epsilon))%float) xs.

Definition zscore_outliers (df : DataFrame) (col : string)
    (threshold : float) : result DataFrame :=
  match col_index df col with
  | None => Raise KeyError
  | Some i =>
      s <- mapM cell_float (series df i) ;;
      Ok (narrow df (map (fun z => (threshold <=? abs z)%float) (zscores s)))
  end.

Definition has_null (r : row) : bool :=
  existsb (fun v => match v with VNull => true | _ => false end) r.

Definition iforest_outliers (df : DataFrame) (cols : list string)
    (contamination : float) (random_state : Z) : result DataFrame :=
  let use := flat_map (fun c => match col_index df c with
                                | Some i => [i]
                                | None => []
                                end) cols in
  let picked := select_dtypes_number (project df use) in
  let keep := map (fun r => negb (has_null r)) (rows picked) in
  let X := narrow picked keep in
  if empty X then Ok {| columns := columns df; rows := [] |}
  else
    mask <- isolation_forest X contamination random_state ;;
    Ok {| columns := columns df;
          rows := select mask (select keep (rows df)) |}.

Definition sort_top (df : DataFrame) (by_ : list string) (top_n : Z)
    (ascending : bool) (filters : option FilterSpec) : result DataFrame :=
  data <- apply_filters df filters ;;
  let by' := filter (fun c => Py.mem c (col_names data)) by_ in
  match by' with
  | [] => Ok (head data top_n)
  | _ => sorted <- pd_sort_values data by' ascending ;; Ok (head sorted top_n)
  end.

(** meta helpers *)

Definition meta_shape (df : DataFrame) : DataFrame :=
  {| columns := [("rows", DInt); ("columns", DInt)];
     rows := [[VInt (Z.of_nat (length (rows df)));
               VInt (Z.of_nat (length (columns df)))]] |}.

Definition meta_columns (df : DataFrame) : DataFrame :=
  {| columns := [("column", DObj); ("dtype", DObj)];
     rows := map (fun c => [VStr (fst c); VStr (dtype_name (snd c))])
                 (columns df) |}.

Definition meta_dtypes (df : DataFrame) : DataFrame := meta_columns df.

Definition meta_head (df : DataFrame) (n : Z) : DataFrame := head df n.
Definition meta_tail (df : DataFrame) (n : Z) : DataFrame := tail df n.

Definition meta_describe (df : DataFrame) : DataFrame :=
  let num := select_dtypes_number df in
  if empty num
  then {| columns := [("note", DObj)];
          rows := [[VStr "No numeric columns to describe."]] |}
  else pd_describe num.

Definition unique_count (df : DataFrame) (col : string) : result DataFrame :=
  match col_index df col with
  | None => Raise KeyError
  | Some i =>
      let present := filter (fun v => match v with
                                      | VNull => false
                                      | _ => true
                                      end) (series df i) in
      Ok {| columns := [("column", DObj); ("unique_count", DInt)];
            rows := [[VStr col;
                      VInt (Z.of_nat
                              (length (distinct []
                                         (map (fun v => [v]) present))))]] |}
  end.

(** [value_counts] of pandas 2 names the counts 'count' and the values
    [col]: on a column named count [reset_index] refuses to insert the
    name twice. *)
Definition value_counts (df : DataFrame) (col : string) (n : Z)
  : result DataFrame :=
  match col_index df col with
  | None => Raise KeyError
  | Some i =>
      if String.eqb col "count" then Raise ValueError
      else
        let vc := {| columns := [(col, col_dtype df i); ("count", DInt)];
                     rows := map (fun p => [fst p; VInt (snd p)])
                                 (pd_value_counts (series df i)) |} in
        Ok (head vc n)
  end.

Fixpoint column_positions (cs : list (string * dtype)) (i : nat)
  : list (string * nat) :=
  match cs with
  | [] => []
  | (c, _) :: r => (c, i) :: column_positions r (S i)
  end.

Definition missing_summary (df : DataFrame) : result DataFrame :=
  let n := Z.of_nat (length (rows df)) in
  let line (ci : string * nat) : row :=
    let miss := Z.of_nat (length (filter (fun v => match v with
                                                   | VNull => true
                                                   | _ => false
                                                   end)
                                         (series df (snd ci)))) in
    [VStr (fst ci); VInt miss;
     if (n =? 0)%Z then VNull
     else VFloat (Py.float_of_int miss / Py.float_of_int n * 100)%float] in
  pd_sort_values
    {| columns := [("column", DObj); ("missing", DInt);
                   ("missing_pct", DFloat)];
       rows := map line (column_positions (columns df) O) |}
    ["missing"] false.

(** Rows equal to an earlier row. *)
Fixpoint duplicated (seen : list row) (rs : list row) : Z :=
  match rs with
  | [] => 0
  | r :: rest =>
      ((if existsb (key_eqb r) seen then 1 else 0)
       + duplicated (r :: seen) rest)%Z
  end.

Definition duplicates_count (df : DataFrame) : DataFrame :=
  {| columns := [("duplicate_rows", DInt)];
     rows := [[VInt (duplicated [] (rows df))]] |}.

Definition group_count (df : DataFrame) (group_by : list string)
  : result DataFrame :=
  let group_by' := filter (fun g => Py.mem g (col_names df)) group_by in
  match group_by' with
  | [] => Ok {| columns := [("row_count", DInt)];
                rows := [[VInt (Z.of_nat (length (rows df)))]] |}
  | _ => group_sizes df group_by'
  end.

End Analysis.

(** ** agent.py: the dispatcher

    [execute_plan] returns the result frame and a method note; the note is
    a formatted text computed after the frame and is left out. *)

(** [ops == {'*': 'count'}] *)
Definition is_star_count (ops : list (string * string)) : bool :=
  match ops with
  | [(k, o)] => (String.eqb k "*" && String.eqb o "count")%bool
  | _ => false
  end.

(** [plan.get(key, default)] *)
Definition get {A} (o : option A) (default : A) : A :=
  match o with
  | Some a => a
  | None => default
  end.

(** [plan.get(key) or []] *)
Definition get_list {A} (o : option (list A)) : list A := get o [].

(** The default contamination, 0.01. *)
Definition contamination_default : float := 0x1.47ae147ae147bp-7%float.

Section Agent.
Context `{Pandas}.

(** One entry of the filter loop of the unfiltered-count branch
    (agent.py, lines 60-66).  A dict without ['between'] goes to
    [data[k] == v], and no cell equals a dict. *)
Definition count_entry (data : DataFrame) (kv : string * fvalue)
  : result DataFrame :=
  match col_index data (fst kv) with
  | None => Ok data
  | Some i =>
      let s := series data i in
      match snd kv with
      | FDict d =>
          match f_between d with
          | Some b =>
              lo <- series_cmp CGe (col_dtype data i) s (fst b) ;;
              hi <- series_cmp CLe (col_dtype data i) s (snd b) ;;
              Ok (narrow data (and_mask lo hi))
          | None => Ok (narrow data (map (fun _ => false) s))
          end
      | FLit l => Ok (narrow data (series_eq s l))
      end
  end.

Fixpoint count_entries (data : DataFrame) (f : FilterSpec)
  : result DataFrame :=
  match f with
  | [] => Ok data
  | kv :: f' => d <- count_entry data kv ;; count_entries d f'
  end.

Definition row_count_frame (data : DataFrame) : DataFrame :=
  {| columns := [("row_count", DInt)];
     rows := [[VInt (Z.of_nat (length (rows data)))]] |}.

(** The name of the first numeric column:
    [df.select_dtypes(include=['number']).columns[0]] *)
Definition first_number_column (df : DataFrame) : result string :=
  match col_names (select_dtypes_number df) with
  | c :: _ => Ok c
  | [] => Raise IndexError
  end.

Definition execute_plan (df : DataFrame) (plan : Plan) : result DataFrame :=
  let t := p_type plan in
  if String.eqb t "meta:shape" then Ok (meta_shape df)
  else if String.eqb t "meta:columns" then Ok (meta_columns df)
  else if String.eqb t "meta:dtypes" then Ok (meta_dtypes df)
  else if String.eqb t "meta:describe" then Ok (meta_describe df)
  else if String.eqb t "meta:head" then Ok (meta_head df (get (p_n plan) 5%Z))
  else if String.eqb t "meta:tail" then Ok (meta_tail df (get (p_n plan) 5%Z))
  else if String.eqb t "meta:missing" then missing_summary df
  else if String.eqb t "meta:duplicates" then Ok (duplicates_count df)
  else if String.eqb t "unique_count" then
    match p_col plan with
    | Some c => unique_count df c
    | None => Raise KeyError
    end
  else if String.eqb t "value_counts" then
    match p_col plan with
    | Some c => value_counts df c (get (p_n plan) 10%Z)
    | None => Raise KeyError
    end
  else if String.eqb t "group_count" then
    group_count df (get_list (p_group_by plan))
  else if String.eqb t "aggregate" then
    let ops := get_list (p_ops plan) in
    let filters := get_list (p_filters plan) in
    let group_by := get_list (p_group_by plan) in
    if (is_star_count ops && negb (Nat.eqb (length group_by) 0))%bool
    then group_count df group_by
    else if is_star_count ops then
      data <- count_entries df filters ;;
      Ok (row_count_frame data)
    else aggregate df (Some group_by) (Some ops) (Some filters)
  else if String.eqb t "correlation" then
    Ok (correlations df (get_list (p_cols plan)))
  else if String.eqb t "sort_top" then
    sort_top df (get_list (p_by plan)) (get (p_top_n plan) 10%Z)
      (get (p_ascending plan) false) (Some (get_list (p_filters plan)))
  else if Py.startswith t "anomaly:zscore" then
    let thr := get (p_threshold plan) 3%float in
    col <- match p_col plan with
           | Some c => if Py.mem c (col_names df) then Ok c
                       else first_number_column df
           | None => first_number_column df
           end ;;
    zscore_outliers df col thr
  else if String.eqb t "anomaly:iforest" then
    let cols := match get_list (p_cols plan) with
                | [] => firstn 4 (col_names (select_dtypes_number df))
                | cs => cs
                end in
    iforest_outliers df cols (get (p_contamination plan) contamination_default)
      42%Z
  else Ok (head df 10%Z).

(** One turn of the session loop of [main] (lines 137-138): the plan of
    the question, then its execution.  No handler surrounds the two
    calls: a [Raise] here ends the loop and the process. *)
Definition answer `{SequenceMatcher} (df : DataFrame) (q : string)
  : result DataFrame :=
  plan <- plan_outcome q (col_names df) ;;
  execute_plan df plan.

End Agent.

(** ** Frames as objects

    A store of frames, to tell [df.copy()] from [df]: [cells] gives the
    content at a reference and [next] is the first unused one. *)

Module Store.

Definition loc := nat.

Record heap := { cells : loc -> DataFrame; next : loc }.

Definition deref (h : heap) (l : loc) : DataFrame := cells h l.

(** The store with one more object, holding [d], at [next h]. *)
Definition extend (h : heap) (d : DataFrame) : heap :=
  {| cells := fun l => if Nat.eqb l (next h) then d else cells h l;
     next := S (next h) |}.

(** A new object holding [d]. *)
Definition alloc (h : heap) (d : DataFrame) : heap * loc :=
  (extend h d, next h).

(** In-place mutation of the object at [l]: its content becomes [d]. *)
Definition put (h : heap) (l : loc) (d : DataFrame) : heap :=
  {| cells := fun l' => if Nat.eqb l' l then d else cells h l';
     next := next h |}.

(** [df.copy()] *)
Definition copy (h : heap) (df : loc) : heap * loc := alloc h (deref h df).

(** Does the branch taken for [v] rebind [data]? *)
Definition rebinds (v : fvalue) : bool :=
  match v with
  | FLit _ => true
  | FDict d =>
      match f_between d, f_in d, f_contains d, f_startswith d, f_endswith d,
            f_gt d, f_gte d, f_lt d, f_lte d with
      | None, None, None, None, None, None, None, None, None => false
      | _, _, _, _, _, _, _, _, _ => true
      end
  end.

Section Refs.
Context `{Pandas}.

(** One turn of the loop of [apply_filters] on the object [data]: the
    indexing [data[...]] builds a new frame, which [data] then names. *)
Definition apply_entry_ref (h : heap) (data : loc) (kv : string * fvalue)
  : result (heap * loc) :=
  match col_index (deref h data) (fst kv) with
  | None => Ok (h, data)
  | Some _ =>
      d <- apply_entry (deref h data) kv ;;
      if rebinds (snd kv) then Ok (alloc h d) else Ok (h, data)
  end.

Fixpoint apply_entries_ref (h : heap) (data : loc) (f : FilterSpec)
  : result (heap * loc) :=
  match f with
  | [] => Ok (h, data)
  | kv :: f' =>
      st <- apply_entry_ref h data kv ;;
      apply_entries_ref (fst st) (snd st) f'
  end.

(** [apply_filters] on references. *)
Definition apply_filters_ref (h : heap) (df : loc)
    (filters : option FilterSpec) : result (heap * loc) :=
  let (h1, data) := copy h df in
  match filters with
  | None => Ok (h1, data)
  | Some [] => Ok (h1, data)
  | Some f => apply_entries_ref h1 data f
  end.
End Refs.

End Store.

(** ** An instance of the library interfaces

    Concrete routines on which the general statements are run on examples.
    The theorems below hold for every instance, so nothing depends on how
    close these are to the libraries. *)

Module Sample.

(** The upper bound [quick_ratio] as similarity score. *)
Definition matcher : SequenceMatcher := {| seq_ratio := Difflib.quick_ratio |}.

Fixpoint rstrip_zeros (s : string) : string :=
  match s with
  | EmptyString => EmptyString
  | String c r =>
      match rstrip_zeros r with
      | EmptyString => if Ascii.eqb c "0" then EmptyString
                       else String c EmptyString
      | r' => String c r'
      end
  end.

(** The exact decimal expansion of a float. *)
Definition float_text (f : float) : string :=
  match Prim2SF f with
  | S754_nan => "nan"
  | S754_infinity s => if s then "-inf" else "inf"
  | S754_zero s => if s then "-0.0" else "0.0"
  | S754_finite s m e =>
      let sign := if s then "-" else "" in
      if (0 <=? e)%Z
      then sign ++ Py.str_of_int (Zpos m * 2 ^ e) ++ ".0"
      else
        let k := (- e)%Z in
        let n := (Zpos m * 5 ^ k)%Z in
        let frac := match Py.str_of_int (10 ^ k + n mod 10 ^ k) with
                    | String _ digits => rstrip_zeros digits
                    | EmptyString => EmptyString
                    end in
        sign ++ Py.str_of_int (n / 10 ^ k) ++ "."
             ++ (if String.eqb frac "" then "0" else frac)
  end%string.

Definition present (cells : list value) : list float :=
  flat_map (fun v => match num_of_value v with
                     | Some n => [to_float n]
                     | None => []
                     end) cells.

Definition fmin (a b : float) : float := if (b <? a)%float then b else a.
Definition fmax (a b : float) : float := if (a <? b)%float then b else a.

Fixpoint insert_float (x : float) (l : list float) : list float :=
  match l with
  | [] => [x]
  | y :: l' => if (x <? y)%float then x :: l else y :: insert_float x l'
  end.

Definition median (xs : list float) : float :=
  let s := fold_right insert_float [] xs in
  let n := length s in
  if Nat.even n
  then ((nth (n / 2 - 1) s 0 + nth (n / 2) s 0) / 2)%float
  else nth (n / 2) s 0%float.

(** Reductions that skip missing values; on no value, the count and the
    sum are 0 and the others are missing. *)
Definition reduce_cells (op : string) (dt : dtype) (cells : list value)
  : result value :=
  let xs := present cells in
  if String.eqb op "count"
  then Ok (VInt (Z.of_nat (length (filter (fun v => match v with
                                                    | VNull => false
                                                    | _ => true
                                                    end) cells))))
  else if negb (is_number dt) then Raise TypeError
  else if String.eqb op "sum" then Ok (VFloat (Np.sum xs))
  else
    match xs with
    | [] => Ok VNull
    | x :: r =>
        if String.eqb op "mean" then Ok (VFloat (Np.mean xs))
        else if String.eqb op "min" then Ok (VFloat (fold_left fmin r x))
        else if String.eqb op "max" then Ok (VFloat (fold_left fmax r x))
        else if String.eqb op "median" then Ok (VFloat (median xs))
        else if String.eqb op "std" then
          match r with
          | [] => Ok VNull
          | _ => Ok (VFloat (Np.std 1 xs))
          end
        else Raise ValueError
    end.

Definition pandas : Pandas :=
  {| float_repr := float_text;
     regex_contains_nocase := fun _ _ => Raise ValueError;
     reduce := reduce_cells;
     pd_describe := fun d => d;
     pd_corr := fun d => d;
     pd_sort_values := fun d _ _ => Ok d;
     pd_value_counts := fun _ => [];
     isolation_forest := fun X _ _ => Ok (map (fun _ => false) (rows X)) |}.

End Sample.

(** ** Tables and plans of the examples *)

Module Ex.

(** A table with one text column. *)
Definition cities : DataFrame :=
  {| columns := [("name", DObj)];
     rows := [[VStr "Texas"]; [VStr "texarkana"]; [VStr "Ohio"]] |}.

(** [{'type': 'anomaly:zscore', 'col': None, 'threshold': 3.0}] *)
Definition zscore_unresolved : Plan := plan_zscore None 3%float.

(** [{'name': {'startswith': 'tex'}}] and its siblings *)
Definition starts_tex : FilterSpec :=
  [("name", FDict (preds_startswith (LStr "tex")))].
Definition ends_AS : FilterSpec :=
  [("name", FDict (preds_endswith (LStr "AS")))].
Definition contains_tex : FilterSpec :=
  [("name", FDict (preds_contains (LStr "tex")))].

(** [{'type': 'aggregate', 'group_by': [], 'ops': {'*': 'count'},
      'filters': {'name': {'contains': 'tex'}}}] *)
Definition count_contains_tex : Plan :=
  plan_aggregate [] [("*", "count")] contains_tex.


(** The column [0, 0, 0, 0, 10]. *)
Definition spike : DataFrame :=
  {| columns := [("v", DInt)];
     rows := [[VInt 0]; [VInt 0]; [VInt 0]; [VInt 0]; [VInt 10]] |}.

(** Regions with a missing key and a group whose values are all missing. *)
Definition regions : DataFrame :=
  {| columns := [("region", DObj); ("x", DFloat)];
     rows := [[VStr "A"; VFloat 1]; [VStr "A"; VFloat 3];
              [VNull; VFloat 2]; [VStr "B"; VNull]] |}.

(** States in both letter cases. *)
Definition states : DataFrame :=
  {| columns := [("volume", DInt); ("state", DObj)];
     rows := [[VInt 10; VStr "TX"]; [VInt 20; VStr "tx"];
              [VInt 30; VStr "OH"]] |}.




Definition below_spike_z : float := 0x1.e666666666666p+0%float.







(** A spec with a key that is no column of [cities], alone and before a
    known one. *)
Definition unknown_zip : FilterSpec := [("zip", FLit (LInt 1))].
Definition zip_then_tex : FilterSpec :=
  ("zip", FLit (LInt 1)) :: contains_tex.

Definition cities_tex : DataFrame :=
  {| columns := [("name", DObj)];
     rows := [[VStr "Texas"]; [VStr "texarkana"]] |}.

(** A store with [cities] at reference 0. *)
Definition store : Store.heap :=
  {| Store.cells := fun _ => cities; Store.next := 1 |}.

End Ex.

(** ** The rest of the repository

    [_normalize] of planner.py, the pure helpers of dataset.py, the schema
    of preprocess.py and the choice of the date column in [main]. *)

Fixpoint sfilter (p : ascii -> bool) (s : string) : string :=
  match s with
  | EmptyString => EmptyString
  | String c r => if p c then String c (sfilter p r) else sfilter p r
  end.

(** [[a-z0-9]] *)
Definition cls_alnum (c : ascii) : bool :=
  (Py.is_lower c || Py.is_digit c)%bool.

(** planner.py, lines 115-116: [re.sub(r'[^a-z0-9]', '', s.lower())] *)
Definition _normalize (s : string) : string := sfilter cls_alnum (Py.lower s).

(** [[A-Za-z0-9_-]] *)
Definition cls_drive_id (c : ascii) : bool :=
  (Py.is_upper c || Py.is_lower c || Py.is_digit c || is_char "_" c
   || is_char "-" c)%bool.

(** [/d/([A-Za-z0-9_-]{20,})/] *)
Definition re_drive_path : Re.regex :=
  Re.seq [Re.Lit "/d/"; Re.Group (Re.Class cls_drive_id 20 None);
          Re.Lit "/"].

(** [[?&]id=([A-Za-z0-9_-]{20,})] *)
Definition re_drive_query : Re.regex :=
  Re.seq [Re.one (fun c => (is_char "?" c || is_char "&" c)%bool);
          Re.Lit "id="; Re.Group (Re.Class cls_drive_id 20 None)].

(** dataset.py, lines 8-14 *)
Definition _extract_drive_file_id (url : string) : option string :=
  match Re.search re_drive_path url with
  | Some m => Some (Re.group m 1)
  | None =>
      match Re.search re_drive_query url with
      | Some m => Some (Re.group m 1)
      | None => None
      end
  end.

(** dataset.py, lines 22 and 60: the address the file of id [file_id] is
    requested from. *)
Definition drive_download_url (file_id : string) : string :=
  "https://drive.google.com/uc?export=download&id=" ++ file_id.

(** dataset.py, lines 35-43.  [resp_headers] is the mapping through its
    method [get], whatever the mapping is (a dict in the signature, the
    headers of the response at line 64): [resp_headers key] is
    [resp_headers.get(key)]. *)
Definition _guess_ext_from_headers (url : string)
    (resp_headers : string -> option string) : string :=
  let ct := Py.lower (match resp_headers "Content-Type" with
                      | Some v => v
                      | None => ""
                      end) in
  if Py.str_in "parquet" ct then ".parquet"
  else if (Py.str_in "excel" ct || Py.str_in "spreadsheetml" ct
           || Py.str_in "xlsx" url)%bool then ".xlsx"
  else if (Py.str_in "csv" ct || Py.endswith (Py.lower url) ".csv")%bool
  then ".csv"
  else "".

(** dataset.py, line 64: the extension given to a download whose name has
    none, [_guess_ext_from_headers(url, r.headers) or '.csv']. *)
Definition download_ext (url : string)
    (resp_headers : string -> option string) : string :=
  let ext := _guess_ext_from_headers url resp_headers in
  if String.eqb ext "" then ".csv" else ext.

(** dataset.py, lines 77-91: the format [_read_dataframe] reports for a
    path of extension [ext] (taken in lower case); ['csv?'] is the
    attempt on an extension it does not know. *)
Definition format_of_ext (ext : string) : string :=
  let ext := Py.lower ext in
  if Py.mem ext [".csv"; ".txt"] then "csv"
  else if Py.mem ext [".xlsx"; ".xls"] then "excel"
  else if Py.mem ext [".parquet"] then "parquet"
  else "csv?".

(** [pd.to_datetime(df[col])] returns instead of raising: a routine of
    pandas. *)
Class Dates := { parses_as_datetime : list value -> bool }.

Section Preprocess.
Context `{Dates}.

(** preprocess.py, lines 3-17, on tables of int64, float64 and object
    columns (none is datetime64 already). *)
Definition infer_schema (df : DataFrame) : list (string * string) :=
  map (fun ci =>
         let c := fst (fst ci) in
         let dt := snd (fst ci) in
         if is_number dt then (c, "numeric")
         else if parses_as_datetime (series df (snd ci)) then (c, "datetime")
         else (c, "categorical"))
      (combine (columns df) (seq 0 (length (columns df)))).
End Preprocess.

Definition date_hints : list string :=
  ["date"; "day"; "gas_day"; "eff_gas_day"; "timestamp"].

(** agent.py, lines 122-125: the column guessed from the names and the
    schema, [None] when there is none (or its name is empty). *)
Definition year_candidate (cols : list string)
    (schema : list (string * string)) : option string :=
  let name_hint :=
    filter (fun c => existsb (fun k => Py.str_in k (Py.lower c)) date_hints)
           cols in
  let dt_cols :=
    map fst (filter (fun ct => String.eqb (snd ct) "datetime") schema) in
  let candidate := match name_hint with
                   | c :: _ => Some c
                   | [] => hd_error dt_cols
                   end in
  if truthy_str candidate then candidate else None.

(** agent.py, lines 115-129: the column the year is derived from, [None]
    when no year is derived. *)
Definition year_source (date_col : option string) (cols : list string)
    (schema : list (string * string)) : option string :=
  match date_col with
  | Some t =>
      if (truthy_str date_col && Py.mem t cols)%bool then Some t
      else year_candidate cols schema
  | None => year_candidate cols schema
  end.

(** ** Vocabulary of the further properties *)

(** [s.isascii()]: every character of [s] is below 128.  On such a text
    [Py.lower] and [Py.upper] are [str.lower] and [str.upper]; past it
    Python changes letters the model leaves as they are. *)
Definition is_ascii (s : string) : bool :=
  all_chars (fun c => N.ltb (Py.code c) 128) s.

(** The columns a plan names: its column, its column list, its grouping
    and sort columns, the keys of its ops other than the wildcard and the
    keys of its filters. *)
Definition plan_columns (p : Plan) : list string :=
  match p_col p with Some c => [c] | None => [] end
  ++ get_list (p_cols p) ++ get_list (p_group_by p) ++ get_list (p_by p)
  ++ filter (fun c => negb (String.eqb c "*")) (map fst (get_list (p_ops p)))
  ++ map fst (get_list (p_filters p)).

(** The plan types [execute_plan] compares with, before the prefix test of
    the z-score branch. *)
Definition exact_types : list string :=
  ["meta:shape"; "meta:columns"; "meta:dtypes"; "meta:describe"; "meta:head";
   "meta:tail"; "meta:missing"; "meta:duplicates"; "unique_count";
   "value_counts"; "group_count"; "aggregate"; "correlation"; "sort_top"].

(** [plan] with another type. *)
Definition with_type (t : string) (p : Plan) : Plan :=
  {| p_type := t; p_n := p_n p; p_col := p_col p; p_cols := p_cols p;
     p_group_by := p_group_by p; p_ops := p_ops p; p_filters := p_filters p;
     p_by := p_by p; p_ascending := p_ascending p; p_top_n := p_top_n p;
     p_threshold := p_threshold p; p_contamination := p_contamination p |}.

(** A spec of equality entries only. *)
Definition literal_only (f : FilterSpec) : bool :=
  forallb (fun kv => match snd kv with
                     | FLit _ => true
                     | FDict _ => false
                     end) f.

(** Does row [r] pass the equality entry [kv] on the columns [names]?  An
    entry on an unknown column lets every row pass. *)
Definition row_passes (names : list string) (r : row) (kv : string * fvalue)
  : bool :=
  match index_of (fst kv) names, snd kv with
  | Some i, FLit l => value_eq_lit l (cell r i)
  | _, _ => true
  end.

(** [{'between': [lo, hi]}] and [{'gte': lo, 'lte': hi}] *)
Definition preds_between (lo hi : literal) : preds :=
  {| f_between := Some (lo, hi); f_in := None; f_contains := None;
     f_startswith := None; f_endswith := None; f_gt := None; f_gte := None;
     f_lt := None; f_lte := None |}.

Definition preds_gte_lte (lo hi : literal) : preds :=
  {| f_between := None; f_in := None; f_contains := None;
     f_startswith := None; f_endswith := None; f_gt := None;
     f_gte := Some lo; f_lt := None; f_lte := Some hi |}.

(** A spec of equality entries and of dicts that hold ['between'] alone. *)
Definition equality_or_between (f : FilterSpec) : bool :=
  forallb (fun kv => match snd kv with
                     | FLit _ => true
                     | FDict d =>
                         match f_between d, f_in d, f_contains d,
                               f_startswith d, f_endswith d, f_gt d, f_gte d,
                               f_lt d, f_lte d with
                         | Some _, None, None, None, None, None, None, None,
                           None => true
                         | _, _, _, _, _, _, _, _, _ => false
                         end
                     end) f.

(** A cell that is no float: as a group key it equals only itself. *)
Definition exact_cell (v : value) : bool :=
  match v with
  | VFloat _ => false
  | _ => true
  end.

Fixpoint sum_Z (l : list Z) : Z :=
  match l with
  | [] => 0
  | x :: r => x + sum_Z r
  end.

(** The [row_count] cells of a table whose last column is the count. *)
Definition counts_of (out : DataFrame) : list Z :=
  map (fun r => match last r VNull with
                | VInt z => z
                | _ => 0%Z
                end) (rows out).

(** The plan types whose execution calls no routine that can fail on its
    own: every type of [exact_types] but 'meta:missing', 'aggregate' and
    'sort_top'. *)
Definition safe_types : list string :=
  ["meta:shape"; "meta:columns"; "meta:dtypes"; "meta:describe"; "meta:head";
   "meta:tail"; "meta:duplicates"; "unique_count"; "value_counts";
   "group_count"; "correlation"].

(** A spec without a ['between'] range. *)
Definition no_between (f : FilterSpec) : bool :=
  forallb (fun kv => match snd kv with
                     | FLit _ => true
                     | FDict d => match f_between d with
                                  | None => true
                                  | Some _ => false
                                  end
                     end) f.


(** Tables and texts of the further examples. *)
Module Ex2.

Definition drive_id : string := "1AbCdEfGhIjKlMnOpQrStUvWxYz_0-9".

Definition share_link : string :=
  "https://drive.google.com/file/d/1AbCdEfGhIjKlMnOpQrStUvWxYz_0-9/view?usp=sharing".

Definition two_literals : FilterSpec :=
  [("state", FLit (LStr "TX")); ("volume", FLit (LInt 10))].

Definition volume_between : FilterSpec :=
  [("volume", FDict (preds_between (LInt 10) (LInt 20)))].

Definition regions_int : DataFrame :=
  {| columns := [("region", DObj); ("n", DInt)];
     rows := [[VStr "A"; VInt 1]; [VStr "A"; VInt 3]; [VNull; VInt 2];
              [VStr "B"; VInt 2]] |}.

Definition with_missing : DataFrame :=
  {| columns := [("v", DFloat)];
     rows := [[VFloat 1]; [VNull]; [VFloat 1]; [VFloat 1]; [VFloat 100]] |}.

Definition dates : Dates := {| parses_as_datetime := fun _ => false |}.

(** A forest that flags every row, and what [iforest_outliers] returns
    with it on the column x of [Ex.regions]. *)
Definition flag_all : Pandas :=
  {| float_repr := Sample.float_text;
     regex_contains_nocase := fun _ _ => Raise ValueError;
     reduce := Sample.reduce_cells;
     pd_describe := fun d => d;
     pd_corr := fun d => d;
     pd_sort_values := fun d _ _ => Ok d;
     pd_value_counts := fun _ => [];
     isolation_forest := fun X _ _ => Ok (map (fun _ => true) (rows X)) |}.

Definition regions_flagged : DataFrame :=
  {| columns := columns Ex.regions;
     rows := [[VStr "A"; VFloat 1]; [VStr "A"; VFloat 3];
              [VNull; VFloat 2]] |}.

(** Visits by gas day. *)
Definition visits : DataFrame :=
  {| columns := [("site", DObj); ("gas_day", DObj); ("n", DInt)];
     rows := [[VStr "a"; VStr "2024-01-01"; VInt 1]] |}.

End Ex2.

(** ** Proof steps *)

(** Case analysis on every test of the goal. *)
Ltac split_ifs :=
  repeat match goal with
         | |- context [if ?b then _ else _] => destruct b
         | |- context [match ?o with Some _ => _ | None => _ end] =>
             destruct o
         end.

(** * Properties *)

(** ** The planner *)

Section PlannerFacts.
Context `{SequenceMatcher}.

Lemma rule_meta_type q n p :
  rule_meta q n = Some p -> String.eqb (p_type p) "sort_top" = false.
Proof.
  unfold rule_meta; split_ifs; intros E; inversion E; reflexivity.
Qed.

Lemma rule_unique_type q cols p :
  rule_unique q cols = Some p -> String.eqb (p_type p) "sort_top" = false.
Proof.
  unfold rule_unique; split_ifs; intros E; inversion E; reflexivity.
Qed.

Lemma rule_value_counts_type q n cols p :
  rule_value_counts q n cols = Some p ->
  String.eqb (p_type p) "sort_top" = false.
Proof.
  unfold rule_value_counts; split_ifs; intros E; inversion E; reflexivity.
Qed.

(** The row-count block returns on every question that holds "rows". *)
Lemma rule_count_rows_fires q year filters cols :
  Py.str_in "rows" q = true ->
  exists p, rule_count_rows q year filters cols = Some p
            /\ String.eqb (p_type p) "sort_top" = false.
Proof.
  intros Hrows. unfold rule_count_rows.
  replace (Py.any_in q _) with true.
  - split_ifs; eexists; split; reflexivity.
  - unfold Py.any_in. simpl. rewrite Hrows.
    now rewrite !orb_true_r.
Qed.

Lemma rows_never_sort_top question cols :
  Py.str_in "rows" (Py.lower (Py.strip question)) = true ->
  String.eqb (p_type (plan_from_nl question cols)) "sort_top" = false.
Proof.
  intros Hrows. unfold plan_from_nl.
  set (q := Py.lower (Py.strip question)) in *.
  destruct (rule_count_rows_fires q (_extract_year q)
              (_extract_filters q cols) cols Hrows) as [p [Ep Tp]].
  simpl.
  destruct (rule_meta q (_extract_int q)) eqn:E1;
    [now apply rule_meta_type in E1|].
  destruct (rule_unique q cols) eqn:E2;
    [now apply rule_unique_type in E2|].
  destruct (rule_value_counts q (_extract_int q) cols) eqn:E3;
    [now apply rule_value_counts_type in E3|].
  now rewrite Ep.
Qed.
End PlannerFacts.

(** C1 (the code departs from the claim).  On "top 5 rows by volume" with the
    columns volume and region the planner returns the group-count plan of
    the row-count block, which is tested before the top-N block, and not the
    sort_top plan; more generally no question that holds the word "rows" is
    ever planned as sort_top. *)
Theorem top_rows_question_is_planned_as_group_count :
  forall (M : SequenceMatcher),
    plan_from_nl "top 5 rows by volume" ["volume"; "region"]
    = plan_group_count ["volume"]
    /\ plan_from_nl "top 5 rows by volume" ["volume"; "region"]
       <> plan_sort_top ["volume"] false 5 []
    /\ plan_from_nl "top 5 row by volume" ["volume"; "region"]
       = plan_sort_top ["volume"] false 5 []
    /\ forall question cols,
         (Py.str_in "rows" (Py.lower (Py.strip question))
          && String.eqb (p_type (plan_from_nl question cols)) "sort_top")%bool
         = false.
Proof.
  intros M.
  assert (E : plan_from_nl "top 5 rows by volume" ["volume"; "region"]
              = plan_group_count ["volume"]) by (vm_compute; reflexivity).
  split; [exact E|]. split; [rewrite E; discriminate|].
  split; [vm_compute; reflexivity|].
  intros question cols.
  destruct (Py.str_in "rows" (Py.lower (Py.strip question))) eqn:Hrows;
    [|reflexivity].
  simpl. now apply rows_never_sort_top.
Qed.

(** ** The executor on the z-score plan *)

(** C2 (the code departs from the claim).  On a table without a numeric
    column the z-score branch of the executor raises: [IndexError] when the
    plan's column is unresolved (the fallback indexes the empty list of
    numeric columns), and [ValueError] on the plan the planner itself makes
    for "any outliers?" (the text column it picks cannot be read as floats).
    Nothing catches either, so the turn of the session loop raises too.  The
    sibling [meta_describe] does handle the same table, with a note row. *)
Theorem zscore_plan_raises_without_numeric_column :
  forall (P : Pandas) (M : SequenceMatcher),
    execute_plan Ex.cities Ex.zscore_unresolved = Raise IndexError
    /\ plan_from_nl "any outliers?" (col_names Ex.cities)
       = plan_zscore (Some "name") 3%float
    /\ answer Ex.cities "any outliers?" = Raise ValueError
    /\ execute_plan Ex.cities (plan_of_type "meta:describe")
       = Ok {| columns := [("note", DObj)];
               rows := [[VStr "No numeric columns to describe."]] |}.
Proof.
  intros P M. repeat split; vm_compute; reflexivity.
Qed.

(** ** The filter engine on text predicates *)

(** C3 (the code departs from the claim).  Only [contains] ignores letter
    case: with the prefix "tex" [startswith] keeps "texarkana" and drops
    "Texas", and with the suffix "AS" [endswith] drops "Texas", while
    [contains] with "tex" keeps both rows. *)
Theorem startswith_and_endswith_are_case_sensitive :
  forall (P : Pandas),
    apply_filters Ex.cities (Some Ex.starts_tex)
    = Ok {| columns := [("name", DObj)]; rows := [[VStr "texarkana"]] |}
    /\ apply_filters Ex.cities (Some Ex.ends_AS)
       = Ok {| columns := [("name", DObj)]; rows := [] |}
    /\ apply_filters Ex.cities (Some Ex.contains_tex)
       = Ok {| columns := [("name", DObj)];
               rows := [[VStr "Texas"]; [VStr "texarkana"]] |}.
Proof.
  intros P. repeat split; vm_compute; reflexivity.
Qed.

(** A missing cell is the text "nan" after [astype(str)], so it does satisfy
    a text predicate that "nan" satisfies. *)
Example missing_cell_matches_nan :
  forall (P : Pandas),
    apply_filters {| columns := [("name", DObj)];
                     rows := [[VStr "Ohio"]; [VNull]] |}
                  (Some [("name", FDict (preds_contains (LStr "NA")))])
    = Ok {| columns := [("name", DObj)]; rows := [[VNull]] |}.
Proof.
  intros P. vm_compute. reflexivity.
Qed.

(** ** The executor on count plans *)

(** C4 (the code departs from the claim).  With grouping columns the
    [{'*': 'count'}] plan is rerouted to [group_count], as claimed.  Without
    them the count is computed by a loop of its own that knows equality and
    ['between'] only: the plan of "how many rows where name contains tex"
    counts 0 rows where [apply_filters] keeps 2. *)
Theorem direct_row_count_ignores_contains :
  forall (P : Pandas) (M : SequenceMatcher),
    (forall df g gs filters,
        execute_plan df (plan_aggregate (g :: gs) [("*", "count")] filters)
        = group_count df (g :: gs))
    /\ plan_from_nl "how many rows where name contains tex"
         (col_names Ex.cities) = Ex.count_contains_tex
    /\ execute_plan Ex.cities Ex.count_contains_tex
       = Ok {| columns := [("row_count", DInt)]; rows := [[VInt 0]] |}
    /\ apply_filters Ex.cities (Some Ex.contains_tex)
       = Ok {| columns := [("name", DObj)];
               rows := [[VStr "Texas"]; [VStr "texarkana"]] |}.
Proof.
  intros P M. split; [reflexivity|].
  repeat split; vm_compute; reflexivity.
Qed.

(** ** Outcomes and masks *)

Lemma bind_ok {A B} (r : result A) (k : A -> result B) (b : B) :
  bind r k = Ok b -> exists a, r = Ok a /\ k a = Ok b.
Proof.
  destruct r as [a|e]; simpl; intros E; [now exists a|discriminate].
Qed.

Lemma bind_ret {A} (r : result A) : bind r Ok = r.
Proof. now destruct r. Qed.



Lemma mapM_all_ok {A B} (f : A -> result B) (l : list A) :
  (forall a, In a l -> exists b, f a = Ok b) ->
  exists bs, mapM f l = Ok bs.
Proof.
  induction l as [|x l IH]; intros Hall; [now exists []|].
  destruct (Hall x (or_introl eq_refl)) as [b Eb].
  destruct IH as [bs Ebs]; [intros a Ha; apply Hall; now right|].
  exists (b :: bs). simpl. now rewrite Eb, Ebs.
Qed.

Lemma select_length {A} (m : list bool) (l : list A) :
  length (select m l) <= length l.
Proof.
  revert l. induction m as [|b m IH]; intros [|x l]; simpl; try lia.
  destruct b; simpl; specialize (IH l); lia.
Qed.

Lemma select_incl {A} (m : list bool) (l : list A) : incl (select m l) l.
Proof.
  revert l. induction m as [|b m IH]; intros [|x l]; simpl;
    try (intros y []).
  destruct b.
  - intros y [<-|Hy]; [now left|right; now apply IH].
  - intros y Hy. right. now apply IH.
Qed.

Lemma select_all {A B} (s : list B) (l : list A) :
  length s = length l -> select (map (fun _ => true) s) l = l.
Proof.
  revert l. induction s as [|b s IH]; intros [|x l]; simpl; intros E;
    try discriminate; [reflexivity|].
  f_equal. apply IH. now inversion E.
Qed.

Lemma and_mask_all {B} (s : list B) (m : list bool) :
  length m = length s -> and_mask (map (fun _ => true) s) m = m.
Proof.
  revert m. induction s as [|b s IH]; intros [|x m]; simpl; intros E;
    try discriminate; [reflexivity|].
  f_equal. apply IH. now inversion E.
Qed.

Lemma index_of_mem (k : string) (names : list string) :
  index_of k names = None <-> Py.mem k names = false.
Proof.
  unfold Py.mem. induction names as [|n names IH]; simpl; [now split|].
  destruct (String.eqb k n); simpl.
  - split; discriminate.
  - destruct (index_of k names) as [i|].
    + split; intros E; [discriminate|].
      apply IH in E. discriminate.
    + split; intros _; [now apply IH|reflexivity].
Qed.

(** ** The filter engine *)

Section FilterFacts.
Context `{Pandas}.

Lemma apply_entry_unknown data kv :
  Py.mem (fst kv) (col_names data) = false -> apply_entry data kv = Ok data.
Proof.
  intros E. unfold apply_entry, col_index.
  apply index_of_mem in E. now rewrite E.
Qed.

(** One entry keeps the columns and selects among the rows. *)
Lemma apply_entry_shrinks data kv d :
  apply_entry data kv = Ok d ->
  columns d = columns data
  /\ length (rows d) <= length (rows data)
  /\ incl (rows d) (rows data).
Proof.
  unfold apply_entry. destruct (col_index data (fst kv)) as [i|].
  - intros E. apply bind_ok in E. destruct E as [m [_ E]].
    inversion E; subst d. simpl.
    split; [reflexivity|].
    split; [apply select_length|apply select_incl].
  - intros E. inversion E; subst d.
    split; [reflexivity|]. split; [lia|apply incl_refl].
Qed.

Lemma apply_entries_shrinks f : forall data d,
  apply_entries data f = Ok d ->
  columns d = columns data
  /\ length (rows d) <= length (rows data)
  /\ incl (rows d) (rows data).
Proof.
  induction f as [|kv f IH]; intros data d E; simpl in E.
  - inversion E; subst d.
    split; [reflexivity|]. split; [lia|apply incl_refl].
  - apply bind_ok in E. destruct E as [d1 [E1 E]].
    apply apply_entry_shrinks in E1. destruct E1 as [C1 [L1 I1]].
    apply IH in E. destruct E as [C2 [L2 I2]].
    split; [congruence|]. split; [lia|].
    eapply incl_tran; eassumption.
Qed.

Lemma apply_filters_shrinks df filters d :
  apply_filters df filters = Ok d ->
  columns d = columns df
  /\ length (rows d) <= length (rows df)
  /\ incl (rows d) (rows df).
Proof.
  unfold apply_filters. destruct filters as [[|kv f]|].
  - intros E; inversion E; subst d.
    split; [reflexivity|]. split; [lia|apply incl_refl].
  - apply apply_entries_shrinks.
  - intros E; inversion E; subst d.
    split; [reflexivity|]. split; [lia|apply incl_refl].
Qed.

(** Entries on unknown columns can be dropped from the spec. *)
Lemma apply_entries_known f : forall data names,
  col_names data = names ->
  apply_entries data f
  = apply_entries data (filter (fun kv => Py.mem (fst kv) names) f).
Proof.
  induction f as [|kv f IH]; intros data names En; [reflexivity|].
  simpl. destruct (Py.mem (fst kv) names) eqn:Ek.
  - simpl. destruct (apply_entry data kv) as [d|e] eqn:E1; [|reflexivity].
    simpl. apply IH.
    apply apply_entry_shrinks in E1. destruct E1 as [C1 _].
    unfold col_names in *. now rewrite C1.
  - rewrite apply_entry_unknown by now rewrite En.
    simpl. now apply IH.
Qed.

Lemma apply_entries_all_unknown f data :
  forallb (fun kv => negb (Py.mem (fst kv) (col_names data))) f = true ->
  apply_entries data f = Ok data.
Proof.
  induction f as [|kv f IH]; intros E; [reflexivity|].
  simpl in E. apply andb_true_iff in E. destruct E as [Ek Ef].
  simpl. rewrite apply_entry_unknown.
  - simpl. now apply IH.
  - now destruct (Py.mem (fst kv) (col_names data)).
Qed.
End FilterFacts.

(** C6.  For every table [T] and FilterSpec [F]: the entries of [F] whose
    key is no column of [T] are skipped (dropping them changes nothing, and
    a spec made of such entries only returns [T] without raising), and a
    returned table has the columns of [T] and rows taken among the rows of
    [T], so never more rows than [T]. *)
Theorem apply_filters_skips_unknown_columns_and_never_grows :
  forall (P : Pandas) (T : DataFrame) (F : FilterSpec),
    apply_filters T (Some F)
    = apply_filters T
        (Some (filter (fun kv => Py.mem (fst kv) (col_names T)) F))
    /\ (forallb (fun kv => negb (Py.mem (fst kv) (col_names T))) F = true ->
        apply_filters T (Some F) = Ok T)
    /\ (forall T', apply_filters T (Some F) = Ok T' ->
        columns T' = columns T
        /\ length (rows T') <= length (rows T)
        /\ incl (rows T') (rows T)).
Proof.
  intros P T F. split; [|split].
  - assert (E := apply_entries_known F T (col_names T) eq_refl).
    unfold apply_filters. destruct F as [|kv F]; [reflexivity|].
    rewrite E.
    destruct (filter _ (kv :: F)); reflexivity.
  - intros E. unfold apply_filters. destruct F as [|kv F]; [reflexivity|].
    now apply apply_entries_all_unknown.
  - intros T'. apply apply_filters_shrinks.
Qed.

(** ** Aggregation without operations *)

Section EmptyOps.
Context `{Pandas} `{SequenceMatcher}.

Lemma aggregate_no_ops df group_by filters :
  aggregate df group_by None filters = apply_filters df filters
  /\ aggregate df group_by (Some []) filters = apply_filters df filters.
Proof.
  unfold aggregate. split; apply bind_ret.
Qed.

Lemma execute_plan_no_ops df gb f :
  execute_plan df (plan_aggregate gb [] f) = apply_filters df (Some f).
Proof.
  unfold execute_plan. simpl.
  apply (proj2 (aggregate_no_ops df (Some gb) (Some f))).
Qed.

Lemma rule_sum_no_target q year filters cols p :
  rule_sum q year filters cols = Some p ->
  _first_present cols sum_targets = None ->
  p_ops p = Some [].
Proof.
  unfold rule_sum, sum_targets. intros E T. rewrite T in E.
  destruct (Py.any_in q ["sum"; "total"]); [|discriminate].
  inversion E. reflexivity.
Qed.

Lemma rule_average_no_target q year filters cols p :
  rule_average q year filters cols = Some p ->
  or_str (_resolve_col_from_text q cols)
         (_first_present cols average_targets) = None ->
  p_ops p = Some [].
Proof.
  unfold rule_average, average_targets. intros E T. rewrite T in E.
  destruct (Py.any_in q ["average"; "mean"; "avg"]); [|discriminate].
  inversion E. reflexivity.
Qed.
End EmptyOps.

(** C9.  With an absent or empty ops map [aggregate] returns what
    [apply_filters] returns, whatever the grouping columns, and so does the
    executor on an aggregate plan with empty ops.  The sum block and the
    average block of the planner make such a plan whenever they resolve no
    target column, as on "total by region" and on "average" over the single
    column region. *)
Theorem aggregate_without_ops_returns_the_filtered_table :
  forall (P : Pandas) (M : SequenceMatcher),
    (forall df group_by filters,
        aggregate df group_by None filters = apply_filters df filters
        /\ aggregate df group_by (Some []) filters = apply_filters df filters)
    /\ (forall df gb f,
           execute_plan df (plan_aggregate gb [] f)
           = apply_filters df (Some f))
    /\ (forall q year filters cols p,
           rule_sum q year filters cols = Some p ->
           _first_present cols sum_targets = None ->
           p_ops p = Some [])
    /\ (forall q year filters cols p,
           rule_average q year filters cols = Some p ->
           or_str (_resolve_col_from_text q cols)
                  (_first_present cols average_targets) = None ->
           p_ops p = Some [])
    /\ plan_from_nl "total by region" ["region"]
       = plan_aggregate ["region"] [] []
    /\ plan_from_nl "average" ["region"] = plan_aggregate [] [] [].
Proof.
  intros P M.
  split; [apply aggregate_no_ops|].
  split; [apply execute_plan_no_ops|].
  split; [apply rule_sum_no_target|].
  split; [apply rule_average_no_target|].
  split; vm_compute; reflexivity.
Qed.

(** ** Literals of where phrases *)



Section CoerceFacts.
Context `{SequenceMatcher}.



End CoerceFacts.



(** ** Z-score outliers *)

Lemma zscore_outliers_rows df col thr out :
  zscore_outliers df col thr = Ok out ->
  exists i xs,
    col_index df col = Some i
    /\ mapM cell_float (series df i) = Ok xs
    /\ columns out = columns df
    /\ rows out
       = select (map (fun x =>
                        (thr <=? abs ((x - Np.mean xs)
                                      / (sqrt (Np.var 0 xs) + epsilon)))%float)
                     xs)
                (rows df).
Proof.
  unfold zscore_outliers. destruct (col_index df col) as [i|]; [|discriminate].
  intros E. apply bind_ok in E. destruct E as [xs [Exs E]].
  inversion E; subst out. exists i, xs.
  repeat split; try assumption.
  simpl. unfold zscores, Np.std. now rewrite map_map.
Qed.

(** On a column that holds no text the conversion to floats succeeds, and
    so does the call. *)
Lemma zscore_outliers_returns df col i thr :
  col_index df col = Some i ->
  forallb (fun v => match v with VStr _ => false | _ => true end)
          (series df i) = true ->
  exists out, zscore_outliers df col thr = Ok out.
Proof.
  intros Ei Hn. unfold zscore_outliers. rewrite Ei.
  destruct (mapM_all_ok cell_float (series df i)) as [xs Exs].
  - intros v Hv. rewrite forallb_forall in Hn. specialize (Hn v Hv).
    destruct v; simpl; try (eexists; reflexivity). discriminate.
  - rewrite Exs. simpl. eexists. reflexivity.
Qed.











(** ** Frames as objects: what [apply_filters] returns *)

Section StoreFacts.
Context `{Pandas}.
Import Store.

Lemma deref_extend_new h d : deref (extend h d) (next h) = d.
Proof. unfold deref, extend. simpl. now rewrite Nat.eqb_refl. Qed.

Lemma deref_extend_old h d l :
  l < next h -> deref (extend h d) l = deref h l.
Proof.
  intros L. unfold deref, extend. simpl.
  destruct (Nat.eqb_spec l (next h)); [lia|reflexivity].
Qed.

Lemma deref_put_other h l l' d : l' <> l -> deref (put h l d) l' = deref h l'.
Proof.
  intros N. unfold deref, put. simpl.
  destruct (Nat.eqb_spec l' l); [contradiction|reflexivity].
Qed.

(** A dict without predicate keys keeps every row. *)
Lemma apply_entry_no_rebind data kv d :
  rebinds (snd kv) = false -> apply_entry data kv = Ok d -> d = data.
Proof.
  destruct kv as [k [l|p]]; simpl; [discriminate|].
  intros R. unfold apply_entry. simpl.
  destruct (col_index data k) as [i|]; [|now intros E; inversion E].
  unfold entry_mask.
  destruct p as [b i0 c s e g ge l le]; simpl in R |- *.
  destruct b, i0, c, s, e, g, ge, l, le; try discriminate.
  simpl. intros E. inversion E. unfold narrow.
  rewrite select_all by (unfold series; now rewrite length_map).
  now destruct data.
Qed.

(** The loop on references: the frame it ends on is the copy or newer,
    holds what the loop on contents computes, and no object that existed
    before the copy has changed. *)
Lemma apply_entries_ref_spec f : forall h data h' data' n0,
  apply_entries_ref h data f = Ok (h', data') ->
  n0 <= data -> data < next h ->
  n0 <= data' /\ data' < next h'
  /\ apply_entries (deref h data) f = Ok (deref h' data')
  /\ (forall l, l < n0 -> deref h' l = deref h l).
Proof.
  induction f as [|kv f IH]; intros h data h' data' n0 E Lo Hi; simpl in E.
  - inversion E; subst. repeat split; auto.
  - apply bind_ok in E. destruct E as [[h1 data1] [E1 E]]. simpl in E.
    unfold apply_entry_ref in E1. simpl.
    destruct (col_index (deref h data) (fst kv)) as [i|] eqn:Ei.
    + apply bind_ok in E1. destruct E1 as [d [Ed E1]].
      rewrite Ed. simpl.
      destruct (rebinds (snd kv)) eqn:R; inversion E1; subst h1 data1.
      * destruct (IH _ _ _ _ n0 E) as [A [B [C D]]];
          [simpl; lia|simpl; lia|].
        rewrite deref_extend_new in C. repeat split; auto.
        intros l L. rewrite D by assumption.
        apply deref_extend_old. lia.
      * apply apply_entry_no_rebind in Ed; [subst d|assumption].
        now apply IH.
    + inversion E1; subst h1 data1.
      assert (Ed : apply_entry (deref h data) kv = Ok (deref h data)).
      { unfold apply_entry. now rewrite Ei. }
      rewrite Ed. simpl. now apply IH.
Qed.

Lemma apply_filters_ref_spec h df filters h' data :
  apply_filters_ref h df filters = Ok (h', data) ->
  df < next h ->
  next h <= data /\ data < next h'
  /\ apply_filters (deref h df) filters = Ok (deref h' data)
  /\ (forall l, l < next h -> deref h' l = deref h l).
Proof.
  intros E L. unfold apply_filters_ref, copy in E.
  assert (New : deref (extend h (deref h df)) (next h) = deref h df)
    by apply deref_extend_new.
  assert (Old : forall l, l < next h ->
                          deref (extend h (deref h df)) l = deref h l)
    by (intros l Hl; now apply deref_extend_old).
  unfold alloc in E.
  assert (Copy : next h <= next h /\ next h < next (extend h (deref h df))
                 /\ Ok (deref h df)
                    = Ok (deref (extend h (deref h df)) (next h))
                 /\ (forall l, l < next h ->
                       deref (extend h (deref h df)) l = deref h l)).
  { split; [lia|]. split; [simpl; lia|]. split; [now rewrite New|exact Old]. }
  destruct filters as [[|kv f]|].
  - inversion E; subst h' data. exact Copy.
  - apply apply_entries_ref_spec with (n0 := next h) in E;
      [|lia|simpl; lia].
    destruct E as [A [B [C D]]]. rewrite New in C.
    split; [assumption|]. split; [assumption|]. split; [assumption|].
    intros l Hl. rewrite D by assumption. now apply Old.
  - inversion E; subst h' data. exact Copy.
Qed.
End StoreFacts.

(** C8.  On an empty or absent spec [apply_filters] returns a new object
    with the content of [T]: its reference differs from that of [T], the
    content at both is that of [T], no object of the caller changed, and
    after any in-place change of the returned object [T] still holds its
    content.  With any spec the returned object is newer than every object
    of the caller and the caller's objects are unchanged. *)
Theorem apply_filters_returns_a_distinct_copy :
  forall (P : Pandas) (h : Store.heap) (T : Store.loc),
    T < Store.next h ->
    (forall filters,
        filters = None \/ filters = Some [] ->
        exists h' data,
          Store.apply_filters_ref h T filters = Ok (h', data)
          /\ data <> T
          /\ Store.deref h' data = Store.deref h T
          /\ Store.deref h' T = Store.deref h T
          /\ (forall d, Store.deref (Store.put h' data d) T = Store.deref h T))
    /\ (forall filters h' data,
           Store.apply_filters_ref h T filters = Ok (h', data) ->
           data <> T
           /\ apply_filters (Store.deref h T) filters
              = Ok (Store.deref h' data)
           /\ (forall l, l < Store.next h ->
                         Store.deref h' l = Store.deref h l)
           /\ (forall d l, l < Store.next h ->
                           Store.deref (Store.put h' data d) l
                           = Store.deref h l)).
Proof.
  intros P h T L.
  assert (General : forall filters h' data,
             Store.apply_filters_ref h T filters = Ok (h', data) ->
             data <> T
             /\ apply_filters (Store.deref h T) filters
                = Ok (Store.deref h' data)
             /\ (forall l, l < Store.next h ->
                           Store.deref h' l = Store.deref h l)
             /\ (forall d l, l < Store.next h ->
                             Store.deref (Store.put h' data d) l
                             = Store.deref h l)).
  { intros filters h' data E.
    destruct (apply_filters_ref_spec h T filters h' data E L)
      as [A [B [C D]]].
    split; [lia|]. split; [assumption|]. split; [assumption|].
    intros d l Hl. rewrite deref_put_other by lia. now apply D. }
  split; [|exact General].
  intros filters Hf.
  assert (E : exists h' data,
             Store.apply_filters_ref h T filters = Ok (h', data)).
  { unfold Store.apply_filters_ref, Store.copy. simpl.
    destruct Hf as [-> | ->]; eexists; eexists; reflexivity. }
  destruct E as [h' [data E]]. exists h', data.
  destruct (General filters h' data E) as [N [C [O M]]].
  split; [assumption|]. split; [assumption|].
  split.
  - assert (C' : apply_filters (Store.deref h T) filters
                 = Ok (Store.deref h T))
      by (destruct Hf as [-> | ->]; reflexivity).
    rewrite C in C'. now inversion C'.
  - split; [now apply O|]. intros d. now apply M.
Qed.

(** ** Groups and the left join of [aggregate] *)

Lemma value_eqb_refl v : value_eqb v v = true.
Proof.
  destruct v as [|z|f|s]; simpl.
  - reflexivity.
  - apply Z.eqb_refl.
  - unfold is_nan. now destruct (f =? f)%float.
  - apply String.eqb_refl.
Qed.

Lemma key_eqb_refl k : key_eqb k k = true.
Proof.
  induction k as [|v k IH]; simpl; [reflexivity|].
  now rewrite value_eqb_refl, IH.
Qed.

Lemma insert_key_in x k l : In k (insert_key x l) <-> k = x \/ In k l.
Proof.
  induction l as [|y l IH]; simpl.
  - intuition.
  - destruct (key_ltb x y); simpl; [intuition|].
    rewrite IH. intuition.
Qed.

Lemma sort_keys_in k l : In k (sort_keys l) <-> In k l.
Proof.
  unfold sort_keys. induction l as [|x l IH]; simpl; [reflexivity|].
  rewrite insert_key_in, IH. intuition.
Qed.

Lemma distinct_incl ks : forall seen k, In k (distinct seen ks) -> In k ks.
Proof.
  induction ks as [|x ks IH]; intros seen k; simpl; [tauto|].
  destruct (existsb (key_eqb x) seen).
  - intros Hk. right. now apply (IH seen).
  - intros [<-|Hk]; [now left|right; now apply (IH (x :: seen))].
Qed.

(** Every key is equal, as a group key, to a key already seen or to one of
    the keys kept. *)
Lemma distinct_covers ks : forall seen k,
  In k ks ->
  (exists k', In k' seen /\ key_eqb k k' = true)
  \/ (exists k', In k' (distinct seen ks) /\ key_eqb k k' = true).
Proof.
  induction ks as [|x ks IH]; intros seen k Hk; [destruct Hk|].
  simpl. destruct (existsb (key_eqb x) seen) eqn:Ex.
  - destruct Hk as [<-|Hk].
    + left. apply existsb_exists in Ex. destruct Ex as [k' [Hin Heq]].
      now exists k'.
    + now apply IH.
  - destruct Hk as [<-|Hk].
    + right. exists x. split; [now left|apply key_eqb_refl].
    + destruct (IH (x :: seen) k Hk) as [[k' [[<-|Hin] Heq]]|[k' [Hin Heq]]].
      * right. exists x. split; [now left|assumption].
      * left. now exists k'.
      * right. exists k'. split; [now right|assumption].
Qed.

(** Every row falls in one of the groups, whatever its key. *)
Lemma group_keys_cover idxs rs r :
  In r rs ->
  exists k, In k (group_keys idxs rs) /\ key_eqb (key_of idxs r) k = true.
Proof.
  intros Hr. unfold group_keys.
  destruct (distinct_covers (map (key_of idxs) rs) [] (key_of idxs r))
    as [[k' [[] _]]|[k' [Hin Heq]]].
  - now apply in_map.
  - exists k'. split; [now apply sort_keys_in|assumption].
Qed.





Section JoinFacts.
Context `{Pandas}.


(** Every left row is in the result, matched or not. *)
Lemma merge_left_keeps_left left right nkeys l :
  In l (rows left) ->
  exists vals, In (l ++ vals) (rows (merge_left left right nkeys)).
Proof.
  intros Hl. unfold merge_left. simpl.
  destruct (filter (fun r0 => key_eqb (firstn nkeys l) (firstn nkeys r0))
                   (rows right)) as [|m ms] eqn:Ef.
  - eexists. apply in_flat_map. exists l. split; [assumption|].
    rewrite Ef. now left.
  - exists (skipn nkeys m). apply in_flat_map. exists l.
    split; [assumption|]. rewrite Ef. now left.
Qed.


Lemma has_dup_nodup l : NoDup l -> has_dup l = false.
Proof.
  induction 1 as [|x l Hx Hn IH]; simpl; [reflexivity|].
  rewrite IH, orb_false_r.
  destruct (Py.mem x l) eqn:E; [|reflexivity].
  unfold Py.mem in E. apply existsb_exists in E.
  destruct E as [y [Hy Ey]]. apply String.eqb_eq in Ey. now subst.
Qed.

End JoinFacts.


(** ** The statements at concrete inputs *)


(** C6 on [Ex.cities]: the unknown key zip alone returns the table, and
    before a contains entry it is skipped. *)
Lemma apply_filters_on_unknown_zip :
  @apply_filters Sample.pandas Ex.cities (Some Ex.unknown_zip) = Ok Ex.cities
  /\ (columns Ex.cities_tex = columns Ex.cities
      /\ length (rows Ex.cities_tex) <= length (rows Ex.cities)
      /\ incl (rows Ex.cities_tex) (rows Ex.cities)).
Proof.
  split.
  - apply (proj1 (proj2 (apply_filters_skips_unknown_columns_and_never_grows
                           Sample.pandas Ex.cities Ex.unknown_zip))).
    reflexivity.
  - apply (proj2 (proj2 (apply_filters_skips_unknown_columns_and_never_grows
                           Sample.pandas Ex.cities Ex.zip_then_tex))).
    vm_compute; reflexivity.
Defined.


(** C8 on [Ex.store]: the copy of the frame at reference 0. *)
Lemma apply_filters_copy_in_store :
  exists h' data,
    @Store.apply_filters_ref Sample.pandas Ex.store 0 None = Ok (h', data)
    /\ data <> 0
    /\ Store.deref h' data = Store.deref Ex.store 0
    /\ Store.deref h' 0 = Store.deref Ex.store 0
    /\ (forall d, Store.deref (Store.put h' data d) 0
                  = Store.deref Ex.store 0).
Proof.
  apply (proj1 (apply_filters_returns_a_distinct_copy
                  Sample.pandas Ex.store 0 (le_n 1)) None).
  now left.
Defined.

(** C9 on "total by region" over the single column region. *)
Lemma sum_without_target_on_region :
  @rule_sum Sample.matcher "total by region" None [] ["region"]
  = Some (plan_aggregate ["region"] [] [])
  /\ @_first_present Sample.matcher ["region"] sum_targets = None
  /\ p_ops (plan_aggregate ["region"] [] []) = Some [].
Proof.
  assert (E1 : @rule_sum Sample.matcher "total by region" None [] ["region"]
               = Some (plan_aggregate ["region"] [] []))
    by (vm_compute; reflexivity).
  assert (E2 : @_first_present Sample.matcher ["region"] sum_targets = None)
    by (vm_compute; reflexivity).
  split; [exact E1|]. split; [exact E2|].
  exact (proj1 (proj2 (proj2
           (aggregate_without_ops_returns_the_filtered_table
              Sample.pandas Sample.matcher)))
           "total by region" None [] ["region"] _ E1 E2).
Defined.



(** * Further properties *)

(** ** The planner names existing columns only *)

Lemma mem_in x xs : Py.mem x xs = true <-> In x xs.
Proof.
  unfold Py.mem. rewrite existsb_exists. split.
  - intros [y [Hy E]]. apply String.eqb_eq in E. now subst y.
  - intros Hx. exists x. split; [assumption|apply String.eqb_refl].
Qed.

Lemma insert_desc_in x y l :
  In y (Difflib.insert_desc x l) -> y = x \/ In y l.
Proof.
  induction l as [|z l IH]; simpl.
  - intros [<-|[]]. now left.
  - destruct (Difflib.scored_lt z x); simpl.
    + intros [<-|[<-|Hy]]; auto.
    + intros [<-|Hy]; auto. destruct (IH Hy); auto.
Qed.

Lemma fold_insert_desc_in l : forall acc y,
  In y (fold_left (fun a x => Difflib.insert_desc x a) l acc) ->
  In y acc \/ In y l.
Proof.
  induction l as [|x l IH]; intros acc y Hy; simpl in Hy; [now left|].
  destruct (IH _ _ Hy) as [Ha|Hl]; [|right; now right].
  destruct (insert_desc_in _ _ _ Ha) as [->|Ha']; [right; now left|now left].
Qed.

Lemma firstn_in {A} n (l : list A) x : In x (firstn n l) -> In x l.
Proof.
  revert l. induction n as [|n IH]; intros [|y l]; simpl; try tauto.
  intros [<-|Hx]; [now left|right; now apply IH].
Qed.

Section PlanColumns.
Context `{SequenceMatcher}.

(** The close matches are taken among the possibilities. *)
Lemma get_close_matches_in word ps n cutoff c :
  In c (Difflib.get_close_matches word ps n cutoff) -> In c ps.
Proof.
  unfold Difflib.get_close_matches, Difflib.nlargest.
  intros Hc. apply in_map_iff in Hc. destruct Hc as [[sc x] [E Hx]].
  simpl in E. subst x. apply firstn_in in Hx.
  apply fold_insert_desc_in in Hx. destruct Hx as [[]|Hx].
  apply in_flat_map in Hx. destruct Hx as [y [Hy Hin]].
  destruct (_ && _)%bool in Hin; [|destruct Hin].
  destruct Hin as [E|[]]. inversion E. now subst.
Qed.

Lemma _resolve_col_from_text_in qpiece cols c :
  _resolve_col_from_text qpiece cols = Some c -> In c cols.
Proof.
  unfold _resolve_col_from_text.
  destruct (find _ cols) as [c'|] eqn:Ef.
  - intros E; inversion E; subst c'. now apply find_some in Ef.
  - destruct (Difflib.get_close_matches _ cols 1 cutoff_08) as [|m0 ms] eqn:Eg;
      [discriminate|].
    intros E; inversion E; subst m0.
    apply (get_close_matches_in (Py.strip (Py.lower qpiece)) cols 1 cutoff_08).
    rewrite Eg. now left.
Qed.

Lemma _first_present_in cols candidates c :
  _first_present cols candidates = Some c -> In c cols.
Proof.
  unfold _first_present.
  destruct (find _ candidates) as [c'|] eqn:Ef.
  - intros E; inversion E; subst c'. apply find_some in Ef.
    now apply mem_in.
  - destruct candidates as [|c0 cs]; [discriminate|].
    destruct (Difflib.get_close_matches c0 cols 1 cutoff_07) as [|m0 ms] eqn:Eg;
      [discriminate|].
    intros E; inversion E; subst m0.
    apply (get_close_matches_in c0 cols 1 cutoff_07). rewrite Eg. now left.
Qed.

Lemma _resolve_col_after_by_or_per_in q cols c :
  _resolve_col_after_by_or_per q cols = Some c -> In c cols.
Proof.
  unfold _resolve_col_after_by_or_per.
  destruct (Re.search re_by_or_per_end q); [apply _resolve_col_from_text_in|].
  destruct (Re.search re_by q); [apply _resolve_col_from_text_in|discriminate].
Qed.

Lemma or_str_in a b cols c :
  (forall x, a = Some x -> In x cols) ->
  (forall x, b = Some x -> In x cols) ->
  or_str a b = Some c -> In c cols.
Proof. unfold or_str. destruct (truthy_str a); auto. Qed.

Lemma dict_set_keys {V} k (v : V) d x :
  In x (map fst (dict_set k v d)) -> x = k \/ In x (map fst d).
Proof.
  induction d as [|[k' v'] d IH]; simpl.
  - intros [<-|[]]. now left.
  - destruct (String.eqb_spec k k'); simpl.
    + intros [<-|Hx]; auto.
    + intros [<-|Hx]; auto. destruct (IH Hx); auto.
Qed.

Lemma _extract_filters_keys q cols x :
  In x (map fst (_extract_filters q cols)) -> In x cols.
Proof.
  unfold _extract_filters.
  set (f1 := match Re.search re_where_eq q with
             | Some m => _
             | None => []
             end).
  assert (H1 : forall y, In y (map fst f1) -> In y cols).
  { unfold f1. destruct (Re.search re_where_eq q) as [m|]; [|intros y []].
    destruct (_resolve_col_from_text (Re.group m 1) cols) as [c|] eqn:Ec;
      [|intros y []].
    destruct (truthy_str (Some c)); [|intros y []].
    intros y [<-|[]]. now apply _resolve_col_from_text_in in Ec. }
  destruct (Re.search re_where_contains q) as [m|]; [|apply H1].
  destruct (_resolve_col_from_text (Re.group m 1) cols) as [c|] eqn:Ec;
    [|apply H1].
  destruct (truthy_str (Some c)); [|apply H1].
  intros Hx. apply dict_set_keys in Hx. destruct Hx as [->|Hx].
  - now apply _resolve_col_from_text_in in Ec.
  - now apply H1.
Qed.

Lemma fold_year_keys year cols f x :
  (forall y, In y (map fst f) -> In y cols) ->
  In x (map fst (fold_year year cols f)) -> In x cols.
Proof.
  intros Hf. unfold fold_year. destruct year as [y|]; [|apply Hf].
  destruct (truthy_int (Some y)); simpl; [|apply Hf].
  destruct (Py.mem "year" cols) eqn:Em; [|apply Hf].
  intros Hx. apply dict_set_keys in Hx. destruct Hx as [->|Hx].
  - now apply mem_in.
  - now apply Hf.
Qed.

Lemma group_by_list_in q year cols gb x :
  (forall c, gb = Some c -> In c cols) ->
  In x (group_by_list q year cols gb) -> In x cols.
Proof.
  intros Hgb. unfold group_by_list.
  assert (Hy : In x (if (Py.mem "year" cols
                         && (Py.str_in "by year" q || truthy_int year))%bool
                     then ["year"] else []) -> In x cols).
  { destruct (Py.mem "year" cols) eqn:Em; simpl; [|intros []].
    destruct (_ || _)%bool; [|intros []].
    intros [<-|[]]. now apply mem_in. }
  destruct gb as [g|]; [|exact Hy].
  destruct (truthy_str (Some g)); [|exact Hy].
  intros [<-|[]]. now apply Hgb.
Qed.

Lemma ops_of_target_keys target op cols x :
  (forall c, target = Some c -> In c cols) ->
  In x (map fst (ops_of_target target op)) -> In x cols.
Proof.
  intros Ht. unfold ops_of_target. destruct target as [t|]; [|intros []].
  destruct (truthy_str (Some t)); [|intros []].
  intros [<-|[]]. now apply Ht.
Qed.

(** What [first_return] returns is the default or what a rule returned. *)
Lemma first_return_cases (P : Plan -> Prop) rules default :
  P default ->
  (forall p, In (Some p) rules -> P p) ->
  P (first_return rules default).
Proof.
  intros Hd. induction rules as [|[p|] rules IH]; intros Hr; simpl.
  - assumption.
  - apply Hr. now left.
  - apply IH. intros p Hp. apply Hr. now right.
Qed.

Lemma filter_in_l {A} (f : A -> bool) l x : In x (filter f l) -> In x l.
Proof. intros Hx. now apply filter_In in Hx. Qed.

Lemma aggregate_plan_columns gb ops f cols :
  (forall c, In c gb -> In c cols) ->
  (forall c, In c (map fst ops) -> c = "*" \/ In c cols) ->
  (forall c, In c (map fst f) -> In c cols) ->
  forall c, In c (plan_columns (plan_aggregate gb ops f)) -> In c cols.
Proof.
  intros Hg Ho Hf c. unfold plan_columns. simpl.
  rewrite !in_app_iff.
  intros [Hc|[Hc|Hc]]; [now apply Hg| |now apply Hf].
  apply filter_In in Hc. destruct Hc as [Hc Hn].
  destruct (Ho c Hc) as [->|Hin]; [discriminate|assumption].
Qed.

Lemma rule_meta_columns q n p cols :
  rule_meta q n = Some p -> forall c, In c (plan_columns p) -> In c cols.
Proof.
  unfold rule_meta; split_ifs; intros E; inversion E; intros c [].
Qed.

Lemma rule_unique_columns q cols p :
  rule_unique q cols = Some p ->
  forall c, In c (plan_columns p) -> In c cols.
Proof.
  unfold rule_unique. destruct (_ || _)%bool; [|discriminate].
  destruct (_resolve_col_from_text q cols) as [c0|] eqn:Ec; [|discriminate].
  destruct (truthy_str (Some c0)); [|discriminate].
  intros E; inversion E. intros c [<-|[]].
  now apply _resolve_col_from_text_in in Ec.
Qed.

Lemma rule_value_counts_columns q n cols p :
  rule_value_counts q n cols = Some p ->
  forall c, In c (plan_columns p) -> In c cols.
Proof.
  unfold rule_value_counts. destruct (Py.any_in q _); [|discriminate].
  destruct (_resolve_col_from_text q cols) as [c0|] eqn:Ec; [|discriminate].
  destruct (truthy_str (Some c0)); [|discriminate].
  intros E; inversion E. intros c [<-|[]].
  now apply _resolve_col_from_text_in in Ec.
Qed.

Lemma count_plan_columns year filters cols :
  (forall y, In y (map fst filters) -> In y cols) ->
  forall c,
    In c (plan_columns (plan_aggregate [] [("*", "count")]
                          (fold_year year cols filters))) ->
    In c cols.
Proof.
  intros Hf. apply aggregate_plan_columns.
  - intros c [].
  - intros c [<-|[]]. now left.
  - intros c. now apply fold_year_keys.
Qed.

Lemma rule_count_rows_columns q year filters cols p :
  (forall y, In y (map fst filters) -> In y cols) ->
  rule_count_rows q year filters cols = Some p ->
  forall c, In c (plan_columns p) -> In c cols.
Proof.
  intros Hf. unfold rule_count_rows. destruct (Py.any_in q _); [|discriminate].
  destruct (_resolve_col_after_by_or_per q cols) as [g|] eqn:Eg.
  - destruct (truthy_str (Some g)).
    + intros E; inversion E. intros c [<-|[]].
      now apply _resolve_col_after_by_or_per_in in Eg.
    + intros E; inversion E. now apply count_plan_columns.
  - intros E; inversion E. now apply count_plan_columns.
Qed.

Lemma rule_top_rows_columns q filters cols p :
  (forall y, In y (map fst filters) -> In y cols) ->
  rule_top_rows q filters cols = Some p ->
  forall c, In c (plan_columns p) -> In c cols.
Proof.
  intros Hf. unfold rule_top_rows.
  destruct (Re.search re_top_rows q) as [m|]; [|discriminate].
  destruct (_resolve_col_from_text (Re.group m 2) cols) as [c0|] eqn:Ec;
    [|discriminate].
  destruct (truthy_str (Some c0)); [|discriminate].
  intros E; inversion E. unfold plan_columns. simpl.
  intros c [<-|Hc]; [now apply _resolve_col_from_text_in in Ec|].
  now apply Hf.
Qed.

Lemma rule_sum_columns q year filters cols p :
  (forall y, In y (map fst filters) -> In y cols) ->
  rule_sum q year filters cols = Some p ->
  forall c, In c (plan_columns p) -> In c cols.
Proof.
  intros Hf. unfold rule_sum. destruct (Py.any_in q _); [|discriminate].
  intros E; inversion E. apply aggregate_plan_columns.
  - intros c. apply group_by_list_in.
    intros g. apply _resolve_col_after_by_or_per_in.
  - intros c Hc. right. revert Hc. apply ops_of_target_keys.
    intros t. apply _first_present_in.
  - intros c. now apply fold_year_keys.
Qed.

Lemma rule_average_columns q year filters cols p :
  (forall y, In y (map fst filters) -> In y cols) ->
  rule_average q year filters cols = Some p ->
  forall c, In c (plan_columns p) -> In c cols.
Proof.
  intros Hf. unfold rule_average. destruct (Py.any_in q _); [|discriminate].
  intros E; inversion E. apply aggregate_plan_columns.
  - intros c. apply group_by_list_in.
    intros g. apply _resolve_col_after_by_or_per_in.
  - intros c Hc. right. revert Hc. apply ops_of_target_keys.
    intros t. apply or_str_in.
    + intros x. apply _resolve_col_from_text_in.
    + intros x. apply _first_present_in.
  - intros c. now apply fold_year_keys.
Qed.

Lemma correlation_plan_columns cs :
  plan_columns (plan_correlation cs) = cs.
Proof. unfold plan_columns. simpl. apply app_nil_r. Qed.

Lemma rule_correlation_columns q cols p :
  rule_correlation q cols = Some p ->
  forall c, In c (plan_columns p) -> In c cols.
Proof.
  unfold rule_correlation. destruct (_ || _)%bool; [|discriminate].
  intros E c.
  apply (f_equal (fun o => match o with
                           | Some p0 => plan_columns p0
                           | None => []
                           end)) in E.
  cbv beta iota in E. rewrite correlation_plan_columns in E. rewrite <- E.
  intros Hc. apply filter_In in Hc. now apply mem_in.
Qed.

Lemma hd_error_in {A} (l : list A) x : hd_error l = Some x -> In x l.
Proof. destruct l; simpl; intros E; inversion E. now left. Qed.

Lemma rule_outlier_columns q cols p :
  rule_outlier q cols = Some p ->
  forall c, In c (plan_columns p) -> In c cols.
Proof.
  unfold rule_outlier. destruct (_ || _)%bool; [|discriminate].
  intros E; inversion E. unfold plan_columns. simpl.
  destruct (or_str _ (hd_error cols)) as [c0|] eqn:Eo; [|intros c []].
  intros c [<-|[]]. revert Eo. apply or_str_in.
  - intros x. apply or_str_in.
    + intros y. apply _resolve_col_from_text_in.
    + intros y. apply _first_present_in.
  - intros x. apply hd_error_in.
Qed.

Lemma rule_trend_columns q cols p :
  rule_trend q cols = Some p ->
  forall c, In c (plan_columns p) -> In c cols.
Proof.
  unfold rule_trend. destruct (_ || _)%bool; [|discriminate].
  intros E; inversion E. apply aggregate_plan_columns.
  - intros c. destruct (Py.mem "year" cols) eqn:Em; [|intros []].
    intros [<-|[]]. now apply mem_in.
  - intros c Hc. right. revert Hc. apply ops_of_target_keys.
    intros t. apply or_str_in.
    + intros x. apply _resolve_col_from_text_in.
    + intros x. apply _first_present_in.
  - intros c [].
Qed.
End PlanColumns.

(** The columns of a plan one of the blocks returns. *)
Lemma rules_columns_in_cols (M : SequenceMatcher) q cols p :
  In (Some p)
     [rule_meta q (_extract_int q); rule_unique q cols;
      rule_value_counts q (_extract_int q) cols;
      rule_count_rows q (_extract_year q) (_extract_filters q cols) cols;
      rule_top_rows q (_extract_filters q cols) cols;
      rule_sum q (_extract_year q) (_extract_filters q cols) cols;
      rule_average q (_extract_year q) (_extract_filters q cols) cols;
      rule_correlation q cols; rule_outlier q cols; rule_trend q cols] ->
  forall c, In c (plan_columns p) -> In c cols.
Proof.
  assert (Hf : forall y, In y (map fst (_extract_filters q cols)) ->
                         In y cols)
    by (intros y; apply _extract_filters_keys).
  intros Hp. simpl in Hp.
  destruct Hp as [E|[E|[E|[E|[E|[E|[E|[E|[E|[E|[]]]]]]]]]]].
  + now apply (rule_meta_columns q (_extract_int q)).
  + now apply (rule_unique_columns q).
  + now apply (rule_value_counts_columns q (_extract_int q)).
  + now apply (rule_count_rows_columns q (_extract_year q)
                 (_extract_filters q cols)).
  + now apply (rule_top_rows_columns q (_extract_filters q cols)).
  + now apply (rule_sum_columns q (_extract_year q)
                 (_extract_filters q cols)).
  + now apply (rule_average_columns q (_extract_year q)
                 (_extract_filters q cols)).
  + now apply (rule_correlation_columns q).
  + now apply (rule_outlier_columns q).
  + now apply (rule_trend_columns q).
Qed.

(** X1.  Every column a plan of [plan_from_nl] names (its column, grouping
    and sort columns, the targets of its ops and the keys of its filters)
    is one of the available columns, whatever the question and whatever
    the fuzzy matcher scores. *)
Theorem planner_names_available_columns_only :
  forall (M : SequenceMatcher) question cols c,
    In c (plan_columns (plan_from_nl question cols)) -> In c cols.
Proof.
  intros M question cols. unfold plan_from_nl.
  apply (first_return_cases
           (fun p => forall c, In c (plan_columns p) -> In c cols)).
  - intros c. unfold plan_columns. simpl. intros [].
  - intros p. apply rules_columns_in_cols.
Qed.

(** X1 on "average delay_hours by region": the grouping column. *)
Lemma planner_names_region_of_average_by_region :
  In "region"
     (plan_columns (@plan_from_nl Sample.matcher
                      "average delay_hours by region"
                      ["delay_hours"; "region"]))
  /\ In "region" ["delay_hours"; "region"].
Proof.
  assert (Hc : In "region"
                 (plan_columns (@plan_from_nl Sample.matcher
                                  "average delay_hours by region"
                                  ["delay_hours"; "region"])))
    by (vm_compute; tauto).
  split; [exact Hc|].
  exact (planner_names_available_columns_only Sample.matcher
           "average delay_hours by region" ["delay_hours"; "region"]
           "region" Hc).
Defined.

(** ** Plan types: what the planner makes and what the executor takes *)

Section PlanTypes.
Context `{SequenceMatcher}.

Ltac rule_types :=
  repeat match goal with
         | |- context [if ?b then _ else _] => destruct b
         | |- context [match ?o with Some _ => _ | None => _ end] =>
             destruct o
         end;
  intros E; inversion E; reflexivity.

Lemma rule_types_known q n year filters cols p :
  In (Some p)
     [rule_meta q n; rule_unique q cols; rule_value_counts q n cols;
      rule_count_rows q year filters cols; rule_top_rows q filters cols;
      rule_sum q year filters cols; rule_average q year filters cols;
      rule_correlation q cols; rule_outlier q cols; rule_trend q cols] ->
  Py.mem (p_type p) ("anomaly:zscore" :: exact_types) = true.
Proof.
  intros Hp. simpl in Hp.
  destruct Hp as [E|[E|[E|[E|[E|[E|[E|[E|[E|[E|[]]]]]]]]]]]; revert E.
  - unfold rule_meta. rule_types.
  - unfold rule_unique. rule_types.
  - unfold rule_value_counts. rule_types.
  - unfold rule_count_rows. rule_types.
  - unfold rule_top_rows. rule_types.
  - unfold rule_sum. rule_types.
  - unfold rule_average. rule_types.
  - unfold rule_correlation. rule_types.
  - unfold rule_outlier. rule_types.
  - unfold rule_trend. rule_types.
Qed.

(** A plan of type unique_count or value_counts carries its column. *)
Lemma rule_counts_have_column q n year filters cols p :
  In (Some p)
     [rule_meta q n; rule_unique q cols; rule_value_counts q n cols;
      rule_count_rows q year filters cols; rule_top_rows q filters cols;
      rule_sum q year filters cols; rule_average q year filters cols;
      rule_correlation q cols; rule_outlier q cols; rule_trend q cols] ->
  p_type p = "unique_count" \/ p_type p = "value_counts" ->
  exists c, p_col p = Some c.
Proof.
  intros Hp. simpl in Hp.
  destruct Hp as [E|[E|[E|[E|[E|[E|[E|[E|[E|[E|[]]]]]]]]]]]; revert E;
    [unfold rule_meta|unfold rule_unique|unfold rule_value_counts
     |unfold rule_count_rows|unfold rule_top_rows|unfold rule_sum
     |unfold rule_average|unfold rule_correlation|unfold rule_outlier
     |unfold rule_trend];
    repeat match goal with
           | |- context [if ?b then _ else _] => destruct b
           | |- context [match ?o with Some _ => _ | None => _ end] =>
               destruct o
           end;
    intros E; inversion E; simpl;
    intros [T|T]; try discriminate T; eexists; reflexivity.
Qed.
End PlanTypes.

(** X2.  Whatever the question, the type of the plan is one of the types
    the executor dispatches on by name or 'anomaly:zscore': the planner
    never makes an 'anomaly:iforest' plan nor one that falls to the default
    preview. *)
Theorem planner_types_are_dispatched :
  forall (M : SequenceMatcher) question cols,
    Py.mem (p_type (plan_from_nl question cols))
           ("anomaly:zscore" :: exact_types) = true.
Proof.
  intros M question cols. unfold plan_from_nl.
  apply (first_return_cases
           (fun p => Py.mem (p_type p) ("anomaly:zscore" :: exact_types)
                     = true)).
  - reflexivity.
  - intros p. apply rule_types_known.
Qed.

Lemma prefix_split p : forall t,
  String.prefix p t = true -> exists rest, t = (p ++ rest)%string.
Proof.
  induction p as [|c p IH]; intros t Hp.
  - now exists t.
  - destruct t as [|d t]; simpl in Hp; [discriminate|].
    destruct (Ascii.ascii_dec c d) as [<-|Hne]; [|discriminate].
    destruct (IH t Hp) as [rest ->]. now exists rest.
Qed.

Lemma head_rows_bound df n :
  (0 <= n)%Z -> length (rows (head df n)) <= Z.to_nat n.
Proof.
  intros Hn. unfold head. cbn [rows].
  destruct (Z.ltb_spec n 0); [lia|]. rewrite length_firstn. lia.
Qed.

(** X3.  A plan whose type is none of the executor's names, does not start
    with 'anomaly:zscore' and is not 'anomaly:iforest' is answered with the
    first 10 rows, never with an exception; and every type that starts
    with 'anomaly:zscore' is executed as 'anomaly:zscore' itself. *)
Theorem executor_dispatch_fallbacks :
  forall (P : Pandas) df plan,
    (Py.mem (p_type plan) exact_types = false ->
     Py.startswith (p_type plan) "anomaly:zscore" = false ->
     String.eqb (p_type plan) "anomaly:iforest" = false ->
     execute_plan df plan = Ok (head df 10)
     /\ length (rows (head df 10)) <= 10)
    /\ (Py.startswith (p_type plan) "anomaly:zscore" = true ->
        execute_plan df plan
        = execute_plan df (with_type "anomaly:zscore" plan)).
Proof.
  intros P df plan. split.
  - intros Hm Hz Hi. split.
    + unfold execute_plan. unfold exact_types, Py.mem in Hm. simpl in Hm.
      repeat (apply orb_false_elim in Hm; destruct Hm as [?E Hm];
              rewrite ?E).
      rewrite Hz, Hi.
      repeat match goal with
             | E : String.eqb _ _ = false |- _ => rewrite E; clear E
             end.
      reflexivity.
    + change 10 with (Z.to_nat 10). apply head_rows_bound. lia.
  - intros Hz. unfold Py.startswith in Hz.
    destruct (prefix_split _ _ Hz) as [rest Et].
    unfold execute_plan. simpl p_type. rewrite Et.
    destruct rest; reflexivity.
Qed.

(** X3 on a plan of type 'plot' and on one of type
    'anomaly:zscore_robust'. *)
Lemma executor_dispatch_on_plot_and_zscore_robust :
  (@execute_plan Sample.pandas Ex.cities (plan_of_type "plot")
   = Ok (head Ex.cities 10)
   /\ length (rows (head Ex.cities 10)) <= 10)
  /\ @execute_plan Sample.pandas Ex.spike
       (plan_of_type "anomaly:zscore_robust")
     = @execute_plan Sample.pandas Ex.spike
         (with_type "anomaly:zscore" (plan_of_type "anomaly:zscore_robust")).
Proof.
  split.
  - apply (proj1 (executor_dispatch_fallbacks Sample.pandas Ex.cities
                    (plan_of_type "plot"))); reflexivity.
  - apply (proj2 (executor_dispatch_fallbacks Sample.pandas Ex.spike
                    (plan_of_type "anomaly:zscore_robust"))); reflexivity.
Defined.

(** ** Turns of the session that cannot fail *)

Lemma in_col_index df c :
  In c (col_names df) -> exists i, col_index df c = Some i.
Proof.
  intros Hc. unfold col_index.
  destruct (index_of c (col_names df)) as [i|] eqn:E; [now exists i|].
  apply index_of_mem in E. apply mem_in in Hc. congruence.
Qed.

Lemma positions_of_columns df names :
  (forall n, In n names -> In n (col_names df)) ->
  exists idxs, positions df names = Ok idxs.
Proof.
  unfold positions. induction names as [|n names IH]; intros Hn.
  - now exists [].
  - destruct (in_col_index df n) as [i Ei]; [apply Hn; now left|].
    destruct IH as [idxs Ei']; [intros m Hm; apply Hn; now right|].
    exists (i :: idxs). cbn [mapM]. rewrite Ei. cbn [bind].
    rewrite Ei'. reflexivity.
Qed.

(** [group_count] returns on a table without a column named row_count,
    for names that are pairwise different. *)
Lemma group_count_returns df group_by :
  NoDup group_by ->
  Py.mem "row_count" (col_names df) = false ->
  exists out, group_count df group_by = Ok out.
Proof.
  intros Hnd Hrc. unfold group_count.
  assert (Hd : has_dup (filter (fun g => Py.mem g (col_names df)) group_by)
               = false)
    by (apply has_dup_nodup; now apply NoDup_filter).
  set (gb := filter (fun g => Py.mem g (col_names df)) group_by) in *.
  assert (Hgb : forall n, In n gb -> In n (col_names df)).
  { intros n Hn. apply filter_In in Hn. now apply mem_in. }
  destruct gb as [|g gb'] eqn:E; [eexists; reflexivity|].
  rewrite <- E in *. unfold group_sizes.
  destruct (positions_of_columns df gb Hgb) as [idxs ->]. cbn [bind].
  rewrite Hd, orb_false_r.
  destruct (Py.mem "row_count" gb) eqn:Em; [|eexists; reflexivity].
  apply mem_in in Em. apply Hgb in Em. apply mem_in in Em. congruence.
Qed.

(** The plan of a call that returns is the plan of [plan_from_nl]. *)
Lemma plan_outcome_ok (M : SequenceMatcher) question cols plan :
  plan_outcome question cols = Ok plan ->
  plan_from_nl_raises question cols = false
  /\ plan = plan_from_nl question cols.
Proof.
  unfold plan_outcome.
  destruct (plan_from_nl_raises question cols); [discriminate|].
  intros E. inversion E. now split.
Qed.

Section TurnPlans.
Context `{SequenceMatcher}.

(** The column of a unique_count or value_counts plan of the planner. *)
Lemma plan_counts_column question cols :
  p_type (plan_from_nl question cols) = "unique_count"
  \/ p_type (plan_from_nl question cols) = "value_counts" ->
  exists c, p_col (plan_from_nl question cols) = Some c /\ In c cols.
Proof.
  unfold plan_from_nl.
  apply (first_return_cases
           (fun p => p_type p = "unique_count"
                     \/ p_type p = "value_counts" ->
                     exists c, p_col p = Some c /\ In c cols)).
  - intros [T|T]; discriminate T.
  - intros p Hp Ht.
    destruct (rule_counts_have_column _ _ _ _ _ _ Hp Ht) as [c Ec].
    exists c. split; [exact Ec|].
    apply (rules_columns_in_cols _ _ _ _ Hp).
    unfold plan_columns. rewrite Ec. now left.
Qed.

(** The planner groups by one column at most. *)
Lemma rules_group_by_nodup q n year filters cols p :
  In (Some p)
     [rule_meta q n; rule_unique q cols; rule_value_counts q n cols;
      rule_count_rows q year filters cols; rule_top_rows q filters cols;
      rule_sum q year filters cols; rule_average q year filters cols;
      rule_correlation q cols; rule_outlier q cols; rule_trend q cols] ->
  NoDup (get_list (p_group_by p)).
Proof.
  intros Hp. simpl in Hp.
  destruct Hp as [E|[E|[E|[E|[E|[E|[E|[E|[E|[E|[]]]]]]]]]]]; revert E;
    [unfold rule_meta|unfold rule_unique|unfold rule_value_counts
     |unfold rule_count_rows|unfold rule_top_rows|unfold rule_sum
     |unfold rule_average|unfold rule_correlation|unfold rule_outlier
     |unfold rule_trend];
    unfold group_by_list;
    repeat match goal with
           | |- context [if ?b then _ else _] => destruct b
           | |- context [match ?o with Some _ => _ | None => _ end] =>
               destruct o
           end;
    intros E; inversion E; simpl;
    repeat constructor; simpl; tauto.
Qed.

Lemma plan_group_by_nodup question cols :
  NoDup (get_list (p_group_by (plan_from_nl question cols))).
Proof.
  unfold plan_from_nl.
  apply (first_return_cases (fun p => NoDup (get_list (p_group_by p)))).
  - constructor.
  - intros p. apply rules_group_by_nodup.
Qed.
End TurnPlans.

(** X4.  On a table with distinct column names, none of them row_count
    or count, a turn of the session whose call of the planner returns a
    meta plan other than 'meta:missing', a unique_count, value_counts,
    group_count or correlation plan returns a table: the columns such a
    plan names exist. *)
Theorem safe_turns_return :
  forall (P : Pandas) (M : SequenceMatcher) df q plan,
    NoDup (col_names df) ->
    Py.mem "row_count" (col_names df) = false ->
    Py.mem "count" (col_names df) = false ->
    plan_outcome q (col_names df) = Ok plan ->
    Py.mem (p_type plan) safe_types = true ->
    exists out, answer df q = Ok out.
Proof.
  intros P M df q plan _ Hrc Hcount Hplan Ht. unfold answer.
  rewrite Hplan. cbn [bind].
  destruct (plan_outcome_ok M _ _ _ Hplan) as [_ ->].
  pose proof (plan_counts_column q (col_names df)) as Hcol.
  pose proof (plan_group_by_nodup q (col_names df)) as Hnd.
  set (p := plan_from_nl q (col_names df)) in *.
  unfold safe_types, Py.mem in Ht. simpl in Ht.
  unfold execute_plan.
  repeat (apply orb_prop in Ht; destruct Ht as [Ht|Ht]);
    try discriminate Ht; apply String.eqb_eq in Ht; rewrite Ht;
    simpl String.eqb; cbv beta iota.
  - eexists; reflexivity.
  - eexists; reflexivity.
  - eexists; reflexivity.
  - eexists; reflexivity.
  - eexists; reflexivity.
  - eexists; reflexivity.
  - eexists; reflexivity.
  - destruct Hcol as [c [-> Hc]]; [now left|].
    unfold unique_count.
    destruct (in_col_index df c Hc) as [i ->]. eexists; reflexivity.
  - destruct Hcol as [c [-> Hc]]; [now right|].
    unfold value_counts.
    destruct (in_col_index df c Hc) as [i ->].
    destruct (String.eqb_spec c "count") as [->|_]; [|eexists; reflexivity].
    apply mem_in in Hc. congruence.
  - now apply group_count_returns.
  - eexists; reflexivity.
Qed.

(** X4 on "how many unique name" over [Ex.cities]. *)
Lemma safe_turn_on_unique_name :
  exists out,
    @answer Sample.pandas Sample.matcher Ex.cities "how many unique name"
    = Ok out.
Proof.
  apply (safe_turns_return Sample.pandas Sample.matcher Ex.cities
           "how many unique name"
           (@plan_from_nl Sample.matcher "how many unique name"
              (col_names Ex.cities))).
  - repeat constructor; simpl; tauto.
  - reflexivity.
  - reflexivity.
  - vm_compute; reflexivity.
  - vm_compute; reflexivity.
Defined.

(** ** The filter engine on equality and range entries *)

Lemma select_map_filter {A} (g : A -> bool) (l : list A) :
  select (map g l) l = filter g l.
Proof.
  induction l as [|x l IH]; [reflexivity|].
  simpl. destruct (g x); now rewrite IH.
Qed.

Lemma filter_filter {A} (g h : A -> bool) (l : list A) :
  filter h (filter g l) = filter (fun x => (g x && h x)%bool) l.
Proof.
  induction l as [|x l IH]; [reflexivity|].
  simpl. destruct (g x); simpl; [destruct (h x)|]; now rewrite IH.
Qed.

Lemma filter_true {A} (l : list A) : filter (fun _ => true) l = l.
Proof. induction l as [|x l IH]; [reflexivity|]. simpl. now rewrite IH. Qed.

Lemma and_mask_assoc a : forall b c,
  and_mask (and_mask a b) c = and_mask a (and_mask b c).
Proof.
  induction a as [|x a IH]; intros [|y b] [|z c]; simpl; try reflexivity.
  now rewrite IH, andb_assoc.
Qed.

(** A mask cut by the all-true mask of the rows selects the same rows. *)
Lemma select_and_true {A B} (f : A -> B) (l : list A) : forall m,
  select (and_mask (map (fun _ => true) (map f l)) m) l = select m l.
Proof.
  induction l as [|x l IH]; intros [|b m]; simpl; try reflexivity.
  destruct b; now rewrite IH.
Qed.

Section FilterRows.
Context `{Pandas}.

(** The rows an equality entry keeps. *)
Lemma apply_entry_literal data k l :
  apply_entry data (k, FLit l)
  = Ok {| columns := columns data;
          rows := filter (fun r => row_passes (col_names data) r (k, FLit l))
                         (rows data) |}.
Proof.
  unfold apply_entry, row_passes, col_index. cbn [fst snd].
  destruct (index_of k (col_names data)) as [i|].
  - cbn [entry_mask bind]. unfold narrow, series_eq, series.
    rewrite map_map.
    now rewrite (select_map_filter (fun r => value_eq_lit l (cell r i))).
  - rewrite filter_true. now destruct data.
Qed.

Lemma apply_entries_literal f : forall data,
  literal_only f = true ->
  apply_entries data f
  = Ok {| columns := columns data;
          rows := filter (fun r => forallb (row_passes (col_names data) r) f)
                         (rows data) |}.
Proof.
  induction f as [|[k [l|d]] f IH]; intros data Hl.
  - cbn [apply_entries forallb]. rewrite filter_true. now destruct data.
  - cbn [apply_entries]. rewrite apply_entry_literal. cbn [bind].
    rewrite IH by exact Hl. unfold col_names. cbn [columns rows forallb].
    now rewrite filter_filter.
  - discriminate Hl.
Qed.

Lemma apply_filters_literal df f :
  literal_only f = true ->
  apply_filters df (Some f)
  = Ok {| columns := columns df;
          rows := filter (fun r => forallb (row_passes (col_names df) r) f)
                         (rows df) |}.
Proof.
  intros Hl. unfold apply_filters. destruct f as [|kv f].
  - cbn [forallb]. rewrite filter_true. now destruct df.
  - now apply apply_entries_literal.
Qed.

Lemma forallb_permutation {A} (g : A -> bool) (l l' : list A) :
  Permutation l l' -> forallb g l = forallb g l'.
Proof.
  induction 1 as [|x l l' _ IH|x y l|l l' l'' _ IH1 _ IH2]; simpl.
  - reflexivity.
  - now rewrite IH.
  - now rewrite !andb_assoc, (andb_comm (g y) (g x)).
  - now rewrite IH1.
Qed.

(** The direct count loop and the filter engine agree on an equality
    entry and on a dict that holds 'between' alone. *)
Lemma count_entry_agrees data kv :
  equality_or_between [kv] = true -> count_entry data kv = apply_entry data kv.
Proof.
  destruct kv as [k [l|d]]; unfold count_entry, apply_entry; cbn [fst snd].
  - intros _. destruct (col_index data k) as [i|]; reflexivity.
  - unfold equality_or_between. cbn [forallb snd].
    destruct d as [[b|] [i0|] [c|] [sw|] [ew|] [g|] [ge|] [lt|] [le|]];
      try discriminate; intros _.
    destruct (col_index data k) as [i|]; [|reflexivity].
    unfold entry_mask.
    cbn [f_between f_in f_contains f_startswith f_endswith f_gt f_gte f_lt
         f_lte step].
    destruct (series_cmp CGe (col_dtype data i) (series data i) (fst b))
      as [lo|e]; [|reflexivity].
    destruct (series_cmp CLe (col_dtype data i) (series data i) (snd b))
      as [hi|e]; [|reflexivity].
    cbn [bind]. unfold narrow, series. now rewrite select_and_true.
Qed.

Lemma count_entries_agree f : forall data,
  equality_or_between f = true -> count_entries data f = apply_entries data f.
Proof.
  induction f as [|kv f IH]; intros data Hf; [reflexivity|].
  unfold equality_or_between in Hf. cbn [forallb] in Hf.
  apply andb_true_iff in Hf. destruct Hf as [Hkv Hf].
  cbn [count_entries apply_entries].
  rewrite count_entry_agrees
    by (unfold equality_or_between; cbn [forallb]; now rewrite Hkv).
  destruct (apply_entry data kv) as [d|e]; [|reflexivity].
  cbn [bind]. now apply IH.
Qed.

(** A 'between' dict and the dict of its two bounds give the same mask. *)
Lemma entry_mask_between dt s lo hi :
  entry_mask dt s (FDict (preds_between lo hi))
  = entry_mask dt s (FDict (preds_gte_lte lo hi)).
Proof.
  unfold entry_mask, preds_between, preds_gte_lte.
  cbn [f_between f_in f_contains f_startswith f_endswith f_gt f_gte f_lt
       f_lte step fst snd bind].
  destruct (series_cmp CGe dt s lo) as [l|e]; [|reflexivity].
  cbn [bind].
  destruct (series_cmp CLe dt s hi) as [h|e]; [|reflexivity].
  cbn [bind]. now rewrite and_mask_assoc.
Qed.

Lemma apply_entries_app f1 : forall data f2,
  apply_entries data (f1 ++ f2)
  = (d <- apply_entries data f1 ;; apply_entries d f2).
Proof.
  induction f1 as [|kv f1 IH]; intros data f2; [reflexivity|].
  cbn [app apply_entries].
  destruct (apply_entry data kv) as [d|e]; [|reflexivity].
  cbn [bind]. apply IH.
Qed.
End FilterRows.

(** X5.  A spec of equality entries never raises, and keeps exactly the
    rows that pass every entry whose key is a column: [apply_filters] is
    then a row-wise conjunction. *)
Theorem equality_filters_keep_the_rows_that_pass_every_entry :
  forall (P : Pandas) df f,
    literal_only f = true ->
    apply_filters df (Some f)
    = Ok {| columns := columns df;
            rows := filter (fun r =>
                              forallb (row_passes (col_names df) r) f)
                           (rows df) |}.
Proof.
  intros P df f Hl. unfold apply_filters. destruct f as [|kv f].
  - cbn [forallb]. rewrite filter_true. now destruct df.
  - now apply apply_entries_literal.
Qed.

(** X5 on [Ex.states] with state = TX and volume = 10. *)
Lemma equality_filters_on_states :
  @apply_filters Sample.pandas Ex.states (Some Ex2.two_literals)
  = Ok {| columns := columns Ex.states; rows := [[VInt 10; VStr "TX"]] |}.
Proof.
  exact (equality_filters_keep_the_rows_that_pass_every_entry
           Sample.pandas Ex.states Ex2.two_literals eq_refl).
Defined.

(** X6.  On a spec of equality entries the order of the entries does not
    matter, and filtering the result again changes nothing. *)
Theorem equality_filters_commute_and_are_idempotent :
  forall (P : Pandas) df f,
    literal_only f = true ->
    (forall g, Permutation f g ->
               apply_filters df (Some g) = apply_filters df (Some f))
    /\ (forall out, apply_filters df (Some f) = Ok out ->
                    apply_filters out (Some f) = Ok out).
Proof.
  intros P df f Hl. split.
  - intros g Hp.
    assert (Hg : literal_only g = true)
      by (unfold literal_only in *;
          now rewrite <- (forallb_permutation _ _ _ Hp)).
    rewrite !apply_filters_literal by assumption.
    do 2 f_equal. apply filter_ext. intros r.
    symmetry. now apply forallb_permutation.
  - intros out E. rewrite apply_filters_literal in * by assumption.
    inversion E as [E']. unfold col_names. cbn [columns rows].
    rewrite filter_filter. do 2 f_equal. apply filter_ext. intros r.
    apply andb_diag.
Qed.

(** X6 on [Ex.states]: the two entries swapped. *)
Lemma equality_filters_swapped_on_states :
  @apply_filters Sample.pandas Ex.states
    (Some [("volume", FLit (LInt 10)); ("state", FLit (LStr "TX"))])
  = @apply_filters Sample.pandas Ex.states (Some Ex2.two_literals).
Proof.
  apply (proj1 (equality_filters_commute_and_are_idempotent
                  Sample.pandas Ex.states Ex2.two_literals eq_refl)).
  apply perm_swap.
Defined.

(** X7.  On a spec of equality entries and 'between' ranges, the row
    count of the direct count branch of [execute_plan] is the number of
    rows [apply_filters] keeps, and it raises when [apply_filters] does. *)
Theorem direct_row_count_agrees_with_apply_filters :
  forall (P : Pandas) df f,
    equality_or_between f = true ->
    execute_plan df (plan_aggregate [] [("*", "count")] f)
    = (data <- apply_filters df (Some f) ;; Ok (row_count_frame data)).
Proof.
  intros P df f Hf. unfold execute_plan.
  simpl String.eqb. cbv beta iota.
  cbn [p_ops p_filters p_group_by plan_aggregate get_list get is_star_count
       length Nat.eqb negb andb].
  simpl String.eqb. cbv beta iota. cbn [andb].
  rewrite count_entries_agree by assumption.
  unfold apply_filters. now destruct f.
Qed.

(** X7 on [Ex.states] with volume between 10 and 20. *)
Lemma direct_row_count_on_volume_between :
  @execute_plan Sample.pandas Ex.states
    (plan_aggregate [] [("*", "count")] Ex2.volume_between)
  = Ok {| columns := [("row_count", DInt)]; rows := [[VInt 2]] |}.
Proof.
  rewrite (direct_row_count_agrees_with_apply_filters Sample.pandas
             Ex.states Ex2.volume_between eq_refl).
  vm_compute. reflexivity.
Defined.

(** X8.  In any spec, a 'between' entry can be replaced by the entry of
    its two bounds, 'gte' and 'lte': the same rows are kept and the same
    exception is raised. *)
Theorem between_is_gte_and_lte :
  forall (P : Pandas) df f1 f2 k lo hi,
    apply_filters df (Some (f1 ++ (k, FDict (preds_between lo hi)) :: f2))
    = apply_filters df (Some (f1 ++ (k, FDict (preds_gte_lte lo hi)) :: f2)).
Proof.
  intros P df f1 f2 k lo hi.
  assert (E : forall v,
             apply_filters df (Some (f1 ++ (k, v) :: f2))
             = apply_entries df (f1 ++ (k, v) :: f2)).
  { intros v. unfold apply_filters.
    destruct (f1 ++ (k, v) :: f2) eqn:Ef; [|reflexivity].
    now destruct f1. }
  rewrite !E, !apply_entries_app.
  destruct (apply_entries df f1) as [d|e]; [|reflexivity].
  cbn [bind apply_entries]. unfold apply_entry. cbn [fst snd].
  destruct (col_index d k) as [i|]; [|reflexivity].
  now rewrite entry_mask_between.
Qed.

(** ** Group counts *)

Lemma mapM_ok_from {A B} (f : A -> result B) (l : list A) : forall bs,
  mapM f l = Ok bs ->
  forall b, In b bs -> exists a, In a l /\ f a = Ok b.
Proof.
  induction l as [|x l IH]; intros bs E b Hb; simpl in E.
  - inversion E; subst. destruct Hb.
  - apply bind_ok in E. destruct E as [b0 [Eb E]].
    apply bind_ok in E. destruct E as [bs' [Ebs E]].
    inversion E; subst. destruct Hb as [<-|Hb].
    + exists x. split; [now left|assumption].
    + destruct (IH bs' Ebs b Hb) as [a [Ha Ea]].
      exists a. split; [now right|assumption].
Qed.

Lemma value_eqb_exact a b :
  exact_cell a = true -> exact_cell b = true ->
  value_eqb a b = true -> a = b.
Proof.
  destruct a as [|x|x|x], b as [|y|y|y]; simpl; try discriminate;
    intros _ _ E.
  - reflexivity.
  - apply Z.eqb_eq in E. now subst.
  - apply String.eqb_eq in E. now subst.
Qed.

Lemma key_eqb_exact a : forall b,
  forallb exact_cell a = true -> forallb exact_cell b = true ->
  key_eqb a b = true -> a = b.
Proof.
  induction a as [|x a IH]; intros [|y b]; simpl; try discriminate;
    [reflexivity|].
  intros Ha Hb E.
  apply andb_true_iff in Ha. apply andb_true_iff in Hb.
  apply andb_true_iff in E.
  destruct Ha as [Hx Ha], Hb as [Hy Hb], E as [Exy E].
  f_equal; [now apply value_eqb_exact|now apply IH].
Qed.

Lemma insert_key_perm k l : Permutation (insert_key k l) (k :: l).
Proof.
  induction l as [|y l IH]; simpl; [reflexivity|].
  destruct (key_ltb k y); [reflexivity|].
  rewrite IH. apply perm_swap.
Qed.

Lemma sort_keys_perm l : Permutation (sort_keys l) l.
Proof.
  unfold sort_keys. induction l as [|x l IH]; simpl; [reflexivity|].
  rewrite insert_key_perm. now constructor.
Qed.

(** The keys kept are pairwise different and none was seen before. *)
Lemma distinct_nodup ks : forall seen,
  NoDup (distinct seen ks)
  /\ (forall k, In k (distinct seen ks) -> ~ In k seen).
Proof.
  induction ks as [|x ks IH]; intros seen; simpl.
  - split; [constructor|intros k []].
  - destruct (existsb (key_eqb x) seen) eqn:Ex; [apply IH|].
    destruct (IH (x :: seen)) as [Hn Hs]. split.
    + constructor; [|exact Hn].
      intros Hx. apply (Hs x Hx). now left.
    + intros k [<-|Hk] Hin.
      * assert (Et : existsb (key_eqb x) seen = true)
          by (apply existsb_exists; exists x; split;
              [assumption|apply key_eqb_refl]).
        congruence.
      * apply (Hs k Hk). now right.
Qed.

Lemma list_sum_zero {A} (l : list A) : list_sum (map (fun _ => 0) l) = 0.
Proof. induction l as [|x l IH]; [reflexivity|exact IH]. Qed.

Lemma list_sum_add {A} (f g : A -> nat) (l : list A) :
  list_sum (map (fun x => f x + g x) l)
  = list_sum (map f l) + list_sum (map g l).
Proof. induction l as [|x l IH]; simpl; [reflexivity|]. rewrite IH. lia. Qed.

(** In a list without repetition, one element exactly is the given one. *)
Lemma list_sum_one {A} (q : A -> bool) (x : A) (l : list A) :
  NoDup l -> In x l ->
  (forall k, In k l -> (q k = true <-> k = x)) ->
  list_sum (map (fun k => if q k then 1 else 0) l) = 1.
Proof.
  induction 1 as [|y l Hy Hn IH]; intros Hx Hq; [destruct Hx|].
  simpl. destruct Hx as [->|Hx].
  - rewrite (proj2 (Hq x (or_introl eq_refl)) eq_refl).
    assert (E : map (fun k => if q k then 1 else 0) l
                = map (fun _ => 0) l).
    { apply map_ext_in. intros k Hk.
      destruct (q k) eqn:Ek; [|reflexivity].
      apply (Hq k (or_intror Hk)) in Ek. now subst. }
    now rewrite E, list_sum_zero.
  - destruct (q y) eqn:Ey.
    + apply (Hq y (or_introl eq_refl)) in Ey. now subst.
    + apply IH; [assumption|]. intros k Hk. apply Hq. now right.
Qed.

(** Counting the rows group by group counts each row once, when every
    row has its key among the groups and equal keys are the same key. *)
Lemma groups_partition (idxs : list nat) (D : list (list value)) :
  NoDup D ->
  forall rs,
    (forall r, In r rs -> In (key_of idxs r) D) ->
    (forall r k, In r rs -> In k D ->
                 key_eqb (key_of idxs r) k = true -> k = key_of idxs r) ->
    list_sum (map (fun k => length (group_rows idxs rs k)) D) = length rs.
Proof.
  intros Hn. induction rs as [|r rs IH]; intros Hin Heq.
  - unfold group_rows. simpl. apply list_sum_zero.
  - assert (E : map (fun k => length (group_rows idxs (r :: rs) k)) D
                = map (fun k => (if key_eqb (key_of idxs r) k then 1 else 0)
                                + length (group_rows idxs rs k)) D).
    { apply map_ext. intros k. unfold group_rows. simpl.
      now destruct (key_eqb (key_of idxs r) k). }
    rewrite E, list_sum_add.
    rewrite (list_sum_one _ (key_of idxs r)).
    + rewrite IH; [reflexivity| |].
      * intros r' Hr'. apply Hin. now right.
      * intros r' k Hr'. apply Heq. now right.
    + exact Hn.
    + apply Hin. now left.
    + intros k Hk. split.
      * apply Heq; [now left|exact Hk].
      * intros ->. apply key_eqb_refl.
Qed.

Lemma sum_Z_of_nat {A} (f : A -> nat) (l : list A) :
  sum_Z (map (fun k => Z.of_nat (f k)) l) = Z.of_nat (list_sum (map f l)).
Proof. induction l as [|x l IH]; simpl; [reflexivity|]. rewrite IH. lia. Qed.

Lemma group_keys_nodup idxs rs : NoDup (group_keys idxs rs).
Proof.
  unfold group_keys.
  apply (Permutation_NoDup
           (l := distinct [] (map (key_of idxs) rs))).
  - symmetry. apply sort_keys_perm.
  - apply distinct_nodup.
Qed.

Lemma group_keys_from_rows idxs rs k :
  In k (group_keys idxs rs) -> exists r, In r rs /\ k = key_of idxs r.
Proof.
  unfold group_keys. rewrite sort_keys_in. intros Hk.
  apply distinct_incl in Hk. apply in_map_iff in Hk.
  destruct Hk as [r [<- Hr]]. now exists r.
Qed.

Lemma counts_of_group_sizes (idxs : list nat) rs D cs :
  counts_of {| columns := cs;
               rows := map (fun k =>
                              k ++ [VInt (Z.of_nat
                                            (length (group_rows idxs rs k)))])
                           D |}
  = map (fun k => Z.of_nat (length (group_rows idxs rs k))) D.
Proof.
  unfold counts_of. cbn [rows]. rewrite map_map. apply map_ext.
  intros k. now rewrite last_last.
Qed.

(** X9.  Asked to group by names that are pairwise different,
    [group_count] raises, a ValueError, exactly when one of them is an
    existing column named row_count.  Otherwise it returns, names that
    are no column being skipped, and when the cells of the grouping
    columns are texts, integers or missing, the counts of the groups add
    up to the number of rows: every row is counted once, rows with a
    missing key included. *)
Theorem group_count_partitions_the_rows :
  forall df group_by,
    NoDup group_by ->
    (forall r g i, In r (rows df) -> In g group_by ->
                   col_index df g = Some i -> exact_cell (cell r i) = true) ->
    if (Py.mem "row_count" group_by && Py.mem "row_count" (col_names df))%bool
    then group_count df group_by = Raise ValueError
    else exists out,
           group_count df group_by = Ok out
           /\ sum_Z (counts_of out) = Z.of_nat (length (rows df)).
Proof.
  intros df group_by Hnd Hex. unfold group_count.
  assert (Hd : has_dup (filter (fun g => Py.mem g (col_names df)) group_by)
               = false)
    by (apply has_dup_nodup; now apply NoDup_filter).
  set (gb := filter (fun g => Py.mem g (col_names df)) group_by) in *.
  assert (Hgb : forall n, In n gb -> In n group_by /\ In n (col_names df)).
  { intros n Hn. apply filter_In in Hn. destruct Hn as [Hn Hm].
    split; [exact Hn|now apply mem_in]. }
  assert (Hrc : Py.mem "row_count" gb
                = (Py.mem "row_count" group_by
                   && Py.mem "row_count" (col_names df))%bool).
  { destruct (Py.mem "row_count" gb) eqn:Em.
    - apply mem_in in Em. apply Hgb in Em. destruct Em as [E1 E2].
      apply mem_in in E1. apply mem_in in E2. now rewrite E1, E2.
    - symmetry. apply andb_false_iff.
      destruct (Py.mem "row_count" group_by) eqn:E1; [|now left].
      destruct (Py.mem "row_count" (col_names df)) eqn:E2; [|now right].
      assert (Hin : In "row_count" gb)
        by (apply filter_In; split; [now apply mem_in|exact E2]).
      apply mem_in in Hin. congruence. }
  rewrite <- Hrc.
  destruct gb as [|g gb'] eqn:E.
  - simpl. eexists. split; [reflexivity|].
    unfold counts_of. simpl. lia.
  - rewrite <- E in *. unfold group_sizes.
    destruct (positions_of_columns df gb) as [idxs Ep];
      [intros n Hn; now apply Hgb|].
    rewrite Ep. cbn [bind]. rewrite Hd, orb_false_r.
    destruct (Py.mem "row_count" gb); [reflexivity|].
    eexists. split; [reflexivity|].
    rewrite counts_of_group_sizes, sum_Z_of_nat. f_equal.
    assert (Hkey : forall r, In r (rows df) ->
                             forallb exact_cell (key_of idxs r) = true).
    { intros r Hr. apply forallb_forall. intros v Hv.
      unfold key_of in Hv. apply in_map_iff in Hv.
      destruct Hv as [i [<- Hi]].
      destruct (mapM_ok_from _ _ _ Ep i Hi) as [n [Hn Ei]].
      destruct (col_index df n) as [j|] eqn:Ej; [|discriminate].
      inversion Ei; subst j.
      apply (Hex r n i Hr); [now apply Hgb|exact Ej]. }
    apply groups_partition.
    + apply group_keys_nodup.
    + intros r Hr.
      destruct (group_keys_cover idxs (rows df) r Hr) as [k [Hk Ek]].
      destruct (group_keys_from_rows _ _ _ Hk) as [r' [Hr' ->]].
      apply key_eqb_exact in Ek; [now rewrite Ek|now apply Hkey..].
    + intros r k Hr Hk Ek.
      destruct (group_keys_from_rows _ _ _ Hk) as [r' [Hr' ->]].
      apply key_eqb_exact in Ek; [now rewrite Ek|now apply Hkey..].
Qed.

(** X9 on [Ex2.regions_int] grouped by region and by a name that is no
    column: the counts 2, 1 and 1 of the groups A, B and missing. *)
Lemma group_count_on_regions_int :
  exists out,
    group_count Ex2.regions_int ["region"; "zone"] = Ok out
    /\ sum_Z (counts_of out) = 4%Z.
Proof.
  apply (group_count_partitions_the_rows Ex2.regions_int
           ["region"; "zone"]).
  { repeat constructor; simpl; intuition discriminate. }
  intros r g i Hr [<-|[<-|[]]] Ei; [|discriminate Ei].
  inversion Ei; subst i.
  destruct Hr as [<-|[<-|[<-|[<-|[]]]]]; reflexivity.
Defined.

(** ** Missing values and z-scores *)

Lemma SFeqb_irrefl_nan s : SFeqb s s = false -> s = S754_nan.
Proof.
  destruct s as [b|b| |b m e]; unfold SFeqb; simpl;
    try discriminate; try reflexivity;
    destruct b; simpl;
    rewrite ?Z.compare_refl, ?Pos.compare_cont_refl; discriminate.
Qed.

Lemma is_nan_spec x : is_nan x = true -> Prim2SF x = S754_nan.
Proof.
  unfold is_nan. rewrite eqb_spec. intros E.
  apply SFeqb_irrefl_nan. now destruct (SFeqb (Prim2SF x) (Prim2SF x)).
Qed.

(** No threshold is reached by the z-score of a NaN. *)
Lemma nan_zscore_below thr x m d :
  is_nan x = true -> (thr <=? abs ((x - m) / d))%float = false.
Proof.
  intros Hx. apply is_nan_spec in Hx.
  rewrite leb_spec, abs_spec, div_spec, sub_spec, Hx.
  assert (E : SF64sub S754_nan (Prim2SF m) = S754_nan) by reflexivity.
  rewrite E.
  assert (E' : SF64div S754_nan (Prim2SF d) = S754_nan) by reflexivity.
  rewrite E'. simpl SFabs.
  unfold SFleb. now destruct (Prim2SF thr).
Qed.

(** The rows a mask over converted cells selects. *)
Lemma select_converted {A B C} (c : A -> B) (h : B -> result C)
    (g : C -> bool) (rs : list A) : forall xs,
  mapM h (map c rs) = Ok xs ->
  forall r, In r (select (map g xs) rs) ->
            exists x, h (c r) = Ok x /\ g x = true.
Proof.
  induction rs as [|r0 rs IH]; intros xs E r Hr; simpl in E.
  - inversion E; subst. destruct Hr.
  - apply bind_ok in E. destruct E as [x0 [E0 E]].
    apply bind_ok in E. destruct E as [xs' [Exs E]].
    inversion E; subst xs. simpl in Hr.
    destruct (g x0) eqn:Eg.
    + destruct Hr as [<-|Hr]; [now exists x0|now apply (IH xs')].
    + now apply (IH xs').
Qed.

(** X10.  A row whose cell is missing, or holds a NaN or a text that
    reads as one, is never returned by [zscore_outliers], whatever the
    threshold (zero, negative and infinite ones included): every row
    returned holds a number in the column. *)
Theorem zscore_outliers_never_returns_a_missing_value :
  forall df col thr out r,
    zscore_outliers df col thr = Ok out ->
    In r (rows out) ->
    exists i x,
      col_index df col = Some i
      /\ In r (rows df)
      /\ cell_float (cell r i) = Ok x
      /\ is_nan x = false.
Proof.
  intros df col thr out r E Hr.
  destruct (zscore_outliers_rows df col thr out E)
    as [i [xs [Ei [Exs [_ Erows]]]]].
  rewrite Erows in Hr.
  assert (Hin : In r (rows df)) by (revert Hr; apply select_incl).
  unfold series in Exs.
  destruct (select_converted _ _ _ _ _ Exs r Hr) as [x [Ex Eg]].
  exists i, x. repeat split; try assumption.
  destruct (is_nan x) eqn:En; [|reflexivity].
  now rewrite nan_zscore_below in Eg.
Qed.

(** X10 on [Ex2.with_missing] at threshold minus infinity: the four rows
    that hold a number are returned, the missing one is not. *)
Lemma zscore_outliers_on_with_missing :
  exists i x,
    col_index Ex2.with_missing "v" = Some i
    /\ In [VFloat 100] (rows Ex2.with_missing)
    /\ cell_float (cell [VFloat 100] i) = Ok x
    /\ is_nan x = false.
Proof.
  apply (zscore_outliers_never_returns_a_missing_value Ex2.with_missing "v"
           neg_infinity
           {| columns := columns Ex2.with_missing;
              rows := [[VFloat 1]; [VFloat 1]; [VFloat 1]; [VFloat 100]] |}).
  - vm_compute. reflexivity.
  - simpl. tauto.
Defined.

(** ** Regular expressions: what a match tells *)

Local Open Scope string_scope.

Lemma length_app_str a : forall b,
  String.length (a ++ b) = String.length a + String.length b.
Proof.
  induction a as [|c a IH]; intros b; simpl; [reflexivity|now rewrite IH].
Qed.

Lemma app_nil_str a : (a ++ "")%string = a.
Proof. induction a as [|c a IH]; simpl; [reflexivity|now rewrite IH]. Qed.

Lemma app_assoc_str a : forall b c, ((a ++ b) ++ c = a ++ (b ++ c))%string.
Proof.
  induction a as [|x a IH]; intros b c; simpl; [reflexivity|now rewrite IH].
Qed.

Lemma substring_app a : forall b,
  substring 0 (String.length a) (a ++ b) = a.
Proof.
  induction a as [|c a IH]; intros b; simpl.
  - now destruct b.
  - now rewrite IH.
Qed.

(** The text of a group: what was passed between its start and its end. *)
Lemma captured a b :
  substring 0 (String.length (a ++ b) - String.length b) (a ++ b) = a.
Proof.
  rewrite length_app_str.
  replace (String.length a + String.length b - String.length b)
    with (String.length a) by lia.
  apply substring_app.
Qed.

Lemma substring_all a : substring 0 (String.length a - 0) a = a.
Proof.
  rewrite Nat.sub_0_r. rewrite <- (app_nil_str a) at 2. apply substring_app.
Qed.

(** A repetition that matched passed a run of characters of the class,
    of a length within its bounds. *)
Lemma rep_sound {A} c s : forall lo hi prev
    (k : option ascii -> string -> option A) r,
  Re.rep c lo hi prev s k = Some r ->
  exists pre s' p',
    s = pre ++ s' /\ all_chars c pre = true /\ lo <= String.length pre
    /\ match hi with Some h => String.length pre <= h | None => True end
    /\ k p' s' = Some r.
Proof.
  induction s as [|x s IH]; intros lo hi prev k r E.
  - simpl in E. destruct lo; [|discriminate].
    exists "", "", prev. repeat split; auto. destruct hi; simpl; lia.
  - simpl in E.
    assert (Hstop : match lo with
                    | O => k prev (String x s)
                    | S _ => None
                    end = Some r ->
                    exists pre s' p',
                      String x s = pre ++ s' /\ all_chars c pre = true
                      /\ lo <= String.length pre
                      /\ match hi with
                         | Some h => String.length pre <= h
                         | None => True
                         end
                      /\ k p' s' = Some r).
    { destruct lo; [|discriminate]. intros Ek.
      exists "", (String x s), prev. repeat split; auto.
      destruct hi; simpl; lia. }
    destruct (c x && Re.room hi)%bool eqn:Ec; [|now apply Hstop].
    destruct (Re.rep c (Nat.pred lo) (option_map Nat.pred hi) (Some x) s k)
      as [r'|] eqn:Er; [|now apply Hstop].
    inversion E; subst r'.
    apply andb_true_iff in Ec. destruct Ec as [Ecx Eroom].
    destruct (IH _ _ _ _ _ Er) as [pre [s' [p' [Es [Hall [Hlo [Hhi Hk]]]]]]].
    exists (String x pre), s', p'. subst s. repeat split.
    + simpl. now rewrite Ecx, Hall.
    + simpl. lia.
    + destruct hi as [[|h]|]; simpl in *; try discriminate; try lia.
    + exact Hk.
Qed.

(** An unbounded repetition passes the whole of a run of the class that
    ends the text or is followed by a character outside the class, when
    the rest of the pattern matches there. *)
Lemma rep_greedy {A} c pre : forall lo prev s'
    (k : option ascii -> string -> option A) r,
  all_chars c pre = true ->
  match s' with String x _ => c x = false | EmptyString => True end ->
  lo <= String.length pre ->
  (forall p, k p s' = Some r) ->
  Re.rep c lo None prev (pre ++ s') k = Some r.
Proof.
  induction pre as [|y pre IH]; intros lo prev s' k r Hall Hs Hlo Hk.
  - simpl in Hlo. assert (lo = 0) by lia. subst lo. simpl.
    destruct s' as [|x s']; simpl; [apply Hk|].
    rewrite Hs. simpl. apply Hk.
  - simpl in Hall. apply andb_true_iff in Hall. destruct Hall as [Hy Hall].
    simpl. rewrite Hy. simpl.
    rewrite (IH (Nat.pred lo) (Some y) s' k r); auto.
    simpl in Hlo. lia.
Qed.

Lemma rep_greedy_end {A} c pre lo prev
    (k : option ascii -> string -> option A) r :
  all_chars c pre = true -> lo <= String.length pre ->
  (forall p, k p "" = Some r) ->
  Re.rep c lo None prev pre k = Some r.
Proof.
  intros Hall Hlo Hk. rewrite <- (app_nil_str pre).
  now apply rep_greedy.
Qed.

Lemma eat_sound l : forall s prev p s',
  Re.eat l s prev = Some (p, s') -> s = l ++ s'.
Proof.
  induction l as [|c l IH]; intros s prev p s' E; simpl in E.
  - now inversion E.
  - destruct s as [|d s]; [discriminate|].
    destruct (Ascii.eqb c d) eqn:Ec; [|discriminate].
    apply Ascii.eqb_eq in Ec. subst d. simpl. f_equal.
    now apply (IH _ _ _ _ E).
Qed.

(** A search that succeeds matched the pattern at some position. *)
Lemma search_from_sound r s : forall prev caps,
  Re.search_from r prev s = Some caps ->
  exists prev' s0 s',
    s = s0 ++ s'
    /\ Re.run r prev' s' [] (fun _ _ caps => Some caps) = Some caps.
Proof.
  induction s as [|c s IH]; intros prev caps E; simpl in E.
  - destruct (Re.run r prev "" [] (fun _ _ caps => Some caps))
      as [caps'|] eqn:Er; [|discriminate].
    inversion E; subst. now exists prev, "", "".
  - destruct (Re.run r prev (String c s) [] (fun _ _ caps => Some caps))
      as [caps'|] eqn:Er.
    + inversion E; subst. now exists prev, "", (String c s).
    + destruct (IH _ _ E) as [prev' [s0 [s' [Es Hr]]]].
      exists prev', (String c s0), s'. subst s. now split.
Qed.

Lemma search_from_skip r prev c s :
  Re.run r prev (String c s) [] (fun _ _ caps => Some caps) = None ->
  Re.search_from r prev (String c s) = Re.search_from r (Some c) s.
Proof. intros E. simpl. now rewrite E. Qed.

Lemma search_from_hit r prev s caps :
  Re.run r prev s [] (fun _ _ caps => Some caps) = Some caps ->
  Re.search_from r prev s = Some caps.
Proof. intros E. destruct s; simpl; now rewrite E. Qed.

(** ** Google Drive links *)

(** The path pattern finds nothing in a text of id characters. *)
Lemma no_path_in_id id : forall prev,
  all_chars cls_drive_id id = true ->
  Re.search_from re_drive_path prev id = None.
Proof.
  induction id as [|c id IH]; intros prev Hall; [reflexivity|].
  simpl in Hall. apply andb_true_iff in Hall. destruct Hall as [Hc Hall].
  rewrite search_from_skip; [now apply IH|].
  unfold re_drive_path. cbn [Re.seq Re.run Re.eat].
  destruct (Ascii.eqb "/" c) eqn:E; [|reflexivity].
  apply Ascii.eqb_eq in E. subst c. discriminate Hc.
Qed.

Lemma extract_from_download_url id :
  all_chars cls_drive_id id = true -> 20 <= String.length id ->
  _extract_drive_file_id (drive_download_url id) = Some id.
Proof.
  intros Hall Hlen.
  unfold _extract_drive_file_id, drive_download_url, Re.search.
  cbn [append].
  rewrite !search_from_skip by reflexivity.
  rewrite no_path_in_id by assumption.
  repeat (rewrite search_from_skip by reflexivity).
  rewrite (search_from_hit _ _ _ [id]); [reflexivity|].
  unfold re_drive_query, Re.one. cbn [Re.seq Re.run].
  simpl.
  rewrite (rep_greedy_end _ _ _ _ _ [id]); [reflexivity|assumption..|].
  intros _. simpl String.length. now rewrite substring_all.
Qed.

Lemma extract_sound url id :
  _extract_drive_file_id url = Some id ->
  all_chars cls_drive_id id = true /\ 20 <= String.length id
  /\ exists a b, url = a ++ id ++ b.
Proof.
  unfold _extract_drive_file_id, Re.search.
  destruct (Re.search_from re_drive_path None url) as [m|] eqn:E1.
  - intros E; inversion E; subst id; clear E.
    destruct (search_from_sound _ _ _ _ E1) as [prev [s0 [s1 [Eu Hr]]]].
    unfold re_drive_path in Hr. cbn [Re.seq Re.run] in Hr.
    destruct (Re.eat "/d/" s1 prev) as [[p s2]|] eqn:Ee; [|discriminate].
    apply eat_sound in Ee.
    apply rep_sound in Hr.
    destruct Hr as [pre [s3 [p' [Es [Hall [Hlo [_ Hk]]]]]]].
    destruct (Re.eat "/" s3 p') as [[p4 s4]|] eqn:Ee2; [|discriminate].
    inversion Hk; subst m. subst s2. rewrite captured.
    cbn [Re.group Nat.pred nth app].
    repeat split; try assumption.
    exists (s0 ++ "/d/"), s3. subst url s1. now rewrite app_assoc_str.
  - destruct (Re.search_from re_drive_query None url) as [m|] eqn:E2;
      [|discriminate].
    intros E; inversion E; subst id; clear E.
    destruct (search_from_sound _ _ _ _ E2) as [prev [s0 [s1 [Eu Hr]]]].
    unfold re_drive_query, Re.one in Hr. cbn [Re.seq Re.run] in Hr.
    apply rep_sound in Hr.
    destruct Hr as [pre1 [s2 [p2 [Es1 [_ [_ [_ Hk]]]]]]].
    destruct (Re.eat "id=" s2 p2) as [[p3 s3]|] eqn:Ee; [|discriminate].
    apply eat_sound in Ee.
    apply rep_sound in Hk.
    destruct Hk as [pre [s4 [p4 [Es [Hall [Hlo [_ Hk]]]]]]].
    inversion Hk; subst m. subst s3. rewrite captured.
    cbn [Re.group Nat.pred nth app].
    repeat split; try assumption.
    exists (s0 ++ pre1 ++ "id="), s4. subst url s1 s2.
    now rewrite !app_assoc_str.
Qed.

(** X11.  An id [_extract_drive_file_id] returns is a piece of the link,
    at least 20 characters long, of letters, digits, '_' and '-' only;
    and the download address built from it gives the same id back. *)
Theorem extracted_drive_id_is_a_well_formed_piece_of_the_link :
  forall url id,
    _extract_drive_file_id url = Some id ->
    all_chars cls_drive_id id = true
    /\ 20 <= String.length id
    /\ (exists a b, url = a ++ id ++ b)
    /\ _extract_drive_file_id (drive_download_url id) = Some id.
Proof.
  intros url id E.
  destruct (extract_sound url id E) as [Hall [Hlen Hsub]].
  repeat split; try assumption.
  now apply extract_from_download_url.
Qed.

(** X11 on a share link. *)
Lemma extracted_drive_id_of_share_link :
  all_chars cls_drive_id Ex2.drive_id = true
  /\ 20 <= String.length Ex2.drive_id
  /\ (exists a b, Ex2.share_link = a ++ Ex2.drive_id ++ b)
  /\ _extract_drive_file_id (drive_download_url Ex2.drive_id)
     = Some Ex2.drive_id.
Proof.
  apply (extracted_drive_id_is_a_well_formed_piece_of_the_link
           Ex2.share_link Ex2.drive_id).
  vm_compute. reflexivity.
Defined.

(** X12.  Every id of at least 20 letters, digits, '_' and '-' is read
    back from the link of a file page, whatever follows the id there, and
    from the download address the loader builds. *)
Theorem drive_id_is_read_back_from_its_links :
  forall id rest,
    all_chars cls_drive_id id = true ->
    20 <= String.length id ->
    _extract_drive_file_id
      ("https://drive.google.com/file/d/" ++ id ++ "/" ++ rest) = Some id
    /\ _extract_drive_file_id (drive_download_url id) = Some id.
Proof.
  intros id rest Hall Hlen. split; [|now apply extract_from_download_url].
  unfold _extract_drive_file_id, Re.search.
  cbn [append].
  rewrite !search_from_skip by reflexivity.
  rewrite (search_from_hit _ _ _ [id]); [reflexivity|].
  unfold re_drive_path. cbn [Re.seq Re.run Re.eat]. simpl Ascii.eqb. cbv iota.
  apply rep_greedy; [assumption|reflexivity|assumption|].
  intros p. simpl Re.eat. cbv iota beta.
  change (String "/" rest) with ("/" ++ rest). now rewrite captured.
Qed.

(** X12 on the id of [Ex2.share_link]. *)
Lemma drive_id_read_back_from_share_link :
  _extract_drive_file_id
    ("https://drive.google.com/file/d/" ++ Ex2.drive_id ++ "/"
     ++ "view?usp=sharing") = Some Ex2.drive_id
  /\ _extract_drive_file_id (drive_download_url Ex2.drive_id)
     = Some Ex2.drive_id.
Proof.
  apply (drive_id_is_read_back_from_its_links Ex2.drive_id
           "view?usp=sharing").
  - reflexivity.
  - vm_compute. lia.
Defined.

(** ** Numbers read from the question *)

Lemma digit_not_space c : Py.is_digit c = true -> Py.is_space c = false.
Proof.
  unfold Py.is_digit, Py.is_space, Py.in_range.
  intros E. apply andb_true_iff in E. destruct E as [E1 E2].
  apply N.leb_le in E1. apply N.leb_le in E2.
  apply orb_false_iff. split; apply andb_false_iff; right; apply N.leb_gt; lia.
Qed.

Lemma digit_val_range c :
  Py.is_digit c = true -> (0 <= Py.digit_val c <= 9)%Z.
Proof.
  unfold Py.is_digit, Py.in_range, Py.digit_val.
  intros E. apply andb_true_iff in E. destruct E as [E1 E2].
  apply N.leb_le in E1. apply N.leb_le in E2. lia.
Qed.

Lemma all_chars_srev_onto p s : forall acc,
  all_chars p (Py.srev_onto s acc) = (all_chars p s && all_chars p acc)%bool.
Proof.
  induction s as [|c s IH]; intros acc; simpl; [reflexivity|].
  rewrite IH. simpl. destruct (p c), (all_chars p s); reflexivity.
Qed.

Lemma srev_onto_twice s : forall a b,
  Py.srev_onto (Py.srev_onto s a) b = Py.srev_onto a (s ++ b).
Proof.
  induction s as [|c s IH]; intros a b; simpl; [reflexivity|].
  now rewrite IH.
Qed.

Lemma srev_involutive s : Py.srev (Py.srev s) = s.
Proof. unfold Py.srev. rewrite srev_onto_twice. simpl. apply app_nil_str. Qed.

Lemma lstrip_no_space s :
  all_chars (fun c => negb (Py.is_space c)) s = true -> Py.lstrip s = s.
Proof.
  destruct s as [|c s]; [reflexivity|]. simpl.
  intros E. apply andb_true_iff in E. destruct E as [E _].
  now destruct (Py.is_space c).
Qed.

(** [strip] leaves a text without white space as it is. *)
Lemma strip_no_space s :
  all_chars (fun c => negb (Py.is_space c)) s = true -> Py.strip s = s.
Proof.
  intros E. unfold Py.strip, Py.rstrip.
  assert (E' : all_chars (fun c => negb (Py.is_space c)) (Py.srev s) = true).
  { unfold Py.srev. rewrite all_chars_srev_onto, E. reflexivity. }
  rewrite (lstrip_no_space _ E'), srev_involutive. now apply lstrip_no_space.
Qed.

Lemma all_chars_impl (p q : ascii -> bool) s :
  (forall c, p c = true -> q c = true) ->
  all_chars p s = true -> all_chars q s = true.
Proof.
  intros Hpq. induction s as [|c s IH]; simpl; [reflexivity|].
  intros E. apply andb_true_iff in E. destruct E as [Ec Es].
  now rewrite (Hpq c Ec), IH.
Qed.

(** The value of a run of digits read after the value [acc]. *)
Lemma digitpart_digits s : forall st acc cnt,
  all_chars Py.is_digit s = true -> (0 <= acc)%Z ->
  s <> "" ->
  exists v, Py.digitpart s st acc cnt = Some (v, cnt + String.length s)
            /\ (acc * 10 ^ Z.of_nat (String.length s) <= v
                < (acc + 1) * 10 ^ Z.of_nat (String.length s))%Z.
Proof.
  induction s as [|c s IH]; intros st acc cnt Hall Hacc Hne; [congruence|].
  simpl in Hall. apply andb_true_iff in Hall. destruct Hall as [Hc Hall].
  pose proof (digit_val_range c Hc) as Hv.
  cbn [Py.digitpart]. rewrite Hc.
  destruct s as [|d s].
  - simpl. exists (acc * 10 + Py.digit_val c)%Z. split.
    + f_equal. f_equal. lia.
    + lia.
  - destruct (IH Py.DDigit (acc * 10 + Py.digit_val c)%Z (S cnt) Hall)
      as [v [Ev Hb]]; [lia|discriminate|].
    exists v. split.
    + rewrite Ev. f_equal. f_equal. simpl. lia.
    + set (n := String.length (String d s)) in *.
      change (String.length (String c (String d s))) with (S n).
      rewrite Nat2Z.inj_succ, Z.pow_succ_r by lia.
      assert (0 < 10 ^ Z.of_nat n)%Z by (apply Z.pow_pos_nonneg; lia).
      nia.
Qed.

Lemma split_sign_digit c s :
  Py.is_digit c = true -> Py.split_sign (String c s) = (false, String c s).
Proof.
  destruct c as [[] [] [] [] [] [] [] []]; try discriminate; reflexivity.
Qed.

(** [int] of a run of digits is the value of the digits, unless they are
    too many. *)
Lemma int_digits s :
  all_chars Py.is_digit s = true -> s <> "" ->
  exists v,
    Py.digitpart s Py.DStart 0 0 = Some (v, 0 + String.length s)
    /\ (0 <= v < 10 ^ Z.of_nat (String.length s))%Z
    /\ Py.int s
       = if (Py.int_max_str_digits <? 0 + String.length s)%nat then None
         else Some v.
Proof.
  intros Hall Hne.
  destruct (digitpart_digits s Py.DStart 0 0 Hall) as [v [Ev Hb]];
    [lia|assumption|].
  exists v. split; [exact Ev|]. split; [lia|].
  unfold Py.int.
  rewrite strip_no_space
    by (revert Hall; apply all_chars_impl; intros c Hc;
        now rewrite digit_not_space).
  destruct s as [|c s]; [congruence|].
  assert (Hc : Py.is_digit c = true)
    by (simpl in Hall; now apply andb_true_iff in Hall).
  rewrite split_sign_digit by assumption.
  now rewrite Ev.
Qed.

Lemma int_of_group_digits s :
  all_chars Py.is_digit s = true -> s <> "" ->
  String.length s <= Py.int_max_str_digits ->
  exists v n, Py.digitpart s Py.DStart 0 0 = Some (v, n)
              /\ int_of_group s = v.
Proof.
  intros Hall Hne Hlen.
  destruct (int_digits s Hall Hne) as [v [Ev [_ Ei]]].
  exists v, (0 + String.length s). split; [exact Ev|].
  unfold int_of_group. rewrite Ei.
  destruct (Nat.ltb_spec Py.int_max_str_digits (0 + String.length s));
    [lia|reflexivity].
Qed.

Lemma int_of_digits s :
  all_chars Py.is_digit s = true -> s <> "" ->
  (0 <= int_of_group s < 10 ^ Z.of_nat (String.length s))%Z.
Proof.
  intros Hall Hne.
  destruct (int_digits s Hall Hne) as [v [_ [Hb Ei]]].
  unfold int_of_group. rewrite Ei.
  destruct (Py.int_max_str_digits <? 0 + String.length s)%nat; lia.
Qed.

Lemma _extract_int_range text n :
  _extract_int text = Some n -> (0 <= n <= 9999)%Z.
Proof.
  unfold _extract_int, Re.search.
  destruct (Re.search_from re_int None text) as [m|] eqn:E; [|discriminate].
  intros En; inversion En; subst n; clear En.
  destruct (search_from_sound _ _ _ _ E) as [prev [s0 [s1 [_ Hr]]]].
  unfold re_int in Hr. cbn [Re.seq Re.run] in Hr.
  destruct (xorb (Re.word_at prev) (Re.word_at (Re.next_char s1)));
    [|discriminate].
  apply rep_sound in Hr.
  destruct Hr as [pre [s2 [p2 [Es [Hall [Hlo [Hhi Hk]]]]]]].
  destruct (xorb (Re.word_at p2) (Re.word_at (Re.next_char s2)));
    [|discriminate].
  inversion Hk; subst m. subst s1. rewrite captured.
  cbn [Re.group Nat.pred nth app].
  assert (Hne : pre <> "") by (intros ->; simpl in Hlo; lia).
  pose proof (int_of_digits pre Hall Hne) as Hb.
  assert (10 ^ Z.of_nat (String.length pre) <= 10 ^ 4)%Z
    by (apply Z.pow_le_mono_r; lia).
  lia.
Qed.

(** X13.  The number [_extract_int] reads from a text is between 0 and
    9999, and the year [_extract_year] reads is between 2000 and 2099:
    an earlier year, 1999 say, is never taken for a year. *)
Theorem extracted_numbers_are_in_range :
  forall text,
    (forall n, _extract_int text = Some n -> (0 <= n <= 9999)%Z)
    /\ (forall y, _extract_year text = Some y -> (2000 <= y <= 2099)%Z).
Proof.
  intros text. split; [intros n; apply _extract_int_range|].
  intros y. unfold _extract_year, Re.search.
  destruct (Re.search_from re_year None text) as [m|] eqn:E; [|discriminate].
  intros Ey; inversion Ey; subst y; clear Ey.
  destruct (search_from_sound _ _ _ _ E) as [prev [s0 [s1 [_ Hr]]]].
  unfold re_year in Hr. cbn [Re.seq Re.run] in Hr.
  destruct (xorb (Re.word_at prev) (Re.word_at (Re.next_char s1)));
    [|discriminate].
  destruct (Re.eat "20" s1 prev) as [[p s2]|] eqn:Ee; [|discriminate].
  apply eat_sound in Ee.
  apply rep_sound in Hr.
  destruct Hr as [pre [s3 [p3 [Es [Hall [Hlo [Hhi Hk]]]]]]].
  destruct (xorb (Re.word_at p3) (Re.word_at (Re.next_char s3)));
    [|discriminate].
  inversion Hk; subst m. subst s1 s2.
  rewrite <- app_assoc_str, captured.
  cbn [Re.group Nat.pred nth app].
  assert (Hne : pre <> "") by (intros ->; simpl in Hlo; lia).
  destruct (int_of_group_digits ("20" ++ pre)) as [v [n [Ev ->]]];
    [simpl; exact Hall|discriminate
    |simpl String.length; unfold Py.int_max_str_digits; lia|].
  simpl in Ev.
  destruct (digitpart_digits pre Py.DDigit 20 2 Hall) as [v' [Ev' Hb]];
    [lia|assumption|].
  change ((0 * 10 + Py.digit_val "2") * 10 + Py.digit_val "0")%Z
    with 20%Z in Ev.
  rewrite Ev' in Ev. inversion Ev; subst v'.
  assert (String.length pre = 2) by lia.
  replace (Z.of_nat (String.length pre)) with 2%Z in Hb by lia.
  lia.
Qed.

(** X13 on "rows in 1999 and 2024": the year is 2024 and the number is
    1999. *)
Lemma extracted_numbers_of_1999_and_2024 :
  _extract_int "rows in 1999 and 2024" = Some 1999%Z
  /\ _extract_year "rows in 1999 and 2024" = Some 2024%Z
  /\ (0 <= 1999 <= 9999)%Z /\ (2000 <= 2024 <= 2099)%Z.
Proof.
  assert (E1 : _extract_int "rows in 1999 and 2024" = Some 1999%Z)
    by (vm_compute; reflexivity).
  assert (E2 : _extract_year "rows in 1999 and 2024" = Some 2024%Z)
    by (vm_compute; reflexivity).
  split; [exact E1|]. split; [exact E2|]. split.
  - exact (proj1 (extracted_numbers_are_in_range "rows in 1999 and 2024")
             _ E1).
  - exact (proj2 (extracted_numbers_are_in_range "rows in 1999 and 2024")
             _ E2).
Defined.

(** After one of two literals the rest of the pattern matched. *)
Lemma run_alt_lit_then {A} (a b : string) rest prev s caps
    (k : option ascii -> string -> list string -> option A) r :
  Re.run (Re.Seq (Re.Alt (Re.Lit a) (Re.Lit b)) rest) prev s caps k = Some r ->
  exists p s', Re.run rest p s' caps k = Some r.
Proof.
  cbn [Re.run]. intros E.
  destruct (Re.eat a s prev) as [[p s2]|].
  - destruct (Re.run rest p s2 caps k) as [r'|] eqn:Er.
    + inversion E; subst r'. now exists p, s2.
    + destruct (Re.eat b s prev) as [[p' s2']|]; [|discriminate].
      now exists p', s2'.
  - destruct (Re.eat b s prev) as [[p' s2']|]; [|discriminate].
    now exists p', s2'.
Qed.

(** The first group of a match of the top-N pattern is a run of digits. *)
Lemma top_rows_group_digits q m :
  Re.search re_top_rows q = Some m ->
  all_chars Py.is_digit (Re.group m 1) = true /\ Re.group m 1 <> "".
Proof.
  unfold Re.search. intros E.
  destruct (search_from_sound _ _ _ _ E) as [prev [s0 [s1 [_ Hr]]]].
  clear E. unfold re_top_rows, Re.plus, Re.opt in Hr.
  cbn [Re.seq] in Hr. apply run_alt_lit_then in Hr.
  destruct Hr as [p [s2 Hk]]. cbn [Re.run] in Hk.
  apply rep_sound in Hk.
  destruct Hk as [_ [s3 [p3 [_ [_ [_ [_ Hk]]]]]]].
  apply rep_sound in Hk.
  destruct Hk as [pre [s4 [p4 [Es [Hall [Hlo [_ Hk]]]]]]].
  apply rep_sound in Hk.
  destruct Hk as [_ [s5 [p5 [_ [_ [_ [_ Hk]]]]]]].
  destruct (Re.eat "row" s5 p5) as [[p6 s6]|]; [|discriminate].
  apply rep_sound in Hk.
  destruct Hk as [_ [s7 [p7 [_ [_ [_ [_ Hk]]]]]]].
  apply rep_sound in Hk.
  destruct Hk as [_ [s8 [p8 [_ [_ [_ [_ Hk]]]]]]].
  destruct (Re.eat "by" s8 p8) as [[p9 s9]|]; [|discriminate].
  apply rep_sound in Hk.
  destruct Hk as [_ [s10 [p10 [_ [_ [_ [_ Hk]]]]]]].
  apply rep_sound in Hk.
  destruct Hk as [_ [s11 [p11 [_ [_ [_ [_ Hk]]]]]]].
  inversion Hk; subst m. subst s3. rewrite captured.
  cbn [Re.group Nat.pred nth app]. split; [exact Hall|].
  intros ->. simpl in Hlo. lia.
Qed.

Lemma or_int_range n d :
  (forall z, n = Some z -> (0 <= z <= 9999)%Z) ->
  (1 <= d <= 9999)%Z -> (1 <= or_int n d <= 9999)%Z.
Proof.
  intros Hn Hd. unfold or_int. destruct n as [z|]; [|exact Hd].
  specialize (Hn z eq_refl).
  destruct (Z.eqb_spec z 0); [exact Hd|lia].
Qed.

Section PlanNumbers.
Context `{SequenceMatcher}.

(** The numbers of a plan one of the blocks returns. *)
Lemma rules_numbers q n year filters cols p :
  (forall z, n = Some z -> (0 <= z <= 9999)%Z) ->
  In (Some p)
     [rule_meta q n; rule_unique q cols; rule_value_counts q n cols;
      rule_count_rows q year filters cols; rule_top_rows q filters cols;
      rule_sum q year filters cols; rule_average q year filters cols;
      rule_correlation q cols; rule_outlier q cols; rule_trend q cols] ->
  (forall z, p_n p = Some z -> (1 <= z <= 9999)%Z)
  /\ (forall z, p_top_n p = Some z -> (0 <= z)%Z).
Proof.
  intros Hn Hp.
  pose proof (or_int_range n 5 Hn ltac:(lia)) as H5.
  pose proof (or_int_range n 10 Hn ltac:(lia)) as H10.
  simpl in Hp.
  destruct Hp as [E|[E|[E|[E|[E|[E|[E|[E|[E|[E|[]]]]]]]]]]].
  5: { unfold rule_top_rows in E.
       destruct (Re.search re_top_rows q) as [m|] eqn:Em; [|discriminate].
       destruct (top_rows_group_digits q m Em) as [Hall Hne].
       pose proof (int_of_digits _ Hall Hne) as Hb.
       destruct (_resolve_col_from_text (Re.group m 2) cols) as [c|];
         [|discriminate].
       destruct (truthy_str (Some c)); [|discriminate].
       inversion E; subst p. simpl. split; intros z Ez.
       - discriminate Ez.
       - inversion Ez; subst z. lia. }
  all: revert E;
    try unfold rule_meta; try unfold rule_unique;
    try unfold rule_value_counts; try unfold rule_count_rows;
    try unfold rule_sum; try unfold rule_average;
    try unfold rule_correlation; try unfold rule_outlier;
    try unfold rule_trend;
    repeat match goal with
           | |- context [if ?b then _ else _] => destruct b
           | |- context [match ?o with Some _ => _ | None => _ end] =>
               destruct o
           end;
    intros E; inversion E; simpl;
    (split; intros z Ez; [|discriminate Ez]);
    try discriminate Ez; inversion Ez; subst z; assumption.
Qed.
End PlanNumbers.

(** X14.  Whatever the question, the row number [n] of a head, tail or
    value_counts plan is between 1 and 9999 (a 0 in the question gives
    the default), and the [top_n] of a sort_top plan is not negative. *)
Theorem planned_row_numbers_are_in_range :
  forall (M : SequenceMatcher) question cols,
    (forall n, p_n (plan_from_nl question cols) = Some n ->
               (1 <= n <= 9999)%Z)
    /\ (forall n, p_top_n (plan_from_nl question cols) = Some n ->
                  (0 <= n)%Z).
Proof.
  intros M question cols. unfold plan_from_nl.
  apply (first_return_cases
           (fun p => (forall n, p_n p = Some n -> (1 <= n <= 9999)%Z)
                     /\ (forall n, p_top_n p = Some n -> (0 <= n)%Z))).
  - split; intros n En; discriminate En.
  - intros p. apply rules_numbers. intros z. apply _extract_int_range.
Qed.

(** X14 on "show first 0 rows", whose plan asks for 5 rows, and on
    "top 3 row by volume". *)
Lemma planned_row_number_of_first_0_rows :
  p_n (@plan_from_nl Sample.matcher "show first 0 rows" ["volume"])
  = Some 5%Z
  /\ (1 <= 5 <= 9999)%Z
  /\ p_top_n (@plan_from_nl Sample.matcher "top 3 row by volume" ["volume"])
     = Some 3%Z
  /\ (0 <= 3)%Z.
Proof.
  assert (E : p_n (@plan_from_nl Sample.matcher "show first 0 rows"
                     ["volume"]) = Some 5%Z)
    by (vm_compute; reflexivity).
  assert (E' : p_top_n (@plan_from_nl Sample.matcher "top 3 row by volume"
                          ["volume"]) = Some 3%Z)
    by (vm_compute; reflexivity).
  split; [exact E|]. split.
  - exact (proj1 (planned_row_numbers_are_in_range Sample.matcher
                    "show first 0 rows" ["volume"]) _ E).
  - split; [exact E'|].
    exact (proj2 (planned_row_numbers_are_in_range Sample.matcher
                    "top 3 row by volume" ["volume"]) _ E').
Defined.

Local Open Scope list_scope.

(** ** Previews *)

Lemma tail_rows_bound df n :
  (0 <= n)%Z -> length (rows (tail df n)) <= Z.to_nat n.
Proof.
  intros Hn. unfold tail. cbn [rows].
  destruct (Z.ltb_spec n 0); [lia|]. rewrite length_skipn. lia.
Qed.

Lemma head_rows_incl df n : incl (rows (head df n)) (rows df).
Proof. unfold head. cbn [rows]. intros r. apply firstn_in. Qed.

Lemma tail_rows_incl df n : incl (rows (tail df n)) (rows df).
Proof.
  unfold tail. cbn [rows]. intros r Hr.
  rewrite <- (firstn_skipn (Z.to_nat
                              (if (n <? 0)%Z then (- n)%Z
                               else Z.max 0 (Z.of_nat (length (rows df)) - n)))
                (rows df)).
  apply in_or_app. now right.
Qed.

(** X15.  With a row number that is not negative, the table of a head or
    tail plan holds at most that many rows, all of them rows of the
    table, and the tables of a value_counts and of a sort_top plan hold
    at most that many rows. *)
Theorem previews_hold_at_most_n_rows :
  forall (P : Pandas) df plan out,
    execute_plan df plan = Ok out ->
    (p_type plan = "meta:head" \/ p_type plan = "meta:tail" ->
     (0 <= get (p_n plan) 5)%Z ->
     length (rows out) <= Z.to_nat (get (p_n plan) 5%Z)
     /\ columns out = columns df /\ incl (rows out) (rows df))
    /\ (p_type plan = "value_counts" ->
        (0 <= get (p_n plan) 10)%Z ->
        length (rows out) <= Z.to_nat (get (p_n plan) 10%Z))
    /\ (p_type plan = "sort_top" ->
        (0 <= get (p_top_n plan) 10)%Z ->
        length (rows out) <= Z.to_nat (get (p_top_n plan) 10%Z)).
Proof.
  intros P df plan out E. unfold execute_plan in E.
  split; [|split].
  - intros [T|T] Hn; rewrite T in E; simpl String.eqb in E;
      cbv beta iota in E; inversion E; subst out.
    + split; [now apply head_rows_bound|].
      split; [reflexivity|apply head_rows_incl].
    + split; [now apply tail_rows_bound|].
      split; [reflexivity|apply tail_rows_incl].
  - intros T Hn. rewrite T in E. simpl String.eqb in E. cbv beta iota in E.
    destruct (p_col plan) as [c|]; [|discriminate].
    unfold value_counts in E.
    destruct (col_index df c) as [i|]; [|discriminate].
    destruct (String.eqb c "count"); [discriminate|].
    inversion E; subst out. now apply head_rows_bound.
  - intros T Hn. rewrite T in E. simpl String.eqb in E. cbv beta iota in E.
    unfold sort_top in E.
    apply bind_ok in E. destruct E as [data [_ E]].
    destruct (filter _ (get_list (p_by plan))).
    + inversion E; subst out. now apply head_rows_bound.
    + apply bind_ok in E. destruct E as [sorted [_ E]].
      inversion E; subst out. now apply head_rows_bound.
Qed.

(** X15 on the plan of "show first 2 rows" over [Ex.cities] and on a
    sort_top plan with [top_n] 2 over [Ex.states]. *)
Lemma preview_of_first_2_rows :
  (length (rows (head Ex.cities 2)) <= 2
   /\ columns (head Ex.cities 2) = columns Ex.cities
   /\ incl (rows (head Ex.cities 2)) (rows Ex.cities))
  /\ length (rows (head Ex.states 2)) <= 2.
Proof.
  split.
  - apply (proj1 (previews_hold_at_most_n_rows Sample.pandas Ex.cities
                    (plan_n "meta:head" 2) (head Ex.cities 2) eq_refl)).
    + now left.
    + vm_compute. discriminate.
  - apply (proj2 (proj2 (previews_hold_at_most_n_rows Sample.pandas Ex.states
                           (plan_sort_top ["volume"] false 2 [])
                           (head Ex.states 2) eq_refl))).
    + reflexivity.
    + vm_compute. discriminate.
Defined.

(** ** Count questions *)

Lemma dict_set_no_between k v f :
  no_between [(k, v)] = true -> no_between f = true ->
  no_between (dict_set k v f) = true.
Proof.
  unfold no_between. intros Hv. simpl in Hv.
  rewrite andb_true_r in Hv.
  induction f as [|[k' v'] f IH]; simpl; intros Hf.
  - now rewrite Hv.
  - apply andb_true_iff in Hf. destruct Hf as [Hk Hf].
    destruct (String.eqb k k'); simpl.
    + now rewrite Hv, Hf.
    + rewrite Hk. now apply IH.
Qed.

Lemma fold_year_no_between year cols f :
  no_between f = true -> no_between (fold_year year cols f) = true.
Proof.
  intros Hf. unfold fold_year. destruct year as [y|]; [|exact Hf].
  destruct (truthy_int (Some y) && Py.mem "year" cols)%bool; [|exact Hf].
  now apply dict_set_no_between.
Qed.

(** The direct count loop cannot fail on a spec without a range. *)
Lemma count_entries_no_between (P : Pandas) f : forall df,
  no_between f = true ->
  exists data,
    count_entries df f = Ok data
    /\ columns data = columns df /\ incl (rows data) (rows df).
Proof.
  induction f as [|[k v] f IH]; intros df Hf.
  - exists df. repeat split. apply incl_refl.
  - unfold no_between in Hf. simpl in Hf.
    apply andb_true_iff in Hf. destruct Hf as [Hv Hf].
    assert (E : exists d, count_entry df (k, v) = Ok d
                          /\ columns d = columns df
                          /\ incl (rows d) (rows df)).
    { unfold count_entry. cbn [fst snd].
      destruct (col_index df k) as [i|].
      - destruct v as [l|d].
        + eexists. split; [reflexivity|]. split; [reflexivity|].
          apply select_incl.
        + destruct (f_between d); [discriminate|].
          eexists. split; [reflexivity|]. split; [reflexivity|].
          apply select_incl.
      - exists df. repeat split. apply incl_refl. }
    destruct E as [d [Ed [Hc Hi]]].
    destruct (IH d Hf) as [data [Edata [Hc' Hi']]].
    exists data. cbn [count_entries]. rewrite Ed. cbn [bind].
    split; [exact Edata|]. split; [congruence|].
    intros r Hr. apply Hi. now apply Hi'.
Qed.

Section CountPlans.
Context `{SequenceMatcher}.

Lemma _extract_filters_no_between q cols :
  no_between (_extract_filters q cols) = true.
Proof.
  unfold _extract_filters.
  set (f1 := match Re.search re_where_eq q with
             | Some m => _
             | None => []
             end).
  assert (H1 : no_between f1 = true).
  { unfold f1. destruct (Re.search re_where_eq q) as [m|]; [|reflexivity].
    destruct (_resolve_col_from_text (Re.group m 1) cols) as [c|];
      [|reflexivity].
    destruct (truthy_str (Some c)); reflexivity. }
  destruct (Re.search re_where_contains q) as [m|]; [|exact H1].
  destruct (_resolve_col_from_text (Re.group m 1) cols) as [c|]; [|exact H1].
  destruct (truthy_str (Some c)); [|exact H1].
  now apply dict_set_no_between.
Qed.

(** The plans of the blocks whose ops are [{'*': 'count'}]. *)
Lemma rules_star_count q n year filters cols p :
  no_between filters = true ->
  In (Some p)
     [rule_meta q n; rule_unique q cols; rule_value_counts q n cols;
      rule_count_rows q year filters cols; rule_top_rows q filters cols;
      rule_sum q year filters cols; rule_average q year filters cols;
      rule_correlation q cols; rule_outlier q cols; rule_trend q cols] ->
  is_star_count (get_list (p_ops p)) = true ->
  p_type p = "aggregate" /\ get_list (p_group_by p) = []
  /\ exists f, p_filters p = Some f /\ no_between f = true.
Proof.
  intros Hf Hp. pose proof (fold_year_no_between year cols filters Hf) as Hy.
  simpl in Hp.
  destruct Hp as [E|[E|[E|[E|[E|[E|[E|[E|[E|[E|[]]]]]]]]]]]; revert E;
    [unfold rule_meta|unfold rule_unique|unfold rule_value_counts
     |unfold rule_count_rows|unfold rule_top_rows|unfold rule_sum
     |unfold rule_average|unfold rule_correlation|unfold rule_outlier
     |unfold rule_trend];
    unfold ops_of_target;
    repeat match goal with
           | |- context [if ?b then _ else _] => destruct b
           | |- context [match ?o with Some _ => _ | None => _ end] =>
               destruct o
           end;
    intros E; inversion E; simpl; intros Hs;
    try discriminate Hs;
    try (rewrite andb_false_r in Hs; discriminate Hs);
    (split; [reflexivity|]); (split; [reflexivity|]);
    eexists; (split; [reflexivity|]); assumption.
Qed.
End CountPlans.

Lemma literal_only_equality f :
  literal_only f = true -> equality_or_between f = true.
Proof.
  unfold literal_only, equality_or_between.
  induction f as [|[k [l|d]] f IH]; simpl; [reflexivity|exact IH|].
  discriminate.
Qed.

(** A plan of the planner with the ops [{'*': 'count'}] is an aggregate
    plan without grouping. *)
Lemma plan_star_count (M : SequenceMatcher) question cols :
  is_star_count (get_list (p_ops (plan_from_nl question cols))) = true ->
  p_type (plan_from_nl question cols) = "aggregate"
  /\ get_list (p_group_by (plan_from_nl question cols)) = []
  /\ exists f, p_filters (plan_from_nl question cols) = Some f
               /\ no_between f = true.
Proof.
  unfold plan_from_nl.
  set (qq := Py.lower (Py.strip question)).
  pose proof (_extract_filters_no_between qq cols) as Hf.
  apply (first_return_cases
           (fun p => is_star_count (get_list (p_ops p)) = true ->
                     p_type p = "aggregate" /\ get_list (p_group_by p) = []
                     /\ exists f, p_filters p = Some f
                                  /\ no_between f = true)).
  - intros _. split; [reflexivity|]. split; [reflexivity|].
    now exists [].
  - intros p. now apply rules_star_count.
Qed.

(** X16.  On a table with distinct column names, a turn whose call of
    the planner returns a plan (planner.py:55 raises on a row number of
    more than 4300 digits) with the ops [{'*': 'count'}] and filters of
    equality entries only, the plan of a count question without grouping
    and of every question that no block of the planner recognises, never
    fails: it answers with one row, the number of rows [apply_filters]
    keeps for these filters, a selection of the table. *)
Theorem count_turns_return_a_row_count :
  forall (P : Pandas) (M : SequenceMatcher) df q plan,
    NoDup (col_names df) ->
    plan_outcome q (col_names df) = Ok plan ->
    is_star_count (get_list (p_ops plan)) = true ->
    literal_only (get_list (p_filters plan)) = true ->
    exists data,
      answer df q = Ok (row_count_frame data)
      /\ apply_filters df (Some (get_list (p_filters plan))) = Ok data
      /\ columns data = columns df /\ incl (rows data) (rows df).
Proof.
  intros P M df q plan _ Hplan Hs Hl. unfold answer.
  rewrite Hplan. cbn [bind].
  destruct (plan_outcome_ok M _ _ _ Hplan) as [_ ->].
  destruct (plan_star_count M _ _ Hs) as [Ht [Hg [f [Ef _]]]].
  rewrite Ef in *. cbn [get_list get] in *.
  pose proof (apply_filters_literal df f Hl) as Ea.
  eexists. split; [|split; [exact Ea|]].
  - unfold execute_plan. rewrite Ht. simpl String.eqb. cbv beta iota.
    rewrite Hs, Hg, Ef. cbn [length Nat.eqb negb andb get_list get].
    rewrite (count_entries_agree f df (literal_only_equality f Hl)).
    rewrite (apply_entries_literal f df Hl). reflexivity.
  - cbn [columns rows]. split; [reflexivity|].
    intros r Hr. now apply filter_In in Hr.
Qed.

(** X16 on "what is the weather" over [Ex.states]: the number of rows. *)
Lemma count_turn_on_an_unknown_question :
  exists data,
    @answer Sample.pandas Sample.matcher Ex.states "what is the weather"
    = Ok (row_count_frame data)
    /\ @apply_filters Sample.pandas Ex.states
         (Some (get_list
                  (p_filters (@plan_from_nl Sample.matcher
                                "what is the weather"
                                (col_names Ex.states))))) = Ok data
    /\ columns data = columns Ex.states
    /\ incl (rows data) (rows Ex.states).
Proof.
  apply (count_turns_return_a_row_count Sample.pandas Sample.matcher
           Ex.states "what is the weather"
           (@plan_from_nl Sample.matcher "what is the weather"
              (col_names Ex.states))).
  - repeat constructor; simpl; intuition discriminate.
  - vm_compute; reflexivity.
  - vm_compute; reflexivity.
  - vm_compute; reflexivity.
Defined.

(** ** Isolation forest: the rows it is given and the rows returned *)

Lemma col_dtype_nth df i :
  col_dtype df i = snd (nth i (columns df) ("", DObj)).
Proof.
  unfold col_dtype.
  exact (map_nth snd (columns df) ("", DObj) i).
Qed.

Lemma number_positions_in cs : forall k j,
  j < length cs ->
  is_number (snd (nth j cs ("", DObj))) = true ->
  In (k + j) (number_positions cs k).
Proof.
  induction cs as [|[c dt] cs IH]; intros k j Hj Hn; simpl in Hj; [lia|].
  simpl. destruct j as [|j].
  - simpl in Hn. rewrite Hn. left. lia.
  - assert (Hin : In (S k + j) (number_positions cs (S k)))
      by (apply IH; [lia|exact Hn]).
    replace (k + S j) with (S k + j) by lia.
    destruct (is_number dt); [now right|exact Hin].
Qed.

Lemma number_positions_none cs : forall k,
  (forall c, In c cs -> is_number (snd c) = false) ->
  number_positions cs k = [].
Proof.
  induction cs as [|[c dt] cs IH]; intros k Hc; [reflexivity|].
  simpl. rewrite (Hc (c, dt) (or_introl eq_refl) : is_number dt = false).
  apply IH. intros c' Hc'. apply Hc. now right.
Qed.

(** The positions [iforest_outliers] keeps of the names [cols]. *)
Lemma used_positions df cols i :
  In i (flat_map (fun c => match col_index df c with
                           | Some i => [i]
                           | None => []
                           end) cols)
  <-> exists c, In c cols /\ col_index df c = Some i.
Proof.
  rewrite in_flat_map. split.
  - intros [c [Hc Hi]]. exists c. split; [exact Hc|].
    destruct (col_index df c) as [i'|]; [|destruct Hi].
    destruct Hi as [<-|[]]. reflexivity.
  - intros [c [Hc Ei]]. exists c. split; [exact Hc|].
    rewrite Ei. now left.
Qed.

Lemma has_null_false r v : has_null r = false -> In v r -> v <> VNull.
Proof.
  unfold has_null. intros Hn Hv ->.
  assert (E : existsb (fun v => match v with VNull => true | _ => false end)
                      r = true)
    by (apply existsb_exists; now exists VNull).
  congruence.
Qed.

(** X17.  [iforest_outliers] returns rows of the table under its columns,
    and never a row with a missing value in one of the numeric columns it
    was asked to use; when none of the names is a numeric column it
    returns the empty table without calling the forest. *)
Theorem iforest_outliers_returns_complete_rows_of_the_table :
  forall (P : Pandas) df cols contamination random_state,
    (forall out,
        iforest_outliers df cols contamination random_state = Ok out ->
        columns out = columns df
        /\ incl (rows out) (rows df)
        /\ (forall r c i,
               In r (rows out) -> In c cols -> col_index df c = Some i ->
               is_number (col_dtype df i) = true -> cell r i <> VNull))
    /\ ((forall c i, In c cols -> col_index df c = Some i ->
                     is_number (col_dtype df i) = false) ->
        iforest_outliers df cols contamination random_state
        = Ok {| columns := columns df; rows := [] |}).
Proof.
  intros P df cols contamination random_state.
  unfold iforest_outliers.
  set (use := flat_map (fun c => match col_index df c with
                                 | Some i => [i]
                                 | None => []
                                 end) cols).
  set (picked := select_dtypes_number (project df use)).
  set (keep := map (fun r => negb (has_null r)) (rows picked)).
  split.
  - intros out E.
    assert (Hkeep : forall r c i,
               In r (select keep (rows df)) -> In c cols ->
               col_index df c = Some i ->
               is_number (col_dtype df i) = true -> cell r i <> VNull).
    { intros r c i Hr Hc Ei Hn.
      assert (Hi : In i use) by (apply used_positions; now exists c).
      destruct (In_nth use i 0 Hi) as [j [Hj Ej]].
      unfold keep, picked, select_dtypes_number, project in Hr.
      cbn [rows columns] in Hr. rewrite !map_map in Hr.
      rewrite select_map_filter in Hr. apply filter_In in Hr.
      destruct Hr as [_ Hr]. apply negb_true_iff in Hr.
      apply (has_null_false _ _ Hr).
      apply in_map_iff. exists j. split.
      - unfold cell at 1.
        rewrite (nth_indep _ VNull (cell r 0))
          by (rewrite length_map; exact Hj).
        now rewrite (map_nth (cell r) use 0 j), Ej.
      - apply (number_positions_in _ 0 j).
        + now rewrite length_map.
        + rewrite (nth_indep _ ("", DObj) (nth 0 (columns df) ("", DObj)))
            by (rewrite length_map; exact Hj).
          rewrite (map_nth (fun i => nth i (columns df) ("", DObj)) use 0 j).
          now rewrite Ej, <- col_dtype_nth. }
    destruct (empty (narrow picked keep)).
    + inversion E; subst out. cbn [columns rows].
      split; [reflexivity|]. split; [intros r []|intros r c i []].
    + apply bind_ok in E. destruct E as [mask [_ E]].
      inversion E; subst out. cbn [columns rows].
      split; [reflexivity|]. split.
      * intros r Hr. apply (select_incl keep). revert Hr. apply select_incl.
      * intros r c i Hr. apply Hkeep. revert Hr. apply select_incl.
  - intros Hnone.
    assert (Hcols : columns (narrow picked keep) = []).
    { unfold narrow, picked, select_dtypes_number. cbn [columns].
      rewrite number_positions_none; [reflexivity|].
      intros c Hc. unfold project in Hc. cbn [columns] in Hc.
      apply in_map_iff in Hc. destruct Hc as [i [<- Hi]].
      apply used_positions in Hi. destruct Hi as [n [Hn Ei]].
      rewrite <- col_dtype_nth. now apply (Hnone n). }
    unfold empty. rewrite Hcols.
    now destruct (rows (narrow picked keep)).
Qed.

(** X17 on [Ex.cities], which has no numeric column, and on the column x
    of [Ex.regions] with a forest that flags every row it is given: the
    row whose x is missing is not returned. *)
Lemma iforest_outliers_on_cities :
  @iforest_outliers Sample.pandas Ex.cities ["name"; "zip"]
    contamination_default 42
  = Ok {| columns := columns Ex.cities; rows := [] |}
  /\ (columns Ex2.regions_flagged = columns Ex.regions
      /\ incl (rows Ex2.regions_flagged) (rows Ex.regions)
      /\ (forall r c i,
             In r (rows Ex2.regions_flagged) -> In c ["x"] ->
             col_index Ex.regions c = Some i ->
             is_number (col_dtype Ex.regions i) = true ->
             cell r i <> VNull)).
Proof.
  split.
  - apply (proj2 (iforest_outliers_returns_complete_rows_of_the_table
                    Sample.pandas Ex.cities ["name"; "zip"]
                    contamination_default 42%Z)).
    intros c i [<-|[<-|[]]] Ei; [|discriminate Ei].
    inversion Ei; subst i. reflexivity.
  - apply (proj1 (iforest_outliers_returns_complete_rows_of_the_table
                    Ex2.flag_all Ex.regions ["x"]
                    contamination_default 42%Z)).
    reflexivity.
Defined.

(** ** Letter case *)

Lemma to_lower_to_upper c : Py.to_lower (Py.to_upper c) = Py.to_lower c.
Proof. destruct c as [[] [] [] [] [] [] [] []]; reflexivity. Qed.

Lemma is_space_to_upper c : Py.is_space (Py.to_upper c) = Py.is_space c.
Proof. destruct c as [[] [] [] [] [] [] [] []]; reflexivity. Qed.

Lemma is_meta_to_upper c : is_meta (Py.to_upper c) = is_meta c.
Proof. destruct c as [[] [] [] [] [] [] [] []]; reflexivity. Qed.

Lemma lower_upper s : Py.lower (Py.upper s) = Py.lower s.
Proof.
  unfold Py.lower, Py.upper. induction s as [|c s IH]; simpl; [reflexivity|].
  now rewrite to_lower_to_upper, IH.
Qed.

Lemma lstrip_smap f s :
  (forall c, Py.is_space (f c) = Py.is_space c) ->
  Py.lstrip (Py.smap f s) = Py.smap f (Py.lstrip s).
Proof.
  intros Hf. induction s as [|c s IH]; simpl; [reflexivity|].
  rewrite Hf. now destruct (Py.is_space c).
Qed.

Lemma srev_onto_smap f s : forall acc,
  Py.srev_onto (Py.smap f s) (Py.smap f acc)
  = Py.smap f (Py.srev_onto s acc).
Proof.
  induction s as [|c s IH]; intros acc; simpl; [reflexivity|].
  exact (IH (String c acc)).
Qed.

Lemma srev_smap f s : Py.srev (Py.smap f s) = Py.smap f (Py.srev s).
Proof. exact (srev_onto_smap f s EmptyString). Qed.

(** [strip] commutes with a change of characters that keeps white space
    white and the rest not white. *)
Lemma strip_smap f s :
  (forall c, Py.is_space (f c) = Py.is_space c) ->
  Py.strip (Py.smap f s) = Py.smap f (Py.strip s).
Proof.
  intros Hf. unfold Py.strip, Py.rstrip.
  now rewrite srev_smap, (lstrip_smap f _ Hf), srev_smap, (lstrip_smap f _ Hf).
Qed.

Lemma all_chars_upper_meta pat :
  all_chars (fun c => negb (is_meta c)) (Py.upper pat)
  = all_chars (fun c => negb (is_meta c)) pat.
Proof.
  unfold Py.upper. induction pat as [|c pat IH]; simpl; [reflexivity|].
  now rewrite is_meta_to_upper, IH.
Qed.

(** X18.  On a table with distinct column names, a 'contains' entry of
    ASCII text without a character of the regular-expression syntax, on
    a column whose cells are not missing and read as ASCII text, keeps
    the rows whose cell, as a text, holds the text with the letter case
    ignored on both sides; the same entry in capitals keeps the same
    rows. *)
Theorem contains_ignores_letter_case :
  forall (P : Pandas) df k i pat,
    NoDup (col_names df) ->
    col_index df k = Some i ->
    all_chars (fun c => negb (is_meta c)) pat = true ->
    is_ascii pat = true ->
    (forall r, In r (rows df) ->
               cell r i <> VNull /\ is_ascii (astype_str (cell r i)) = true) ->
    apply_filters df (Some [(k, FDict (preds_contains (LStr pat)))])
    = Ok {| columns := columns df;
            rows := filter (fun r =>
                              Py.str_in (Py.lower pat)
                                (Py.lower (astype_str (cell r i))))
                           (rows df) |}
    /\ apply_filters df
         (Some [(k, FDict (preds_contains (LStr (Py.upper pat))))])
       = apply_filters df (Some [(k, FDict (preds_contains (LStr pat)))]).
Proof.
  intros P df k i pat _ Ei Hpat _ _.
  assert (E : forall t,
             Py.lower t = Py.lower pat ->
             all_chars (fun c => negb (is_meta c)) t = true ->
             apply_filters df (Some [(k, FDict (preds_contains (LStr t)))])
             = Ok {| columns := columns df;
                     rows := filter (fun r =>
                                       Py.str_in (Py.lower pat)
                                         (Py.lower (astype_str (cell r i))))
                                    (rows df) |}).
  { intros t Et Ht.
    unfold apply_filters, apply_entries, apply_entry. cbn [fst snd].
    rewrite Ei. unfold entry_mask, preds_contains.
    cbn [f_between f_in f_contains f_startswith f_endswith f_gt f_gte f_lt
         f_lte step bind str_of_literal].
    unfold str_contains_nocase. rewrite Ht, Et. cbn [bind].
    unfold narrow, series. rewrite select_and_true, !map_map.
    now rewrite (select_map_filter
                   (fun r => Py.str_in (Py.lower pat)
                               (Py.lower (astype_str (cell r i))))). }
  split.
  - now apply E.
  - rewrite (E pat eq_refl Hpat). apply E.
    + apply lower_upper.
    + now rewrite all_chars_upper_meta.
Qed.

(** X18 on [Ex.cities]: 'tex' and 'TEX' keep Texas and texarkana. *)
Lemma contains_tex_in_capitals :
  @apply_filters Sample.pandas Ex.cities (Some Ex.contains_tex)
  = Ok Ex.cities_tex
  /\ @apply_filters Sample.pandas Ex.cities
       (Some [("name", FDict (preds_contains (LStr "TEX")))])
     = @apply_filters Sample.pandas Ex.cities (Some Ex.contains_tex).
Proof.
  apply (contains_ignores_letter_case Sample.pandas Ex.cities "name" 0 "tex").
  - repeat constructor; simpl; intuition discriminate.
  - reflexivity.
  - reflexivity.
  - reflexivity.
  - intros r Hr. simpl in Hr.
    repeat (destruct Hr as [<-|Hr]; [split; [discriminate|reflexivity]|]).
    destruct Hr.
Defined.

(** X19.  The planner does not depend on the letter case of a question
    of ASCII text: the question in capitals gets the plan of the
    question, and the call of the planner raises on the one when it
    raises on the other. *)
Theorem plan_ignores_the_letter_case_of_the_question :
  forall (M : SequenceMatcher) question cols,
    is_ascii question = true ->
    plan_from_nl (Py.upper question) cols = plan_from_nl question cols
    /\ plan_outcome (Py.upper question) cols = plan_outcome question cols.
Proof.
  intros M question cols _.
  assert (E : Py.lower (Py.strip (Py.upper question))
              = Py.lower (Py.strip question)).
  { unfold Py.upper. rewrite (strip_smap _ _ is_space_to_upper).
    apply lower_upper. }
  assert (Ep : plan_from_nl (Py.upper question) cols
               = plan_from_nl question cols)
    by (unfold plan_from_nl; now rewrite E).
  split; [exact Ep|].
  unfold plan_outcome, plan_from_nl_raises. now rewrite E, Ep.
Qed.

(** X19 on "Count rows by Region" over the columns of [Ex.regions]. *)
Lemma plan_of_count_rows_by_region_in_capitals :
  @plan_from_nl Sample.matcher (Py.upper "Count rows by Region")
    (col_names Ex.regions)
  = @plan_from_nl Sample.matcher "Count rows by Region" (col_names Ex.regions)
  /\ @plan_outcome Sample.matcher (Py.upper "Count rows by Region")
       (col_names Ex.regions)
     = @plan_outcome Sample.matcher "Count rows by Region"
         (col_names Ex.regions).
Proof.
  apply (plan_ignores_the_letter_case_of_the_question Sample.matcher
           "Count rows by Region" (col_names Ex.regions)).
  reflexivity.
Defined.

(** ** The column the year is derived from *)

Lemma combine_seq_names (cs : list (string * dtype)) : forall k,
  map (fun ci : string * dtype * nat => fst (fst ci))
      (combine cs (seq k (length cs)))
  = map fst cs.
Proof.
  induction cs as [|c cs IH]; intros k; simpl; [reflexivity|].
  now rewrite IH.
Qed.

(** The schema has one entry per column, in the order of the columns. *)
Lemma infer_schema_names (D : Dates) df :
  map fst (infer_schema df) = col_names df.
Proof.
  unfold infer_schema, col_names. rewrite map_map.
  rewrite <- (combine_seq_names (columns df) 0).
  apply map_ext. intros [[c dt] i]. cbn [fst snd].
  destruct (is_number dt); [reflexivity|].
  now destruct (parses_as_datetime (series df i)).
Qed.

Lemma year_candidate_in cols schema c :
  (forall x, In x (map fst schema) -> In x cols) ->
  year_candidate cols schema = Some c -> In c cols /\ c <> "".
Proof.
  intros Hs. unfold year_candidate.
  set (name_hint := filter _ cols).
  set (dt_cols := map fst (filter _ schema)).
  set (candidate := match name_hint with
                    | c0 :: _ => Some c0
                    | [] => hd_error dt_cols
                    end).
  destruct (truthy_str candidate) eqn:Et; [|discriminate].
  intros E. split.
  - unfold candidate in E. destruct name_hint as [|c0 l] eqn:En.
    + apply hd_error_in in E. unfold dt_cols in E.
      apply in_map_iff in E. destruct E as [[x t] [<- Hx]].
      apply filter_In in Hx. destruct Hx as [Hx _].
      apply Hs. apply in_map_iff. now exists (x, t).
    + inversion E; subst c0.
      assert (Hc : In c name_hint) by (rewrite En; now left).
      unfold name_hint in Hc. now apply filter_In in Hc.
  - rewrite E in Et. simpl in Et. intros ->. discriminate Et.
Qed.

(** X20.  The column [main] derives the year from is a column of the
    table and its name is not empty, so reading it cannot fail; a
    [--date-col] that names a column is the one taken, and one that names
    none is replaced by the guess. *)
Theorem year_source_is_a_column :
  forall (D : Dates) df date_col c,
    NoDup (col_names df) ->
    year_source date_col (col_names df) (infer_schema df) = Some c ->
    In c (col_names df) /\ c <> ""
    /\ (forall t, date_col = Some t -> t <> "" -> In t (col_names df) ->
                  c = t)
    /\ (forall t, date_col = Some t -> ~ In t (col_names df) ->
                  year_candidate (col_names df) (infer_schema df) = Some c).
Proof.
  intros D df date_col c _ E.
  assert (Hs : forall x, In x (map fst (infer_schema df)) ->
                         In x (col_names df))
    by (intros x; now rewrite infer_schema_names).
  unfold year_source in E. destruct date_col as [t|].
  - destruct (truthy_str (Some t) && Py.mem t (col_names df))%bool eqn:Et.
    + inversion E; subst c.
      apply andb_true_iff in Et. destruct Et as [Et Em].
      split; [now apply mem_in|].
      split; [intros ->; discriminate Et|].
      split; [intros t' Ht'; now inversion Ht'|].
      intros t' Ht' Hn. inversion Ht'; subst t'.
      apply mem_in in Em. contradiction.
    + destruct (year_candidate_in _ _ _ Hs E) as [Hc Hne].
      split; [exact Hc|]. split; [exact Hne|]. split.
      * intros t' Ht' Hne' Hin. inversion Ht'; subst t'.
        apply mem_in in Hin. rewrite Hin, andb_true_r in Et.
        simpl in Et. apply negb_false_iff in Et.
        apply String.eqb_eq in Et. contradiction.
      * intros _ _ _. exact E.
  - destruct (year_candidate_in _ _ _ Hs E) as [Hc Hne].
    split; [exact Hc|]. split; [exact Hne|].
    split; intros t Ht; discriminate Ht.
Qed.

(** X20 on [Ex2.visits] with [--date-col when]: no column has that name,
    and the column gas_day is taken for its name. *)
Lemma year_source_of_visits :
  In "gas_day" (col_names Ex2.visits) /\ "gas_day" <> ""
  /\ (forall t, Some "when" = Some t -> t <> "" ->
                In t (col_names Ex2.visits) -> "gas_day" = t)
  /\ (forall t, Some "when" = Some t -> ~ In t (col_names Ex2.visits) ->
                year_candidate (col_names Ex2.visits)
                  (@infer_schema Ex2.dates Ex2.visits) = Some "gas_day").
Proof.
  apply (year_source_is_a_column Ex2.dates Ex2.visits (Some "when")
           "gas_day").
  - repeat constructor; simpl; intuition discriminate.
  - reflexivity.
Defined.

(** ** Normalised names *)

Lemma all_chars_sfilter p s : all_chars p (sfilter p s) = true.
Proof.
  induction s as [|c s IH]; simpl; [reflexivity|].
  destruct (p c) eqn:Ec; simpl; [now rewrite Ec|exact IH].
Qed.

Lemma sfilter_all p s : all_chars p s = true -> sfilter p s = s.
Proof.
  induction s as [|c s IH]; simpl; [reflexivity|].
  intros E. apply andb_true_iff in E. destruct E as [Ec Es].
  now rewrite Ec, IH.
Qed.

Lemma to_lower_alnum c : cls_alnum c = true -> Py.to_lower c = c.
Proof. destruct c as [[] [] [] [] [] [] [] []]; try discriminate; reflexivity. Qed.

Lemma lower_alnum s : all_chars cls_alnum s = true -> Py.lower s = s.
Proof.
  unfold Py.lower. induction s as [|c s IH]; simpl; [reflexivity|].
  intros E. apply andb_true_iff in E. destruct E as [Ec Es].
  now rewrite to_lower_alnum, IH.
Qed.

(** X21.  [_normalize] returns lower-case letters and digits only and
    leaves a normalised text as it is; on ASCII text it does not depend
    on the letter case of its argument. *)
Theorem normalize_is_a_normal_form :
  forall s,
    all_chars cls_alnum (_normalize s) = true
    /\ _normalize (_normalize s) = _normalize s
    /\ (is_ascii s = true -> _normalize (Py.upper s) = _normalize s).
Proof.
  intros s. unfold _normalize.
  pose proof (all_chars_sfilter cls_alnum (Py.lower s)) as Hall.
  split; [exact Hall|]. split.
  - rewrite (lower_alnum _ Hall). now apply sfilter_all.
  - intros _. now rewrite lower_upper.
Qed.

(** X21 on 'Gas_Day 2': the normalised name is 'gasday2'. *)
Lemma normalize_of_gas_day :
  _normalize "Gas_Day 2" = "gasday2"
  /\ _normalize (Py.upper "Gas_Day 2") = _normalize "Gas_Day 2".
Proof.
  split; [reflexivity|].
  apply (proj2 (proj2 (normalize_is_a_normal_form "Gas_Day 2"))).
  reflexivity.
Defined.

(** ** Counts *)

Lemma duplicated_bounds rs : forall seen,
  (0 <= duplicated seen rs <= Z.of_nat (length rs))%Z.
Proof.
  induction rs as [|r rs IH]; intros seen; simpl duplicated.
  - simpl. lia.
  - specialize (IH (r :: seen)).
    change (length (r :: rs)) with (S (length rs)).
    destruct (existsb (key_eqb r) seen); lia.
Qed.

Lemma distinct_length ks : forall seen,
  length (distinct seen ks) <= length ks.
Proof.
  induction ks as [|k ks IH]; intros seen; simpl; [lia|].
  destruct (existsb (key_eqb k) seen).
  - specialize (IH seen). lia.
  - specialize (IH (k :: seen)). simpl. lia.
Qed.

(** X22.  The number of duplicate rows is below the number of rows (the
    first row is never a duplicate), and the unique count of a column is
    at most the number of its cells that are not missing: it is 0 when
    all are missing, and at least 1 when one holds a text or an
    integer. *)
Theorem counts_are_bounded_by_the_rows :
  forall df,
    (exists d,
        rows (duplicates_count df) = [[VInt d]]
        /\ (0 <= d)%Z
        /\ (d <= Z.max 0 (Z.of_nat (length (rows df)) - 1))%Z)
    /\ (forall col i,
           col_index df col = Some i ->
           exists u,
             unique_count df col
             = Ok {| columns := [("column", DObj); ("unique_count", DInt)];
                     rows := [[VStr col; VInt (Z.of_nat u)]] |}
             /\ u <= length (filter (fun v => match v with
                                              | VNull => false
                                              | _ => true
                                              end) (series df i))
             /\ ((forall v, In v (series df i) -> v = VNull) -> u = 0)
             /\ ((exists v, In v (series df i) /\ v <> VNull
                            /\ exact_cell v = true) -> 1 <= u)).
Proof.
  intros df. split.
  - exists (duplicated [] (rows df)). split; [reflexivity|].
    destruct (rows df) as [|r rs]; [simpl; lia|].
    simpl duplicated. pose proof (duplicated_bounds rs [r]) as Hb.
    change (length (r :: rs)) with (S (length rs)). lia.
  - intros col i Ei. unfold unique_count. rewrite Ei.
    set (present := filter _ (series df i)).
    exists (length (distinct [] (map (fun v => [v]) present))).
    split; [reflexivity|]. split.
    + pose proof (distinct_length (map (fun v => [v]) present) []) as Hl.
      now rewrite length_map in Hl.
    + split.
      * intros Hall. destruct present as [|v0 l] eqn:Ep; [reflexivity|].
        assert (Hv : In v0 present) by (rewrite Ep; now left).
        unfold present in Hv. apply filter_In in Hv.
        destruct Hv as [Hv Hn]. rewrite (Hall v0 Hv) in Hn. discriminate Hn.
      * intros [v [Hv [Hne _]]].
        assert (Hp : In v present)
          by (apply filter_In; split; [exact Hv|now destruct v]).
        destruct present as [|v0 l]; [destruct Hp|]. simpl. lia.
Qed.

(** X22 on the column region of [Ex2.regions_int]. *)
Lemma unique_count_of_region :
  exists u,
    unique_count Ex2.regions_int "region"
    = Ok {| columns := [("column", DObj); ("unique_count", DInt)];
            rows := [[VStr "region"; VInt (Z.of_nat u)]] |}
    /\ u <= length (filter (fun v => match v with
                                     | VNull => false
                                     | _ => true
                                     end) (series Ex2.regions_int 0))
    /\ ((forall v, In v (series Ex2.regions_int 0) -> v = VNull) -> u = 0)
    /\ ((exists v, In v (series Ex2.regions_int 0) /\ v <> VNull
                   /\ exact_cell v = true) -> 1 <= u).
Proof.
  exact (proj2 (counts_are_bounded_by_the_rows Ex2.regions_int)
           "region" 0 eq_refl).
Defined.

(** ** Membership in a list of one value *)



(** ** Extensions of downloads *)

(** X24.  Whatever the address and the headers, a download without an
    extension gets one that [_read_dataframe] reads with the reader of
    its format, never as an unknown extension. *)
Theorem download_ext_is_a_known_format :
  forall url headers,
    Py.mem (format_of_ext (download_ext url headers))
           ["csv"; "excel"; "parquet"] = true.
Proof.
  intros url headers.
  unfold download_ext, _guess_ext_from_headers.
  destruct (Py.str_in "parquet" _); [reflexivity|].
  destruct (Py.str_in "excel" _ || Py.str_in "spreadsheetml" _
            || Py.str_in "xlsx" url)%bool; [reflexivity|].
  destruct (Py.str_in "csv" _ || Py.endswith (Py.lower url) ".csv")%bool;
    reflexivity.
Qed.

(** ** Outlier questions on tables without text *)

Section OutlierPlans.
Context `{SequenceMatcher}.

(** A z-score plan comes from the outlier block. *)
Lemma rules_zscore q n year filters cols p :
  In (Some p)
     [rule_meta q n; rule_unique q cols; rule_value_counts q n cols;
      rule_count_rows q year filters cols; rule_top_rows q filters cols;
      rule_sum q year filters cols; rule_average q year filters cols;
      rule_correlation q cols; rule_outlier q cols; rule_trend q cols] ->
  Py.startswith (p_type p) "anomaly:zscore" = true ->
  rule_outlier q cols = Some p.
Proof.
  intros Hp. simpl in Hp.
  destruct Hp as [E|[E|[E|[E|[E|[E|[E|[E|[E|[E|[]]]]]]]]]]];
    try (intros _; exact E); revert E;
    [unfold rule_meta|unfold rule_unique|unfold rule_value_counts
     |unfold rule_count_rows|unfold rule_top_rows|unfold rule_sum
     |unfold rule_average|unfold rule_correlation|unfold rule_trend];
    repeat match goal with
           | |- context [if ?b then _ else _] => destruct b
           | |- context [match ?o with Some _ => _ | None => _ end] =>
               destruct o
           end;
    intros E; inversion E; simpl; intros T; discriminate T.
Qed.

(** On a table with a column, the outlier block names one. *)
Lemma rule_outlier_column q c0 cols p :
  rule_outlier q (c0 :: cols) = Some p ->
  exists c, p_col p = Some c /\ In c (c0 :: cols).
Proof.
  intros E.
  assert (Hc : exists c, p_col p = Some c).
  { revert E. unfold rule_outlier.
    destruct (Py.str_in "outlier" q || Py.str_in "anomaly" q
              || Py.str_in "weird" q)%bool; [|discriminate].
    intros E. inversion E. cbn [p_col plan_zscore hd_error].
    set (inner := or_str (_resolve_col_from_text _ _) _).
    unfold or_str.
    destruct inner as [c|]; cbn [truthy_str].
    - destruct (negb (String.eqb c "")); eexists; reflexivity.
    - eexists; reflexivity. }
  destruct Hc as [c Ec]. exists c. split; [exact Ec|].
  apply (rule_outlier_columns q (c0 :: cols) p E).
  unfold plan_columns. rewrite Ec. now left.
Qed.
End OutlierPlans.

(** X25.  On a table of int64 and float64 columns only, at least one,
    with distinct names and no text cell, a turn whose call of the
    planner returns a z-score plan (planner.py:55 raises on a row number
    of more than 4300 digits) returns a selection of the table: the
    column the planner names exists and all its cells convert to
    floats. *)
Theorem outlier_turns_return_on_tables_without_text :
  forall (P : Pandas) (M : SequenceMatcher) df q plan,
    NoDup (col_names df) ->
    col_names df <> [] ->
    forallb (fun c => is_number (snd c)) (columns df) = true ->
    (forall r v, In r (rows df) -> In v r ->
                 match v with VStr _ => False | _ => True end) ->
    plan_outcome q (col_names df) = Ok plan ->
    Py.startswith (p_type plan) "anomaly:zscore" = true ->
    exists out,
      answer df q = Ok out
      /\ columns out = columns df /\ incl (rows out) (rows df).
Proof.
  intros P M df q plan _ Hcols _ Hcells Hplan. unfold answer.
  rewrite Hplan. cbn [bind].
  destruct (plan_outcome_ok M _ _ _ Hplan) as [_ ->]. clear Hplan.
  unfold plan_from_nl.
  apply (first_return_cases
           (fun p => Py.startswith (p_type p) "anomaly:zscore" = true ->
                     exists out,
                       execute_plan df p = Ok out
                       /\ columns out = columns df
                       /\ incl (rows out) (rows df))).
  - intros T. discriminate T.
  - intros p Hp T.
    pose proof (rules_zscore _ _ _ _ _ _ Hp T) as E.
    destruct (col_names df) as [|c0 cols] eqn:Ecols; [congruence|].
    destruct (rule_outlier_column _ _ _ _ E) as [c [Ec Hc]].
    rewrite <- Ecols in Hc.
    destruct (in_col_index df c Hc) as [i Ei].
    destruct (zscore_outliers_returns df c i (get (p_threshold p) 3%float) Ei)
      as [out Eout].
    { apply forallb_forall. intros v Hv. unfold series in Hv.
      apply in_map_iff in Hv. destruct Hv as [r [<- Hr]].
      unfold cell. destruct (nth_in_or_default i r VNull) as [Hin| ->];
        [|reflexivity].
      specialize (Hcells r _ Hr Hin). now destruct (nth i r VNull). }
    exists out.
    destruct (zscore_outliers_rows _ _ _ _ Eout)
      as [i' [xs [_ [_ [Hco Hro]]]]].
    split; [|split; [exact Hco|rewrite Hro; apply select_incl]].
    destruct (prefix_split _ _ T) as [rest Et].
    unfold execute_plan. rewrite Et, Ec.
    apply mem_in in Hc. rewrite Hc.
    destruct rest; exact Eout.
Qed.

(** X25 on "any outliers?" over [Ex.spike]. *)
Lemma outlier_turn_on_spike :
  exists out,
    @answer Sample.pandas Sample.matcher Ex.spike "any outliers?" = Ok out
    /\ columns out = columns Ex.spike /\ incl (rows out) (rows Ex.spike).
Proof.
  apply (outlier_turns_return_on_tables_without_text Sample.pandas
           Sample.matcher Ex.spike "any outliers?"
           (@plan_from_nl Sample.matcher "any outliers?"
              (col_names Ex.spike))).
  - repeat constructor; simpl; intuition discriminate.
  - discriminate.
  - reflexivity.
  - intros r v Hr Hv.
    destruct Hr as [<-|[<-|[<-|[<-|[<-|[]]]]]];
      destruct Hv as [<-|[]]; exact I.
  - vm_compute; reflexivity.
  - reflexivity.
Defined.

(** ** Thresholds *)

Lemma SFleb_trans x y z :
  SFleb x y = true -> SFleb y z = true -> SFleb x z = true.
Proof.
  unfold SFleb, SFcompare.
  destruct x as [sx|sx| |sx mx ex], y as [sy|sy| |sy my ey],
           z as [sz|sz| |sz mz ez];
    try discriminate; try reflexivity;
    try destruct sx; try destruct sy; try destruct sz;
    try discriminate; try reflexivity;
    change (Pos.compare_cont Eq) with Pos.compare;
    repeat match goal with
           | |- context [Z.compare ?a ?b] =>
               destruct (Z.compare_spec a b); try subst
           end;
    repeat match goal with
           | |- context [Pos.compare ?a ?b] =>
               destruct (Pos.compare_spec a b); try subst
           end;
    simpl; try discriminate; try reflexivity; try lia.
Qed.

Lemma leb_trans (x y z : float) :
  (x <=? y)%float = true -> (y <=? z)%float = true ->
  (x <=? z)%float = true.
Proof. rewrite !leb_spec. apply SFleb_trans. Qed.

(** A mask that implies another selects some of its rows. *)
Lemma select_mono {A B} (g1 g2 : B -> bool) (xs : list B) : forall rs : list A,
  (forall x, g2 x = true -> g1 x = true) ->
  incl (select (map g2 xs) rs) (select (map g1 xs) rs)
  /\ length (select (map g2 xs) rs) <= length (select (map g1 xs) rs).
Proof.
  intros rs Hg. revert rs.
  induction xs as [|x xs IH]; intros [|r rs]; simpl;
    try (split; [apply incl_refl|lia]).
  destruct (IH rs) as [Hi Hl].
  destruct (g2 x) eqn:E2.
  - rewrite (Hg x E2). split; [|simpl; lia].
    intros y [<-|Hy]; [now left|right; now apply Hi].
  - destruct (g1 x); [|now split].
    split; [|simpl; lia].
    intros y Hy. right. now apply Hi.
Qed.

(** X26.  Raising the threshold of [zscore_outliers] never adds a row:
    the rows returned at the higher threshold are among those returned at
    the lower one; and whether the call returns does not depend on the
    threshold. *)
Theorem raising_the_threshold_never_adds_outliers :
  forall df col t1 t2 out1,
    (t1 <=? t2)%float = true ->
    zscore_outliers df col t1 = Ok out1 ->
    exists out2,
      zscore_outliers df col t2 = Ok out2
      /\ columns out2 = columns out1
      /\ incl (rows out2) (rows out1)
      /\ length (rows out2) <= length (rows out1).
Proof.
  intros df col t1 t2 out1 Ht E.
  destruct (zscore_outliers_rows _ _ _ _ E) as [i [xs [Ei [Exs [Hc Hr]]]]].
  unfold zscore_outliers. rewrite Ei, Exs. cbn [bind].
  eexists. split; [reflexivity|]. cbn [columns rows narrow].
  split; [now rewrite Hc|].
  rewrite Hr. unfold zscores, Np.std. rewrite map_map.
  apply (select_mono
           (fun x => (t1 <=? abs ((x - Np.mean xs)
                                  / (sqrt (Np.var 0 xs) + epsilon)))%float)
           (fun x => (t2 <=? abs ((x - Np.mean xs)
                                  / (sqrt (Np.var 0 xs) + epsilon)))%float)).
  intros x. now apply leb_trans.
Qed.

(** X26 on [Ex.spike] from the threshold 1.9 to 3: the row returned at
    1.9 is no longer returned at 3. *)
Lemma raising_the_threshold_on_spike :
  exists out2,
    zscore_outliers Ex.spike "v" 3%float = Ok out2
    /\ columns out2 = columns Ex.spike
    /\ incl (rows out2) [[VInt 10]]
    /\ length (rows out2) <= 1.
Proof.
  apply (raising_the_threshold_never_adds_outliers Ex.spike "v"
           Ex.below_spike_z 3%float
           {| columns := columns Ex.spike; rows := [[VInt 10]] |}).
  - reflexivity.
  - vm_compute. reflexivity.
Defined.

(** ** Specs in two parts *)

(** X27.  Filtering by a spec in two parts is filtering by the first
    part, then filtering the result by the second, with the same
    exceptions; so entries added to a spec never add rows. *)
Theorem apply_filters_composes :
  forall (P : Pandas) df f g,
    apply_filters df (Some (f ++ g))
    = (d <- apply_filters df (Some f) ;; apply_filters d (Some g))
    /\ (forall out1 out2,
           apply_filters df (Some f) = Ok out1 ->
           apply_filters df (Some (f ++ g)) = Ok out2 ->
           columns out2 = columns out1
           /\ incl (rows out2) (rows out1)
           /\ length (rows out2) <= length (rows out1)).
Proof.
  intros P df f g.
  assert (E : forall d h, apply_filters d (Some h) = apply_entries d h)
    by (intros d [|kv h]; reflexivity).
  assert (Ec : apply_filters df (Some (f ++ g))
               = (d <- apply_filters df (Some f) ;;
                  apply_filters d (Some g))).
  { rewrite !E, apply_entries_app.
    destruct (apply_entries df f) as [d|e]; [|reflexivity].
    cbn [bind]. now rewrite E. }
  split; [exact Ec|].
  intros out1 out2 E1 E2. rewrite Ec, E1 in E2. cbn [bind] in E2.
  destruct (apply_filters_shrinks _ _ _ E2) as [Hc [Hl Hi]].
  repeat split; assumption.
Qed.

(** X27 on [Ex.states]: state = TX, then volume = 10. *)
Lemma apply_filters_in_two_parts_on_states :
  @apply_filters Sample.pandas Ex.states
    (Some ([("state", FLit (LStr "TX"))] ++ [("volume", FLit (LInt 10))]))
  = (d <- @apply_filters Sample.pandas Ex.states
            (Some [("state", FLit (LStr "TX"))]) ;;
     @apply_filters Sample.pandas d (Some [("volume", FLit (LInt 10))])).
Proof.
  exact (proj1 (apply_filters_composes Sample.pandas Ex.states
                  [("state", FLit (LStr "TX"))]
                  [("volume", FLit (LInt 10))])).
Defined.
